(** * OSM-roads-comparison: v.osm.precomp and v.osm.preproc

    A shallow embedding of the two GRASS GIS scripts of the repository
    (Python 2: [print] statement, list-returning [map]) and the
    properties of their control flow, text parsing and report layout.

    The scripts drive an external GIS session.  The session is a
    parameter of the development ([Grass]): what a command prints is a
    function of the commands issued so far.  The Python built-ins whose
    definition lies outside the repository ([int], [float], [round],
    [str] on floats, [math.atan]) are parameters too ([Python]).
    Floats are IEEE binary64 numbers, as in CPython. *)

From Stdlib Require Import String Ascii List ZArith Bool Lia.
From Stdlib Require Import Floats.PrimFloat.
Import ListNotations.

Local Open Scope string_scope.
Local Open Scope list_scope.

Infix "@@" := String.append (at level 60, right associativity).

(** ** Python strings and lists *)

Definition nl : ascii := "010"%char.

(** [s.split(sep)] for a one-character separator, the only kind the
    scripts use: [''.split(c) == ['']], ['a|'.split('|') == ['a', '']]. *)
Fixpoint split (sep : ascii) (s : string) : list string :=
  match s with
  | EmptyString => [EmptyString]
  | String c s' =>
      if Ascii.eqb c sep then EmptyString :: split sep s'
      else match split sep s' with
           | [] => [String c EmptyString]
           | w :: ws => String c w :: ws
           end
  end.

(** [s.replace(a, b)] for one-character [a] and [b]. *)
Fixpoint replace (a b : ascii) (s : string) : string :=
  match s with
  | EmptyString => EmptyString
  | String c s' => String (if Ascii.eqb c a then b else c) (replace a b s')
  end.

(** [sep.join(l)]. *)
Fixpoint join (sep : string) (l : list string) : string :=
  match l with
  | [] => ""
  | [x] => x
  | x :: l' => x @@ sep @@ join sep l'
  end.

(** The slices [l[1:-1]] and [l[0:-1]]. *)
Definition slice_1_m1 {A} (l : list A) : list A := removelast (tl l).
Definition slice_0_m1 {A} (l : list A) : list A := removelast l.

(** [x in l] on strings. *)
Definition str_in (x : string) (l : list string) : bool :=
  existsb (String.eqb x) l.

(** [len(s) > 0], also the truth value of a string. *)
Definition nonempty (s : string) : bool :=
  match s with EmptyString => false | _ => true end.

(** The characters [s.strip()] removes: space, tab, newline, return,
    vertical tab and form feed. *)
Definition is_space (c : ascii) : bool :=
  existsb (Ascii.eqb c) [" "; "009"; "010"; "013"; "011"; "012"]%char.

Fixpoint lstrip (s : string) : string :=
  match s with
  | EmptyString => EmptyString
  | String c s' => if is_space c then lstrip s' else s
  end.

Fixpoint rstrip (s : string) : string :=
  match s with
  | EmptyString => EmptyString
  | String c s' =>
      match rstrip s' with
      | EmptyString => if is_space c then EmptyString else String c EmptyString
      | r => String c r
      end
  end.

(** [s.strip()]. *)
Definition strip (s : string) : string := rstrip (lstrip s).

(** [s.split(sep)] for a separator of several characters, from the left
    and without overlap; [skip] counts the characters of a separator
    still to pass. *)
Fixpoint split_from (sep : string) (skip : nat) (s : string) : list string :=
  match s with
  | EmptyString => [EmptyString]
  | String c s' =>
      match skip with
      | S k => split_from sep k s'
      | O =>
          if String.prefix sep s
          then EmptyString :: split_from sep (String.length sep - 1) s'
          else match split_from sep 0 s' with
               | [] => [String c EmptyString]
               | w :: ws => String c w :: ws
               end
      end
  end.

Definition split_str (sep : string) (s : string) : list string :=
  split_from sep 0 s.

(** The lines [for line in open(fileName)] yields, without the newline
    that ends them: a text that ends in a newline has no line after it. *)
Definition file_lines (content : string) : list string :=
  let l := split nl content in
  if String.eqb (last l EmptyString) EmptyString then removelast l else l.

(** ** Python values of mixed type

    An option of the command line reaches the script as a string; the
    angle computed by the script is a float.  CPython 2 orders values of
    different types: a number is smaller than any string. *)
Inductive pyval : Type :=
| PyFloat (x : float)
| PyStr (s : string).

Definition py_le (a b : pyval) : bool :=
  match a, b with
  | PyFloat x, PyFloat y => PrimFloat.leb x y
  | PyFloat _, PyStr _ => true
  | PyStr _, PyFloat _ => false
  | PyStr s, PyStr t => negb (String.ltb t s)
  end.

(** ** The GIS session: commands, events, exceptions *)

Inductive arg : Type :=
| Str (s : string)
| Strs (l : list string)
| Num (x : float)
| Int (n : Z)
| Flag (b : bool).

(** A GRASS module invocation: the module and its keyword arguments, in
    the order the script writes them. *)
Record command : Type := Cmd { module_name : string; kwargs : list (string * arg) }.

Inductive event : Type :=
| Run (c : command)                            (* grass.run_command *)
| Read (c : command)                           (* grass.read_command *)
| FileWritten (path : string) (text : string)  (* open(path, "w") ... close() *)
| Print (text : string)                        (* print *)
| Plotted (out : string).                      (* Plot(...): the six figures *)

Inductive exn : Type :=
| Fatal (msg : string)              (* grass.fatal: message, then exit *)
| IndexError
| ValueError
| ZeroDivisionError
| UnboundLocalError (name : string)
| Blocked.                          (* a queue operation that never returns *)

Inductive result (A : Type) : Type :=
| Ok (a : A)
| Raise (e : exn).
Arguments Ok {A} a.
Arguments Raise {A} e.

(** A computation reads the events so far and returns its result with
    the events extended. *)
Definition M (A : Type) : Type := list event -> result A * list event.

Definition ret {A} (a : A) : M A := fun tr => (Ok a, tr).

Definition bind {A B} (m : M A) (k : A -> M B) : M B :=
  fun tr =>
    match m tr with
    | (Ok a, tr') => k a tr'
    | (Raise e, tr') => (Raise e, tr')
    end.

Definition raise {A} (e : exn) : M A := fun tr => (Raise e, tr).

(** [try: m except: h], the bare [except] that catches everything. *)
Definition try_except {A} (m : M A) (h : M A) : M A :=
  fun tr =>
    match m tr with
    | (Ok a, tr') => (Ok a, tr')
    | (Raise _, tr') => h tr'
    end.

(** An exception that ends a process and nothing else: the parent does
    not see it. *)
Definition attempt {A} (m : M A) : M (option A) :=
  fun tr =>
    match m tr with
    | (Ok a, tr') => (Ok (Some a), tr')
    | (Raise Blocked, tr') => (Raise Blocked, tr')
    | (Raise _, tr') => (Ok None, tr')
    end.

Declare Scope py_scope.
Delimit Scope py_scope with py.
Notation "x <- c1 ;; c2" := (bind c1 (fun x => c2))
  (at level 100, c1 at next level, right associativity) : py_scope.
Notation "c1 ;; c2" := (bind c1 (fun _ => c2))
  (at level 100, right associativity) : py_scope.
Local Open Scope py_scope.

Definition emit (e : event) : M unit := fun tr => (Ok tt, tr ++ [e]).

Definition run_command (c : command) : M unit := emit (Run c).
Definition print (text : string) : M unit := emit (Print text).
Definition write_file (path : string) (pieces : list string) : M unit :=
  emit (FileWritten path (String.concat "" pieces)).

(** [l[i]]. *)
Definition index {A} (l : list A) (i : nat) : M A :=
  match nth_error l i with
  | Some x => ret x
  | None => raise IndexError
  end.

(** A local variable read before (or after) its assignment. *)
Definition local {A} (name : string) (v : option A) : M A :=
  match v with
  | Some x => ret x
  | None => raise (UnboundLocalError name)
  end.

(** [for x in l: s = body(s, x)]. *)
Fixpoint for_each {A S} (l : list A) (body : S -> A -> M S) (s : S) : M S :=
  match l with
  | [] => ret s
  | x :: l' => s' <- body s x ;; for_each l' body s'
  end.

(** [[f(x) for x in l]] and [map(f, l)] for a function that may raise. *)
Fixpoint map_m {A B} (f : A -> M B) (l : list A) : M (list B) :=
  match l with
  | [] => ret []
  | x :: l' => y <- f x ;; ys <- map_m f l' ;; ret (y :: ys)
  end.

(** The Python built-ins the scripts call.  [None] is [ValueError]. *)
Class Python : Type := {
  int_of_str : string -> option Z;        (* int(s) *)
  float_of_str : string -> option float;  (* float(s) *)
  round1 : float -> float;                (* round(x, 1) *)
  str_of_float : float -> string;         (* str(x), "%s" % x, "{}".format(x) *)
  math_atan : float -> float              (* math.atan(x) *)
}.

(** The GIS session and the clock. *)
Class Grass : Type := {
  grass_stdout : list event -> command -> string;   (* what a module prints *)
  grass_find_file : list event -> string -> bool;   (* find_file(name, 'vector')['file'] is not empty *)
  grass_overwrite : bool;                           (* grass.overwrite() *)
  grass_db_connection : string * string;            (* driver, database *)
  time_time : list event -> float                   (* time.time() *)
}.

Definition options : Type := string -> string.

Section Runtime.
Context {py : Python} {gr : Grass}.

Definition read_command (c : command) : M string :=
  fun tr => (Ok (grass_stdout tr c), tr ++ [Read c]).

Definition find_file (name : string) : M bool :=
  fun tr => (Ok (grass_find_file tr name), tr).

Definition now : M float := fun tr => (Ok (time_time tr), tr).

Definition py_int (s : string) : M Z :=
  match int_of_str s with Some n => ret n | None => raise ValueError end.

Definition py_float (s : string) : M float :=
  match float_of_str s with Some x => ret x | None => raise ValueError end.

(** [x / y] on floats: Python raises where IEEE would give inf or nan. *)
Definition py_div (x y : float) : M float :=
  if PrimFloat.eqb y 0 then raise ZeroDivisionError else ret (x / y)%float.

(** [str(time.time()).replace(".", "_")]. *)
Definition new_processid : M string :=
  t <- now ;; ret (replace "." "_" (str_of_float t)).

Definition fatal {A} (msg : string) : M A := raise (Fatal msg).
End Runtime.

(** ** v.osm.precomp *)

Module Precomp.
Section Script.
Context {py : Python} {gr : Grass}.

(** [length(data)]: the feature count of [v.info -t] decides whether the
    length table of [v.to.db] is read and summed. *)
Definition length (data : string) : M float :=
  info <- read_command (Cmd "v.info" [("map", Str data); ("flags", Str "t");
                                      ("quiet", Flag true)]) ;;
  line <- index (split nl info) 2 ;;
  field <- index (split "=" line) 1 ;;
  feat_osm <- py_int field ;;
  if (0 <? feat_osm)%Z then
    length_data <- read_command (Cmd "v.to.db" [("map", Str data);
                                                ("option", Str "length");
                                                ("flags", Str "p")]) ;;
    let l_data := split nl length_data in
    for_each (slice_1_m1 l_data)
      (fun s_data item =>
         field <- index (split "|" item) 1 ;;
         x <- py_float field ;;
         ret (s_data + x)%float)
      0%float
  else ret 0%float.

(** [GetStat(osm, ref, buff)]. *)
Definition GetStat (osm ref : string) (buff : float)
  : M (float * float * float * float) :=
  processid <- new_processid ;;
  let ref_buffer := "ref_buffer_" @@ processid in
  let osm_buffer := "osm_buffer_" @@ processid in
  let ref_in := "ref_in_" @@ processid in
  let ref_out := "ref_out_" @@ processid in
  let osm_in := "osm_in_" @@ processid in
  let osm_out := "osm_out_" @@ processid in
  run_command (Cmd "v.buffer" [("input", Str osm); ("output", Str osm_buffer);
                               ("distance", Num buff); ("type", Str "line");
                               ("overwrite", Flag true); ("quiet", Flag true)]) ;;
  run_command (Cmd "v.overlay" [("ainput", Str ref); ("binput", Str osm_buffer);
                                ("operator", Str "and"); ("output", Str ref_in);
                                ("atype", Str "line"); ("flags", Str "t");
                                ("overwrite", Flag true); ("quiet", Flag true)]) ;;
  run_command (Cmd "v.overlay" [("ainput", Str ref); ("binput", Str osm_buffer);
                                ("operator", Str "not"); ("output", Str ref_out);
                                ("atype", Str "line"); ("flags", Str "t");
                                ("overwrite", Flag true); ("quiet", Flag true)]) ;;
  s_ref_in <- length ref_in ;;
  s_ref_out <- length ref_out ;;
  run_command (Cmd "v.buffer" [("input", Str ref); ("output", Str ref_buffer);
                               ("distance", Num buff); ("type", Str "line");
                               ("overwrite", Flag true); ("quiet", Flag true)]) ;;
  run_command (Cmd "v.overlay" [("ainput", Str osm); ("binput", Str ref_buffer);
                                ("operator", Str "and"); ("output", Str osm_in);
                                ("atype", Str "line"); ("flags", Str "t");
                                ("overwrite", Flag true); ("quiet", Flag true)]) ;;
  run_command (Cmd "v.overlay" [("ainput", Str osm); ("binput", Str ref_buffer);
                                ("operator", Str "not"); ("output", Str osm_out);
                                ("atype", Str "line"); ("flags", Str "t");
                                ("overwrite", Flag true); ("quiet", Flag true)]) ;;
  s_osm_in <- length osm_in ;;
  s_osm_out <- length osm_out ;;
  run_command (Cmd "g.remove" [("type", Str "vect"); ("pattern", Str processid);
                               ("flags", Str "fr"); ("quiet", Flag true)]) ;;
  ret (s_ref_in, s_ref_out, s_osm_in, s_osm_out).

(** The eight lists [main] fills, one element per buffer value. *)
Record stat_lists : Type := {
  l_osm_in : list float;  l_var_osm_in : list float;
  l_osm_out : list float; l_var_osm_out : list float;
  l_ref_in : list float;  l_var_ref_in : list float;
  l_ref_out : list float; l_var_ref_out : list float
}.

Definition no_stats : stat_lists :=
  {| l_osm_in := []; l_var_osm_in := []; l_osm_out := []; l_var_osm_out := [];
     l_ref_in := []; l_var_ref_in := []; l_ref_out := []; l_var_ref_out := [] |}.

(** [round(s / total * 100, 1)]. *)
Definition percentage (s total : float) : M float :=
  q <- py_div s total ;; ret (round1 (q * 100)%float).

(** The body of [for b in list_buff]. *)
Definition stat_step (osm ref : string) (s_osm s_ref : float)
  (acc : stat_lists) (b : float) : M stat_lists :=
  st <- GetStat osm ref b ;;
  let '(s_ref_in, s_ref_out, s_osm_in, s_osm_out) := st in
  let osm_in := l_osm_in acc ++ [round1 s_osm_in] in
  v <- percentage s_osm_in s_osm ;;
  let var_osm_in := l_var_osm_in acc ++ [v] in
  let ref_in := l_ref_in acc ++ [round1 s_ref_in] in
  v <- percentage s_ref_in s_ref ;;
  let var_ref_in := l_var_ref_in acc ++ [v] in
  let osm_out := l_osm_out acc ++ [round1 s_osm_out] in
  v <- percentage s_osm_out s_osm ;;
  let var_osm_out := l_var_osm_out acc ++ [v] in
  let ref_out := l_ref_out acc ++ [round1 s_ref_out] in
  v <- percentage s_ref_out s_ref ;;
  let var_ref_out := l_var_ref_out acc ++ [v] in
  ret {| l_osm_in := osm_in; l_var_osm_in := var_osm_in;
         l_osm_out := osm_out; l_var_osm_out := var_osm_out;
         l_ref_in := ref_in; l_var_ref_in := var_ref_in;
         l_ref_out := ref_out; l_var_ref_out := var_ref_out |}.

(** One row of the table: ["%s|%s|%s|%s|%s|%s|%s|%s|%s\n" % (...)], every
    field read at position [item] of its list. *)
Definition table_row (list_buff : list float) (st : stat_lists) (item : nat)
  : M string :=
  b <- index list_buff item ;;
  oi <- index (l_osm_in st) item ;;
  voi <- index (l_var_osm_in st) item ;;
  oo <- index (l_osm_out st) item ;;
  voo <- index (l_var_osm_out st) item ;;
  ri <- index (l_ref_in st) item ;;
  vri <- index (l_var_ref_in st) item ;;
  ro <- index (l_ref_out st) item ;;
  vro <- index (l_var_ref_out st) item ;;
  ret (join "|" (map str_of_float [b; oi; voi; oo; voo; ri; vri; ro; vro])
         @@ String nl "").

(** The header is written as it stands in the source: no [%] operator is
    applied to it, and its [%%] reaches the file. *)
Definition table_header : string :=
  "BUFFER(m)|OSM_IN(m)|OSM_IN(%%)|OSM_OUT(m)|OSM_OUT(%%)|REF_IN(m)|REF_IN(%%)|REF_OUT(m)|REF_OUT(%%)"
    @@ String nl "".

(** [main()].  [processid] is a local variable of [main], assigned only
    after the two length checks. *)
Definition main (options : options) : M unit :=
  let osm := options "osm" in
  let ref := options "ref" in
  let buff := options "buffers" in
  let roi := options "roi" in
  let out_graphs := options "out_graphs" in
  let out := options "output" in
  let processid : option string := None in
  found <- find_file osm ;;
  (if negb found then fatal ("Vector map <" @@ osm @@ "> not found") else ret tt) ;;
  found <- find_file ref ;;
  (if negb found then fatal ("Vector map <" @@ ref @@ "> not found") else ret tt) ;;
  (if nonempty roi then
     found <- find_file roi ;;
     if negb found then fatal ("Vector map <" @@ roi @@ "> not found") else ret tt
   else ret tt) ;;
  s_ref <- length ref ;;
  s_osm <- length osm ;;
  (if PrimFloat.eqb s_ref 0 then
     pid <- local "processid" processid ;;
     run_command (Cmd "g.remove" [("type", Str "vect"); ("pattern", Str pid);
                                  ("flags", Str "fr"); ("quiet", Flag true)]) ;;
     fatal "No reference data for comparison"
   else ret tt) ;;
  (if PrimFloat.eqb s_osm 0 then
     pid <- local "processid" processid ;;
     run_command (Cmd "g.remove" [("type", Str "vect"); ("pattern", Str pid);
                                  ("flags", Str "fr"); ("quiet", Flag true)]) ;;
     fatal "No OSM data for comparison"
   else ret tt) ;;
  let diff := (s_ref - s_osm)%float in
  q <- py_div diff s_ref ;;
  let diff_p := (q * 100)%float in
  processid <- new_processid ;;
  let ref_roi := "ref_roi_" @@ processid in
  let osm_roi := "osm_roi_" @@ processid in
  names <-
    (if nonempty roi then
       run_command (Cmd "v.overlay" [("ainput", Str ref); ("atype", Str "line");
                                     ("binput", Str roi); ("operator", Str "and");
                                     ("output", Str ref_roi); ("flags", Str "t");
                                     ("quiet", Flag true)]) ;;
       run_command (Cmd "v.overlay" [("ainput", Str osm); ("atype", Str "line");
                                     ("binput", Str roi); ("operator", Str "and");
                                     ("output", Str osm_roi); ("flags", Str "t");
                                     ("quiet", Flag true)]) ;;
       ret (ref_roi, osm_roi)
     else ret (ref, osm)) ;;
  let '(ref, osm) := names in
  list_buff <- map_m py_float (split "," buff) ;;
  st <- for_each list_buff (stat_step osm ref s_osm s_ref) no_stats ;;
  rows <- map_m (table_row list_buff st) (seq 0 (List.length list_buff)) ;;
  write_file out
    ([ "REF length: " @@ str_of_float (round1 s_ref) @@ " m" @@ String nl "";
       "OSM length: " @@ str_of_float (round1 s_osm) @@ " m" @@ String nl "";
       "REF-OSM difference: " @@ str_of_float (round1 diff) @@ " m ("
         @@ str_of_float (round1 diff_p) @@ "%)" @@ String nl "";
       String nl "";
       table_header ] ++ rows) ;;
  run_command (Cmd "g.remove" [("type", Str "vect"); ("pattern", Str processid);
                               ("flags", Str "fr"); ("quiet", Flag true)]) ;;
  if nonempty out_graphs then emit (Plotted out_graphs) else ret tt.

(** [GetInfo(fileName)], on the content of the file. *)
Definition GetInfo (content : string) : M (float * float) :=
  let lines := map strip (file_lines content) in
  line <- index lines 3 ;;
  field <- index (split_str ": " line) 1 ;;
  ref_in <- index (split " " field) 0 ;;
  line <- index lines 5 ;;
  field <- index (split_str ": " line) 1 ;;
  osm_in <- index (split " " field) 0 ;;
  x <- py_float ref_in ;;
  y <- py_float osm_in ;;
  ret (x, y).

End Script.
End Precomp.

(** ** v.osm.preproc *)

Module Preproc.
Section Script.
Context {py : Python} {gr : Grass}.

(** [length(data)], the same text as in v.osm.precomp. *)
Definition length (data : string) : M float :=
  info <- read_command (Cmd "v.info" [("map", Str data); ("flags", Str "t");
                                      ("quiet", Flag true)]) ;;
  line <- index (split nl info) 2 ;;
  field <- index (split "=" line) 1 ;;
  feat_osm <- py_int field ;;
  if (0 <? feat_osm)%Z then
    length_data <- read_command (Cmd "v.to.db" [("map", Str data);
                                                ("option", Str "length");
                                                ("flags", Str "p")]) ;;
    let l_data := split nl length_data in
    for_each (slice_1_m1 l_data)
      (fun s_data item =>
         field <- index (split "|" item) 1 ;;
         x <- py_float field ;;
         ret (s_data + x)%float)
      0%float
  else ret 0%float.

(** [10**9], the coefficient of a vertical line.  The source has the
    integer; every use of it is in float arithmetic or in an integer
    quotient that is zero, so the float stands for both. *)
Definition vertical : float := 1000000000%float.

(** [GetCoeff(vect)].  The table of start points is read and indexed
    before the [try]; the [try] covers the rest. *)
Definition GetCoeff (vect : string) : M float :=
  out <- read_command (Cmd "v.to.db" [("map", Str vect); ("option", Str "start");
                                      ("type", Str "line"); ("flags", Str "p")]) ;;
  coord_start <- index (split nl out) 1 ;;
  try_except
    (field <- index (split "|" coord_start) 1 ;;
     x_start <- py_float field ;;
     field <- index (split "|" coord_start) 2 ;;
     y_start <- py_float field ;;
     out <- read_command (Cmd "v.to.db" [("map", Str vect); ("option", Str "end");
                                         ("type", Str "line"); ("flags", Str "p")]) ;;
     coord_end <- index (split nl out) 1 ;;
     field <- index (split "|" coord_end) 1 ;;
     x_end <- py_float field ;;
     field <- index (split "|" coord_end) 2 ;;
     y_end <- py_float field ;;
     if negb (PrimFloat.eqb (x_end - x_start) 0)
     then py_div (y_end - y_start) (x_end - x_start)
     else ret vertical)
    (ret vertical).

(** [math.degrees(x)]: [x * (180.0 / pi)]. *)
Definition degrees (x : float) : float := (x * 0x1.ca5dc1a63c1f8p+5)%float.

(** [math.degrees(abs(math.atan((m_ref - m_osm) / (1 + m_ref * m_osm))))]. *)
Definition new_angle (m_ref m_osm : float) : M float :=
  q <- py_div (m_ref - m_osm) (1 + m_ref * m_osm) ;;
  ret (degrees (PrimFloat.abs (math_atan q))).

(** The body of [for sf in list_subfeature]; [z] is the suffix of the
    last patch map ([0], then the last patched subfeature). *)
Definition subfeature_step (f patch newodata : string) (m_ref : float)
  (angle_thres : pyval) (z sf : string) : M string :=
  let newnewodata := newodata @@ "_" @@ sf in
  run_command (Cmd "v.extract" [("input", Str newodata); ("output", Str newnewodata);
                                ("where", Str ("cat=" @@ sf)); ("quiet", Flag true)]) ;;
  m_osm <- GetCoeff newnewodata ;;
  angle <- new_angle m_ref m_osm ;;
  if py_le (PyFloat angle) angle_thres then
    let newpatch := patch @@ "_" @@ f @@ "_" @@ z in
    let outpatch := patch @@ "_" @@ f @@ "_" @@ sf in
    run_command (Cmd "v.patch" [("quiet", Flag true);
                                ("input", Str (newpatch @@ "," @@ newnewodata));
                                ("output", Str outpatch)]) ;;
    run_command (Cmd "g.remove" [("type", Str "vect"); ("flags", Str "f");
                                 ("name", Str (newpatch @@ "," @@ newnewodata));
                                 ("quiet", Flag true)]) ;;
    ret sf
  else
    run_command (Cmd "g.remove" [("type", Str "vect"); ("name", Str newnewodata);
                                 ("flags", Str "f"); ("quiet", Flag true)]) ;;
    ret z.

(** [AngulatComparison(f, processid, ref, osm, bf, list_lines, angle_thres)]. *)
Definition AngulatComparison (f processid ref osm bf : string)
  (list_lines : list string) (angle_thres : pyval) : M Z :=
  let z := "0" in
  let fdata := "fdata_" @@ processid in
  let fbuffer := "fbuffer_" @@ processid in
  let odata := "odata_" @@ processid in
  let patch := "patch_" @@ processid in
  let newfdata := fdata @@ "_" @@ f in
  let newbuffer := fbuffer @@ "_" @@ f in
  let newodata := odata @@ "_" @@ f in
  run_command (Cmd "v.extract" [("input", Str ref); ("quiet", Flag true);
                                ("output", Str newfdata);
                                ("where", Str ("cat=" @@ f))]) ;;
  run_command (Cmd "g.copy" [("vect", Str ("patch_" @@ processid @@ "_0_0,"
                                           @@ patch @@ "_" @@ f @@ "_0"))]) ;;
  (if str_in f list_lines then
     run_command (Cmd "v.buffer" [("flags", Str "c"); ("distance", Str bf);
                                  ("quiet", Flag true); ("input", Str newfdata);
                                  ("output", Str newbuffer)])
   else
     run_command (Cmd "v.buffer" [("distance", Str bf); ("quiet", Flag true);
                                  ("input", Str newfdata);
                                  ("output", Str newbuffer)])) ;;
  run_command (Cmd "v.overlay" [("ainput", Str osm); ("atype", Str "line");
                                ("quiet", Flag true); ("binput", Str newbuffer);
                                ("output", Str newodata); ("operator", Str "and")]) ;;
  info <- read_command (Cmd "v.info" [("flags", Str "t"); ("quiet", Flag true);
                                      ("map", Str newodata)]) ;;
  line <- index (split nl info) 2 ;;
  lines <- index (split "=" line) 1 ;;
  n <- py_int lines ;;
  (if (n =? 0)%Z then
     run_command (Cmd "g.remove" [("type", Str "vect"); ("flags", Str "f");
                                  ("quiet", Flag true);
                                  ("name", Strs [newfdata; newbuffer; newodata])])
   else
     sel <- read_command (Cmd "v.db.select" [("map", Str newodata);
                                             ("columns", Str "cat");
                                             ("flags", Str "c");
                                             ("quiet", Flag true)]) ;;
     let list_subfeature := slice_0_m1 (split nl sel) in
     m_ref <- GetCoeff newfdata ;;
     for_each list_subfeature
       (subfeature_step f patch newodata m_ref angle_thres) z ;;
     run_command (Cmd "g.remove" [("type", Str "vect"); ("flags", Str "f");
                                  ("quiet", Flag true);
                                  ("name", Strs [newfdata; newbuffer; newodata])])) ;;
  ret 0%Z.

(** The tuple a worker takes from [q_in]; the tuple of [None]s that ends
    the cycle is [None]. *)
Definition task : Type :=
  option (string * string * string * string * string * list string * pyval).

(** [spawn(func)(q_in, q_out)]: the loop of one worker process over the
    items it takes from [q_in], its results appended to [q_out].  A
    [get] on an empty queue never returns; an exception of [func] ends
    the process. *)
Fixpoint spawn
  (func : string -> string -> string -> string -> string -> list string -> pyval -> M Z)
  (q_in : list task) (q_out : list Z) : M (list Z) :=
  match q_in with
  | [] => raise Blocked
  | None :: _ => ret q_out
  | Some (f, process, ref, osm, bf, list_lines, angle_thres) :: q_in' =>
      r <- func f process ref osm bf list_lines angle_thres ;;
      spawn func q_in' (q_out ++ [r])
  end.

(** [Process(target=spawn(func), args=(q_in, q_out))], started and run to
    its end: the loop of [spawn] in a process of its own.  The process
    ends when it takes the tuple of [None]s, or when [func] raises; the
    markers it has put stay on [q_out], and the items it has not taken
    stay on [q_in].  What is returned is the two queues as it leaves
    them. *)
Fixpoint process
  (func : string -> string -> string -> string -> string -> list string -> pyval -> M Z)
  (q_in : list task) (q_out : list Z) : M (list task * list Z) :=
  match q_in with
  | [] => raise Blocked
  | None :: q_in' => ret (q_in', q_out)
  | Some (f, process_id, ref, osm, bf, list_lines, angle_thres) :: q_in' =>
      r <- attempt (func f process_id ref osm bf list_lines angle_thres) ;;
      match r with
      | Some r => process func q_in' (q_out ++ [r])
      | None => ret (q_in', q_out)
      end
  end.

(** The [nproc] worker processes, in the schedule in which they run one
    after the other, each taking items until it ends. *)
Fixpoint processes
  (func : string -> string -> string -> string -> string -> list string -> pyval -> M Z)
  (nproc : nat) (q_in : list task) (q_out : list Z) : M (list task * list Z) :=
  match nproc with
  | O => ret (q_in, q_out)
  | S nproc' =>
      st <- process func q_in q_out ;;
      processes func nproc' (fst st) (snd st)
  end.

(** [[q_out.get() for _ in procs]]. *)
Definition get_all (nproc : nat) (q_out : list Z) : M (list Z) :=
  if (nproc <=? List.length q_out)%nat then ret (firstn nproc q_out)
  else raise Blocked.

(** [min(l)] on floats. *)
Definition py_min (l : list float) : M float :=
  match l with
  | [] => raise ValueError
  | x :: l' => ret (fold_left (fun best y => if PrimFloat.ltb y best then y else best) l' x)
  end.

Definition rule : string :=
  "#####################################################################" @@ String nl "".

(** [main()].  The items [main] puts on [q_in] are the features, then one
    tuple of [None]s per worker; the worker processes run in the schedule
    of [processes] (with one worker, the default, there is no other).  An
    exception in a worker ends that worker only, and [main] goes on.
    [q_in] has one place: when the workers have ended and two items or
    more are left that no worker has taken, the [put] of the second never
    returns. *)
Definition main (options : options) : M Z :=
  let osm := options "osm" in
  let ref := options "ref" in
  let bf := options "buffer" in
  let angle_thres := options "angle_thres" in
  let doug := options "douglas_thres" in
  let out := options "output" in
  let out_file := options "out_file" in
  nproc <- py_int (options "nprocs") ;;
  found <- find_file osm ;;
  (if negb found then fatal ("Vector map <" @@ osm @@ "> not found") else ret tt) ;;
  found <- find_file ref ;;
  (if negb found then fatal ("Vector map <" @@ ref @@ "> not found") else ret tt) ;;
  processid <- new_processid ;;
  let ref_gen := "ref_gen_" @@ processid in
  let ref_split := "ref_split_" @@ processid in
  let osm_split := "osm_split_" @@ processid in
  let deg_points := "deg_points_" @@ processid in
  let degmin_points := "degmin_points_" @@ processid in
  let ref_degmin := "ref_degmin_" @@ processid in
  let outbuff := "outbuff_" @@ processid in
  l_osm <- length osm ;;
  l_ref <- length ref ;;
  (if PrimFloat.eqb l_ref 0 then
     run_command (Cmd "g.remove" [("flags", Str "fr"); ("type", Str "vect");
                                  ("quiet", Flag true); ("pattern", Str processid)]) ;;
     fatal "No reference data for comparison"
   else ret tt) ;;
  (if PrimFloat.eqb l_osm 0 then
     run_command (Cmd "g.remove" [("type", Str "vect"); ("flags", Str "fr");
                                  ("quiet", Flag true); ("pattern", Str processid)]) ;;
     fatal "No OSM data for comparison"
   else ret tt) ;;
  ref <-
    (if nonempty doug then
       run_command (Cmd "v.generalize" [("input", Str ref); ("output", Str ref_gen);
                                        ("method", Str "douglas");
                                        ("threshold", Str doug);
                                        ("quiet", Flag true)]) ;;
       ret ref_gen
     else ret ref) ;;
  let newrefsplit := "new_" @@ ref_split in
  run_command (Cmd "v.split" [("input", Str ref); ("output", Str ref_split);
                              ("vertices", Int 2); ("quiet", Flag true)]) ;;
  run_command (Cmd "v.build.polylines" [("quiet", Flag true); ("input", Str ref_split);
                                        ("overwrite", Flag grass_overwrite);
                                        ("cats", Str "same");
                                        ("output", Str newrefsplit)]) ;;
  run_command (Cmd "g.remove" [("type", Str "vect"); ("name", Str ref_split);
                               ("flags", Str "f"); ("quiet", Flag true)]) ;;
  run_command (Cmd "g.rename" [("vector", Str (newrefsplit @@ "," @@ ref_split))]) ;;
  let ref := ref_split in
  let newosmsplit := "new_" @@ osm_split in
  run_command (Cmd "v.split" [("input", Str osm); ("output", Str osm_split);
                              ("vertices", Int 2); ("quiet", Flag true)]) ;;
  run_command (Cmd "v.build.polylines" [("quiet", Flag true); ("input", Str osm_split);
                                        ("overwrite", Flag grass_overwrite);
                                        ("cats", Str "same");
                                        ("output", Str newosmsplit)]) ;;
  run_command (Cmd "g.remove" [("type", Str "vect"); ("name", Str osm_split);
                               ("flags", Str "f"); ("quiet", Flag true)]) ;;
  run_command (Cmd "g.rename" [("vector", Str (newosmsplit @@ "," @@ osm_split))]) ;;
  let osm_orig := osm in
  let osm := osm_split in
  run_command (Cmd "v.net.centrality" [("input", Str ref); ("output", Str deg_points);
                                       ("degree", Str "degree"); ("flags", Str "a");
                                       ("quiet", Flag true)]) ;;
  sel <- read_command (Cmd "v.db.select" [("map", Str deg_points);
                                          ("columns", Str "degree");
                                          ("flags", Str "c"); ("quiet", Flag true)]) ;;
  let list_values := slice_0_m1 (split nl sel) in
  values <- map_m py_float list_values ;;
  degmin <- py_min values ;;
  run_command (Cmd "v.extract" [("input", Str deg_points); ("output", Str degmin_points);
                                ("where", Str ("degree=" @@ str_of_float degmin));
                                ("quiet", Flag true)]) ;;
  run_command (Cmd "v.select" [("ainput", Str ref); ("binput", Str degmin_points);
                               ("output", Str ref_degmin); ("operator", Str "overlap");
                               ("quiet", Flag true)]) ;;
  sel <- read_command (Cmd "v.db.select" [("map", Str ref_degmin); ("columns", Str "cat");
                                          ("flags", Str "c"); ("quiet", Flag true)]) ;;
  let list_lines := slice_0_m1 (split nl sel) in
  run_command (Cmd "v.edit" [("map", Str ("patch_" @@ processid @@ "_0_0"));
                             ("tool", Str "create"); ("quiet", Flag true)]) ;;
  sel <- read_command (Cmd "v.db.select" [("map", Str ref); ("columns", Str "cat");
                                          ("flags", Str "c"); ("quiet", Flag true)]) ;;
  let list_feature := slice_0_m1 (split nl sel) in
  let olddb := grass_db_connection in
  run_command (Cmd "db.connect" [("driver", Str "pg"); ("database", Str "grassdata")]) ;;
  run_command (Cmd "db.login" [("user", Str "lucadelu"); ("port", Str "5432");
                               ("host", Str "localhost"); ("overwrite", Flag true)]) ;;
  let tasks : list task :=
    map (fun f => Some (f, processid, ref, osm, bf, list_lines, PyStr angle_thres))
      list_feature in
  let nprocs := Z.to_nat nproc in
  st <- processes AngulatComparison nprocs (tasks ++ repeat None nprocs) [] ;;
  let q_out := snd st in
  (if (1 <? List.length (fst st))%nat then raise Blocked else ret tt) ;;
  processed <- get_all nprocs q_out ;;
  let errors := filter (fun p => negb (p =? 0)%Z) processed in
  match errors with
  | _ :: _ => print "Some errors occurred during analysis" ;; ret 0%Z
  | [] =>
  run_command (Cmd "db.connect" [("driver", Str (fst olddb));
                                 ("database", Str (snd olddb))]) ;;
  sel <- read_command (Cmd "g.list" [("type", Str "vect"); ("pattern", Str "patch*");
                                     ("quiet", Flag true)]) ;;
  let last_map := slice_0_m1 (split nl sel) in
  let finalpatch := "patch_" @@ processid @@ "_final" in
  run_command (Cmd "v.patch" [("input", Strs last_map); ("output", Str finalpatch);
                              ("quiet", Flag true)]) ;;
  (* distance=0.0001, as the nearest float *)
  run_command (Cmd "v.buffer" [("input", Str finalpatch); ("output", Str outbuff);
                               ("distance", Num 0x1.a36e2eb1c432dp-14); ("quiet", Flag true)]) ;;
  run_command (Cmd "v.overlay" [("ainput", Str osm_orig); ("atype", Str "line");
                                ("binput", Str outbuff); ("output", Str out);
                                ("operator", Str "and"); ("flags", Str "t");
                                ("quiet", Flag true)]) ;;
  run_command (Cmd "g.remove" [("type", Str "vect"); ("flags", Str "f");
                               ("name", Strs [deg_points; ref_degmin; degmin_points;
                                              ref_gen; ref_split; osm_split; outbuff]);
                               ("quiet", Flag true)]) ;;
  run_command (Cmd "g.remove" [("flags", Str "f"); ("type", Str "vect");
                               ("pattern", Str ("*" @@ processid @@ "*"));
                               ("quiet", Flag true)]) ;;
  l_osm_proc <- length out ;;
  let diff_osm := (l_osm - l_osm_proc)%float in
  q <- py_div diff_osm l_osm ;;
  let diff_p_osm := (q * 100)%float in
  let diff_new := (l_ref - l_osm_proc)%float in
  q <- py_div diff_new l_ref ;;
  let diff_p_new := (q * 100)%float in
  let line_osm := "Original OSM dataset length: "
                    @@ str_of_float (round1 l_osm) @@ " m" @@ String nl "" in
  let line_proc := "Processed OSM dataset length: "
                     @@ str_of_float (round1 l_osm_proc) @@ " m" @@ String nl "" in
  let line_diff_osm :=
    "Difference between OSM original and processed datasets length: "
      @@ str_of_float (round1 diff_osm) @@ " m ("
      @@ str_of_float (round1 diff_p_osm) @@ "%)" @@ String nl "" in
  let line_diff_new :=
    "Difference between REF dataset and processed OSM dataset length: "
      @@ str_of_float (round1 diff_new) @@ " m ("
      @@ str_of_float (round1 diff_p_new) @@ "%)" @@ String nl "" in
  (if nonempty out_file then
     write_file out_file
       [ "REF dataset length: " @@ str_of_float (round1 l_ref) @@ " m" @@ String nl "";
         line_osm; line_proc; line_diff_osm; line_diff_new ]
   else ret tt) ;;
  print rule ;;
  print line_osm ;;
  print line_proc ;;
  print line_diff_osm ;;
  print line_diff_new ;;
  print rule ;;
  ret 0%Z
  end.

End Script.
End Preproc.

(** ** The report of v.osm.precomp, as the specification words it

    Three lines of totals, a blank line, the header, and one row per
    buffer value in the order given. *)

Module Report.
Section Layout.
Context {py : Python}.

Definition eol : string := String nl "".

(** A length or percentage as the report shows it. *)
Definition shown (x : float) : string := str_of_float (round1 x).

(** [length / total * 100]. *)
Definition percent (s total : float) : float := (s / total * 100)%float.

(** The row of buffer value [b] with the lengths [GetStat] returned for
    it: the buffer value as given, then for OSM inside, OSM outside, REF
    inside and REF outside the length and its share of the total. *)
Definition row (s_ref s_osm : float) (b : float)
  (st : float * float * float * float) : string :=
  let '(s_ref_in, s_ref_out, s_osm_in, s_osm_out) := st in
  join "|" [ str_of_float b;
             shown s_osm_in; shown (percent s_osm_in s_osm);
             shown s_osm_out; shown (percent s_osm_out s_osm);
             shown s_ref_in; shown (percent s_ref_in s_ref);
             shown s_ref_out; shown (percent s_ref_out s_ref) ] @@ eol.

(** The same row with the buffer value rounded like the other fields. *)
Definition row_all_rounded (s_ref s_osm : float) (b : float)
  (st : float * float * float * float) : string :=
  let '(s_ref_in, s_ref_out, s_osm_in, s_osm_out) := st in
  join "|" [ shown b;
             shown s_osm_in; shown (percent s_osm_in s_osm);
             shown s_osm_out; shown (percent s_osm_out s_osm);
             shown s_ref_in; shown (percent s_ref_in s_ref);
             shown s_ref_out; shown (percent s_ref_out s_ref) ] @@ eol.

Definition header : string :=
  "BUFFER(m)|OSM_IN(m)|OSM_IN(%%)|OSM_OUT(m)|OSM_OUT(%%)|REF_IN(m)|REF_IN(%%)|REF_OUT(m)|REF_OUT(%%)"
    @@ eol.

Definition totals (s_ref s_osm : float) : list string :=
  [ "REF length: " @@ shown s_ref @@ " m" @@ eol;
    "OSM length: " @@ shown s_osm @@ " m" @@ eol;
    "REF-OSM difference: " @@ shown (s_ref - s_osm)%float @@ " m ("
      @@ shown (percent (s_ref - s_osm)%float s_ref) @@ "%)" @@ eol;
    eol ].

(** The whole file, given how a row is laid out. *)
Definition file_with
  (row : float -> float -> float -> float * float * float * float -> string)
  (s_ref s_osm : float) (buffers : list float)
  (stats : list (float * float * float * float)) : string :=
  String.concat ""
    (totals s_ref s_osm ++ [header]
       ++ map (fun bs => row s_ref s_osm (fst bs) (snd bs)) (combine buffers stats)).

Definition file := file_with row.
Definition file_all_rounded := file_with row_all_rounded.

End Layout.
End Report.

(** ** Sessions to run the model on

    A decimal fragment of the built-ins and table-driven sessions, for
    evaluating the scripts on concrete inputs. *)

Module Demo.

Local Open Scope float_scope.

Definition digit (c : ascii) : option nat :=
  let n := nat_of_ascii c in
  if ((48 <=? n) && (n <=? 57))%nat then Some (n - 48)%nat else None.

Fixpoint digits_Z (s : string) (acc : Z) : option Z :=
  match s with
  | EmptyString => Some acc
  | String c s' =>
      match digit c with
      | Some d => digits_Z s' (10 * acc + Z.of_nat d)%Z
      | None => None
      end
  end.

(** [int(s)] on an optional minus sign and decimal digits. *)
Definition int_decimal (s : string) : option Z :=
  match s with
  | EmptyString => None
  | String "-"%char s' => if nonempty s' then option_map Z.opp (digits_Z s' 0%Z) else None
  | _ => digits_Z s 0%Z
  end.

Definition float_digit (d : nat) : float :=
  nth d [0; 1; 2; 3; 4; 5; 6; 7; 8; 9] 0.

Fixpoint digits_float (s : string) (acc : float) : option float :=
  match s with
  | EmptyString => Some acc
  | String c s' =>
      match digit c with
      | Some d => digits_float s' (10 * acc + float_digit d)
      | None => None
      end
  end.

Fixpoint pow10 (k : nat) : float :=
  match k with
  | O => 1
  | S k' => 10 * pow10 k'
  end.

(** [float(s)] on an optional minus sign, decimal digits and an optional
    fraction: the digits as an integer, divided by a power of ten. *)
Definition float_decimal (s : string) : option float :=
  let '(neg, body) :=
    match s with
    | String "-"%char s' => (true, s')
    | _ => (false, s)
    end in
  let sign := fun x : float => if neg then - x else x in
  match split "." body with
  | [ip] => if nonempty ip then option_map sign (digits_float ip 0) else None
  | [ip; fp] =>
      if nonempty (ip @@ fp)
      then option_map (fun n => sign (n / pow10 (String.length fp)))
             (digits_float (ip @@ fp) 0)
      else None
  | _ => None
  end.

(** The nearest integer below a non-negative float smaller than 2^51. *)
Definition floor_pos (y : float) : float :=
  let r := y + 0x1p52 - 0x1p52 in
  if r <=? y then r else r - 1.

Definition round_half_up (y : float) : float := floor_pos (y + 0.5).

(** [round(x, 1)], half away from zero. *)
Definition round_1 (x : float) : float :=
  if x <? 0 then - (round_half_up (- x * 10) / 10)
  else round_half_up (x * 10) / 10.

Definition digit_char (d : float) : ascii :=
  if d =? 0 then "0" else if d =? 1 then "1" else if d =? 2 then "2"
  else if d =? 3 then "3" else if d =? 4 then "4" else if d =? 5 then "5"
  else if d =? 6 then "6" else if d =? 7 then "7" else if d =? 8 then "8"
  else "9".

Fixpoint int_digits (fuel : nat) (n : float) (acc : string) : string :=
  match fuel with
  | O => acc
  | S fuel' =>
      let q := floor_pos (n / 10) in
      let acc' := String (digit_char (n - q * 10)) acc in
      if q =? 0 then acc' else int_digits fuel' q acc'
  end.

(** [str(x)] for a float with at most two decimals: the integer part, a
    point, and one or two decimals. *)
Definition str_2 (x : float) : string :=
  let n := round_half_up (abs x * 100) in
  let ip := floor_pos (n / 100) in
  let fr := n - ip * 100 in
  let d1 := floor_pos (fr / 10) in
  let d2 := fr - d1 * 10 in
  let sign := if x <? 0 then "-"%string else ""%string in
  let last := if d2 =? 0 then ""%string else String (digit_char d2) "" in
  (sign @@ int_digits 20 ip "" @@ "." @@ String (digit_char d1) "" @@ last)%string.

(** A coarse arctangent (within 0.005 radians). *)
Definition atan_approx (x : float) : float :=
  let half_pi := 0x1.921fb54442d18p+0 in
  if abs x <=? 1 then x / (1 + 0.28125 * x * x)
  else if x <? 0 then - half_pi - x / (x * x + 0.28125)
  else half_pi - x / (x * x + 0.28125).

Definition python : Python :=
  {| int_of_str := int_decimal;
     float_of_str := float_decimal;
     round1 := round_1;
     str_of_float := str_2;
     math_atan := atan_approx |}.

(** Text made of lines, each ended by a newline. *)
Definition text (lines : list string) : string :=
  String.concat "" (map (fun l => l @@ String nl "")%string lines).

Definition arg_text (a : arg) : string :=
  match a with Str s => s | _ => ""%string end.

Fixpoint kwarg (k : string) (l : list (string * arg)) : string :=
  match l with
  | [] => ""%string
  | (k', a) :: l' => if String.eqb k k' then arg_text a else kwarg k l'
  end.

(** What tells the reading commands of a session apart: the module, the
    map and the option. *)
Definition key (c : command) : string :=
  (module_name c @@ " " @@ kwarg "map" (kwargs c) @@ " " @@ kwarg "option" (kwargs c))%string.

Fixpoint lookup (k : string) (tbl : list (string * string)) : string :=
  match tbl with
  | [] => ""%string
  | (k', v) :: tbl' => if String.eqb k k' then v else lookup k tbl'
  end.

(** The session that holds the vector maps [maps], prints what [tbl]
    says (nothing for a command not listed) and whose clock shows [t]. *)
Definition session (tbl : list (string * string)) (maps : list string) (t : float)
  : Grass :=
  {| grass_stdout := fun _ c => lookup (key c) tbl;
     grass_find_file := fun _ name => str_in name maps;
     grass_overwrite := false;
     grass_db_connection := ("sqlite"%string, "sqlite.db"%string);
     time_time := fun _ => t |}.

(** [v.info -t] of a map with [n] lines. *)
Definition info (n : string) : string :=
  text [ "nodes=0"; "points=0"; "lines=" @@ n; "boundaries=0"; "centroids=0";
         "areas=0"; "islands=0"; "primitives=" @@ n; "map3d=0" ]%string.

Definition options_of (l : list (string * string)) : options :=
  fun k => lookup k l.

(** The clock of the sessions, and the process identifier it gives. *)
Definition clock : float := 1446650000.25.
Definition pid : string := "1446650000_25".

Definition lengths (rows : list string) : string := text ("cat|length"%string :: rows).
Definition points (rows : list string) : string := text ("cat|x|y|z"%string :: rows).

(** v.osm.precomp with a clipping mask and the buffer values 0.25 and 10:
    REF is 100 long and OSM 80; in every buffer 30.5 of REF lies inside
    and nothing outside, 20 of OSM inside and 60 outside. *)
Definition precomp_options : options :=
  options_of [ ("osm", "osm"); ("ref", "ref"); ("buffers", "0.25,10");
               ("roi", "roi"); ("out_graphs", ""); ("output", "report.txt") ]%string.

Definition precomp_session : Grass :=
  session
    [ ("v.info ref ", info "2");
      ("v.to.db ref length", lengths ["1|60"; "2|40"]);
      ("v.info osm ", info "2");
      ("v.to.db osm length", lengths ["1|50"; "2|30"]);
      ("v.info ref_in_1446650000_25 ", info "1");
      ("v.to.db ref_in_1446650000_25 length", lengths ["1|30.5"]);
      ("v.info ref_out_1446650000_25 ", info "0");
      ("v.info osm_in_1446650000_25 ", info "1");
      ("v.to.db osm_in_1446650000_25 length", lengths ["5|20"]);
      ("v.info osm_out_1446650000_25 ", info "1");
      ("v.to.db osm_out_1446650000_25 length", lengths ["6|60"]) ]%string
    ["osm"; "ref"; "roi"]%string clock.

(** What [GetStat] returns for every buffer of that session, and the
    report of the run. *)
Definition precomp_stats : float * float * float * float := (30.5, 0, 20, 60).

Definition precomp_report : string :=
  Report.file (py := python) 100 80 [0.25; 10] [precomp_stats; precomp_stats].

(** The same maps, the reference map without a line. *)
Definition empty_ref_session : Grass :=
  session
    [ ("v.info ref ", info "0");
      ("v.info osm ", info "2");
      ("v.to.db osm length", lengths ["1|50"; "2|30"]) ]%string
    ["osm"; "ref"; "roi"]%string clock.

(** v.osm.preproc on one reference feature (category 1) whose buffer
    holds one OSM subfeature (category 1); the end points of the two
    lines are given as rows of [v.to.db -p]. *)
Definition preproc_options : options :=
  options_of [ ("osm", "osm"); ("ref", "ref"); ("buffer", "5");
               ("angle_thres", "10"); ("douglas_thres", "");
               ("output", "matched"); ("out_file", "stats.txt");
               ("nprocs", "1") ]%string.

Definition preproc_session (ref_start ref_end sub_start sub_end : string) : Grass :=
  session
    [ ("v.info osm ", info "1");
      ("v.to.db osm length", lengths ["1|10"]);
      ("v.info ref ", info "1");
      ("v.to.db ref length", lengths ["1|8"]);
      ("v.db.select deg_points_1446650000_25 ", text ["1"; "2"]);
      ("v.db.select ref_degmin_1446650000_25 ", text ["1"]);
      ("v.db.select ref_split_1446650000_25 ", text ["1"]);
      ("v.info odata_1446650000_25_1 ", info "1");
      ("v.db.select odata_1446650000_25_1 ", text ["1"]);
      ("v.to.db fdata_1446650000_25_1 start", points [ref_start]);
      ("v.to.db fdata_1446650000_25_1 end", points [ref_end]);
      ("v.to.db odata_1446650000_25_1_1 start", points [sub_start]);
      ("v.to.db odata_1446650000_25_1_1 end", points [sub_end]);
      ("g.list  ", text ["patch_1446650000_25_1_1"]);
      ("v.info matched ", info "1");
      ("v.to.db matched length", lengths ["1|6"]) ]%string
    ["osm"; "ref"]%string clock.

(** A horizontal reference segment and an OSM segment at 45 degrees. *)
Definition diagonal_session : Grass :=
  preproc_session "1|0|0|0" "1|1|0|0" "1|0|0|0" "1|1|1|0".

(** A reference segment of slope 1 crossed by an OSM segment of slope -1. *)
Definition crossing_session : Grass :=
  preproc_session "1|0|0|0" "1|1|1|0" "1|0|1|0" "1|1|0|0".

(** A reference feature whose buffer holds no OSM line. *)
Definition no_overlap_session : Grass :=
  session [ ("v.info odata_1446650000_25_1 ", info "0") ]%string
    ["osm"; "ref"]%string clock.

(** A session in which no command prints anything and no map is found. *)
Definition silent_session : Grass := session [] [] clock.

(** A map of two lines, the length of the second printed as [n/a]. *)
Definition broken_table_session : Grass :=
  session
    [ ("v.info roads ", info "2");
      ("v.to.db roads length", lengths ["1|12.5"; "2|n/a"]) ]%string
    ["roads"]%string clock.

(** A map whose start point is printed, and whose table of end points
    has the header only. *)
Definition broken_points_session : Grass :=
  session
    [ ("v.to.db roads start", points ["1|0|0|0"]);
      ("v.to.db roads end", text ["cat|x|y|z"]) ]%string
    ["roads"]%string clock.

(** v.osm.precomp asked for the buffers 0.25 and ten. *)
Definition bad_buffers_options : options :=
  options_of [ ("osm", "osm"); ("ref", "ref"); ("buffers", "0.25,ten");
               ("roi", "roi"); ("out_graphs", ""); ("output", "report.txt") ]%string.

(** The options of the run on one reference feature, the statistics
    asked for under the name [-]. *)
Definition dash_options : options :=
  options_of [ ("osm", "osm"); ("ref", "ref"); ("buffer", "5");
               ("angle_thres", "10"); ("douglas_thres", "");
               ("output", "matched"); ("out_file", "-");
               ("nprocs", "1") ]%string.

(** Two reference features: the buffer of the first holds an OSM segment
    at 45 degrees, as in [diagonal_session]; the second has the slope 1,
    and the OSM segment in its buffer the slope -1. *)
Definition two_features_session : Grass :=
  session
    [ ("v.info osm ", info "2");
      ("v.to.db osm length", lengths ["1|10"; "2|4"]);
      ("v.info ref ", info "2");
      ("v.to.db ref length", lengths ["1|8"; "2|3"]);
      ("v.db.select deg_points_1446650000_25 ", text ["1"; "2"; "1"]);
      ("v.db.select ref_degmin_1446650000_25 ", text ["1"; "2"]);
      ("v.db.select ref_split_1446650000_25 ", text ["1"; "2"]);
      ("v.info odata_1446650000_25_1 ", info "1");
      ("v.db.select odata_1446650000_25_1 ", text ["1"]);
      ("v.to.db fdata_1446650000_25_1 start", points ["1|0|0|0"]);
      ("v.to.db fdata_1446650000_25_1 end", points ["1|1|0|0"]);
      ("v.to.db odata_1446650000_25_1_1 start", points ["1|0|0|0"]);
      ("v.to.db odata_1446650000_25_1_1 end", points ["1|1|1|0"]);
      ("v.info odata_1446650000_25_2 ", info "1");
      ("v.db.select odata_1446650000_25_2 ", text ["2"]);
      ("v.to.db fdata_1446650000_25_2 start", points ["2|0|0|0"]);
      ("v.to.db fdata_1446650000_25_2 end", points ["2|1|1|0"]);
      ("v.to.db odata_1446650000_25_2_2 start", points ["2|0|1|0"]);
      ("v.to.db odata_1446650000_25_2_2 end", points ["2|1|0|0"]);
      ("g.list  ", text ["patch_1446650000_25_1_1"]);
      ("v.info matched ", info "1");
      ("v.to.db matched length", lengths ["1|6"]) ]%string
    ["osm"; "ref"]%string clock.

(** The options of [preproc_options], with two workers. *)
Definition two_workers_options : options :=
  options_of [ ("osm", "osm"); ("ref", "ref"); ("buffer", "5");
               ("angle_thres", "10"); ("douglas_thres", "");
               ("output", "matched"); ("out_file", "stats.txt");
               ("nprocs", "2") ]%string.

End Demo.

(** ** Vocabulary of the statements *)

Section Vocabulary.
Context {py : Python} {gr : Grass}.

(** The two commands of [length]. *)
Definition info_cmd (data : string) : command :=
  Cmd "v.info" [("map", Str data); ("flags", Str "t"); ("quiet", Flag true)].

Definition length_cmd (data : string) : command :=
  Cmd "v.to.db" [("map", Str data); ("option", Str "length"); ("flags", Str "p")].

(** The number after [=] in the third line of what [v.info -t] printed:
    the count of lines of the map. *)
Definition feature_count (info : string) : option Z :=
  match nth_error (split nl info) 2 with
  | Some line =>
      match nth_error (split "=" line) 1 with
      | Some field => int_of_str field
      | None => None
      end
  | None => None
  end.

(** The float in the second pipe-delimited field of a line. *)
Definition second_field (item : string) : option float :=
  match nth_error (split "|" item) 1 with
  | Some field => float_of_str field
  | None => None
  end.

Fixpoint all_some {A} (l : list (option A)) : option (list A) :=
  match l with
  | [] => Some []
  | Some x :: l' => option_map (cons x) (all_some l')
  | None :: _ => None
  end.

(** The second fields of every line of a table but the first and the last. *)
Definition table_values (table : string) : option (list float) :=
  all_some (map second_field (slice_1_m1 (split nl table))).


(** The abort of a script on a missing vector map. *)
Definition not_found (name : string) : exn :=
  Fatal ("Vector map <" @@ name @@ "> not found").

(** The first of [names] that does not resolve to a vector map. *)
Definition first_missing (found : string -> bool) (names : list string)
  : option string :=
  List.find (fun name => negb (found name)) names.

(** The input maps each script requires: [osm], [ref] and, in
    v.osm.precomp, a non-empty [roi]. *)
Definition precomp_inputs (o : options) : list string :=
  [o "osm"; o "ref"] ++ (if nonempty (o "roi") then [o "roi"] else []).

Definition preproc_inputs (o : options) : list string := [o "osm"; o "ref"].

(** The GRASS module of an event, if it is a command. *)
Definition module_of (e : event) : string :=
  match e with
  | Run c | Read c => module_name c
  | _ => ""
  end.

(** [str(time.time()).replace(".", "_")] at a point of the session. *)
Definition processid_at (tr : list event) : string :=
  replace "." "_" (str_of_float (time_time tr)).

(** The three temporary maps of [AngulatComparison] for feature [f]. *)
Definition newfdata (processid f : string) : string := ("fdata_" @@ processid) @@ "_" @@ f.
Definition newbuffer (processid f : string) : string := ("fbuffer_" @@ processid) @@ "_" @@ f.
Definition newodata (processid f : string) : string := ("odata_" @@ processid) @@ "_" @@ f.

(** What [AngulatComparison] runs up to the overlay of the OSM dataset
    with the buffered feature. *)
Definition overlay_events (f processid ref osm bf : string)
  (list_lines : list string) : list event :=
  [ Run (Cmd "v.extract" [("input", Str ref); ("quiet", Flag true);
                          ("output", Str (newfdata processid f));
                          ("where", Str ("cat=" @@ f))]);
    Run (Cmd "g.copy" [("vect", Str ("patch_" @@ processid @@ "_0_0,"
                                     @@ ("patch_" @@ processid) @@ "_" @@ f @@ "_0"))]);
    Run (Cmd "v.buffer"
           ((if str_in f list_lines then [("flags", Str "c")] else [])
              ++ [("distance", Str bf); ("quiet", Flag true);
                  ("input", Str (newfdata processid f));
                  ("output", Str (newbuffer processid f))]));
    Run (Cmd "v.overlay" [("ainput", Str osm); ("atype", Str "line");
                          ("quiet", Flag true);
                          ("binput", Str (newbuffer processid f));
                          ("output", Str (newodata processid f));
                          ("operator", Str "and")]) ].

Definition overlay_info_cmd (processid f : string) : command :=
  Cmd "v.info" [("flags", Str "t"); ("quiet", Flag true);
                ("map", Str (newodata processid f))].

Definition remove_feature_maps (processid f : string) : command :=
  Cmd "g.remove" [("type", Str "vect"); ("flags", Str "f"); ("quiet", Flag true);
                  ("name", Strs [newfdata processid f; newbuffer processid f;
                                 newodata processid f])].

(** The two ways the loop over the subfeatures ends for subfeature [sf]
    of feature [f]: patched into the accumulated map (whose last suffix
    is [z]), or removed. *)
Definition patch_events (processid f z sf : string) : list event :=
  let newpatch := ("patch_" @@ processid) @@ "_" @@ f @@ "_" @@ z in
  let outpatch := ("patch_" @@ processid) @@ "_" @@ f @@ "_" @@ sf in
  let newnewodata := newodata processid f @@ "_" @@ sf in
  [ Run (Cmd "v.patch" [("quiet", Flag true);
                        ("input", Str (newpatch @@ "," @@ newnewodata));
                        ("output", Str outpatch)]);
    Run (Cmd "g.remove" [("type", Str "vect"); ("flags", Str "f");
                         ("name", Str (newpatch @@ "," @@ newnewodata));
                         ("quiet", Flag true)]) ].

Definition remove_events (processid f sf : string) : list event :=
  [ Run (Cmd "g.remove" [("type", Str "vect");
                         ("name", Str (newodata processid f @@ "_" @@ sf));
                         ("flags", Str "f"); ("quiet", Flag true)]) ].

Definition extract_subfeature (processid f sf : string) : event :=
  Run (Cmd "v.extract" [("input", Str (newodata processid f));
                        ("output", Str (newodata processid f @@ "_" @@ sf));
                        ("where", Str ("cat=" @@ sf)); ("quiet", Flag true)]).

(** The two commands of [GetCoeff]. *)
Definition start_cmd (vect : string) : command :=
  Cmd "v.to.db" [("map", Str vect); ("option", Str "start");
                 ("type", Str "line"); ("flags", Str "p")].

Definition end_cmd (vect : string) : command :=
  Cmd "v.to.db" [("map", Str vect); ("option", Str "end");
                 ("type", Str "line"); ("flags", Str "p")].

(** The x and y in the second line of a table of points. *)
Definition point_of (table : string) : option (float * float) :=
  match nth_error (split nl table) 1 with
  | Some row =>
      match nth_error (split "|" row) 1, nth_error (split "|" row) 2 with
      | Some fx, Some fy =>
          match float_of_str fx, float_of_str fy with
          | Some x, Some y => Some (x, y)
          | _, _ => None
          end
      | _, _ => None
      end
  | None => None
  end.

(** The angle, in degrees, between lines of angular coefficients [m_ref]
    and [m_osm], where the quotient is defined. *)
Definition angle_between (m_ref m_osm : float) : float :=
  Preproc.degrees
    (PrimFloat.abs (math_atan ((m_ref - m_osm) / (1 + m_ref * m_osm))%float)).

(** From any point of the session [m] adds only events that satisfy [P],
    and a value it returns satisfies [Q]. *)
Definition emits {A} (P : event -> Prop) (Q : A -> Prop) (m : M A) : Prop :=
  forall tr,
  exists evs,
    snd (m tr) = tr ++ evs /\ Forall P evs /\
    forall a, fst (m tr) = Ok a -> Q a.

Definition any {A} : A -> Prop := fun _ => True.

(** The message of the error branch of v.osm.preproc. *)
Definition error_message : event := Print "Some errors occurred during analysis".

Definition quiet (e : event) : Prop := e <> error_message.

(** [[p for p in processed if p]]. *)
Definition errors_of (processed : list Z) : list Z :=
  filter (fun p => negb (p =? 0)%Z) processed.

(** An event that is the invocation of a GRASS module. *)
Definition is_command (e : event) : Prop :=
  match e with
  | Run _ | Read _ => True
  | _ => False
  end.

Definition any_event : event -> Prop := fun _ => True.

(** From [tr] on, [m] writes the file [path] with content [text]. *)
Definition written {A} (m : M A) (tr : list event) (path text : string) : Prop :=
  exists evs, snd (m tr) = tr ++ evs /\ In (FileWritten path text) evs.

(** The maps v.osm.precomp compares: the inputs, or their overlays with
    the clipping mask, made first. *)
Definition clipped (o : options) : bool := nonempty (o "roi").

Definition compared_ref (o : options) (tr : list event) : string :=
  if clipped o then "ref_roi_" @@ processid_at tr else o "ref".

Definition compared_osm (o : options) (tr : list event) : string :=
  if clipped o then "osm_roi_" @@ processid_at tr else o "osm".

Definition clip_events (o : options) (tr : list event) : list event :=
  if clipped o then
    [ Run (Cmd "v.overlay" [("ainput", Str (o "ref")); ("atype", Str "line");
                            ("binput", Str (o "roi")); ("operator", Str "and");
                            ("output", Str ("ref_roi_" @@ processid_at tr));
                            ("flags", Str "t"); ("quiet", Flag true)]);
      Run (Cmd "v.overlay" [("ainput", Str (o "osm")); ("atype", Str "line");
                            ("binput", Str (o "roi")); ("operator", Str "and");
                            ("output", Str ("osm_roi_" @@ processid_at tr));
                            ("flags", Str "t"); ("quiet", Flag true)]) ]
  else [].

(** The buffer values of the command line. *)
Definition buffer_values (o : options) : option (list float) :=
  all_some (map float_of_str (split "," (o "buffers"))).

(** The eight lists of [main] after the lengths [st] of one more buffer. *)
Definition push_stats (s_osm s_ref : float) (acc : Precomp.stat_lists)
  (st : float * float * float * float) : Precomp.stat_lists :=
  let '(s_ref_in, s_ref_out, s_osm_in, s_osm_out) := st in
  {| Precomp.l_osm_in := Precomp.l_osm_in acc ++ [round1 s_osm_in];
     Precomp.l_var_osm_in :=
       Precomp.l_var_osm_in acc ++ [round1 (Report.percent s_osm_in s_osm)];
     Precomp.l_osm_out := Precomp.l_osm_out acc ++ [round1 s_osm_out];
     Precomp.l_var_osm_out :=
       Precomp.l_var_osm_out acc ++ [round1 (Report.percent s_osm_out s_osm)];
     Precomp.l_ref_in := Precomp.l_ref_in acc ++ [round1 s_ref_in];
     Precomp.l_var_ref_in :=
       Precomp.l_var_ref_in acc ++ [round1 (Report.percent s_ref_in s_ref)];
     Precomp.l_ref_out := Precomp.l_ref_out acc ++ [round1 s_ref_out];
     Precomp.l_var_ref_out :=
       Precomp.l_var_ref_out acc ++ [round1 (Report.percent s_ref_out s_ref)] |}.

(** The eight lists after the lengths of all buffers: the rounded
    lengths and percentages, column by column. *)
Definition shown_stats (s_osm s_ref : float)
  (stats : list (float * float * float * float)) : Precomp.stat_lists :=
  {| Precomp.l_osm_in := map (fun '(_, _, oi, _) => round1 oi) stats;
     Precomp.l_var_osm_in :=
       map (fun '(_, _, oi, _) => round1 (Report.percent oi s_osm)) stats;
     Precomp.l_osm_out := map (fun '(_, _, _, oo) => round1 oo) stats;
     Precomp.l_var_osm_out :=
       map (fun '(_, _, _, oo) => round1 (Report.percent oo s_osm)) stats;
     Precomp.l_ref_in := map (fun '(ri, _, _, _) => round1 ri) stats;
     Precomp.l_var_ref_in :=
       map (fun '(ri, _, _, _) => round1 (Report.percent ri s_ref)) stats;
     Precomp.l_ref_out := map (fun '(_, ro, _, _) => round1 ro) stats;
     Precomp.l_var_ref_out :=
       map (fun '(_, ro, _, _) => round1 (Report.percent ro s_ref)) stats |}.

Definition append_stats (a b : Precomp.stat_lists) : Precomp.stat_lists :=
  {| Precomp.l_osm_in := Precomp.l_osm_in a ++ Precomp.l_osm_in b;
     Precomp.l_var_osm_in := Precomp.l_var_osm_in a ++ Precomp.l_var_osm_in b;
     Precomp.l_osm_out := Precomp.l_osm_out a ++ Precomp.l_osm_out b;
     Precomp.l_var_osm_out := Precomp.l_var_osm_out a ++ Precomp.l_var_osm_out b;
     Precomp.l_ref_in := Precomp.l_ref_in a ++ Precomp.l_ref_in b;
     Precomp.l_var_ref_in := Precomp.l_var_ref_in a ++ Precomp.l_var_ref_in b;
     Precomp.l_ref_out := Precomp.l_ref_out a ++ Precomp.l_ref_out b;
     Precomp.l_var_ref_out := Precomp.l_var_ref_out a ++ Precomp.l_var_ref_out b |}.

End Vocabulary.

(** ** Vocabulary of the further properties *)

(** The two exceptions of reading a table: a missing line or field, and
    a field that is no number. *)
Definition parse_error (e : exn) : Prop := e = IndexError \/ e = ValueError.

(** When [m] returns, the last event it added is [e] and the events
    before it satisfy [P]; when it raises, all the events it added
    satisfy [P]. *)
Definition ends_with {A} (P : event -> Prop) (e : event) (m : M A) : Prop :=
  forall tr,
  exists evs,
    snd (m tr) = tr ++ evs /\
    match fst (m tr) with
    | Ok _ => exists pre, evs = pre ++ [e] /\ Forall P pre
    | Raise _ => Forall P evs
    end.

(** An event that is not a [g.remove]. *)
Definition not_removal (e : event) : Prop := module_of e <> "g.remove".

(** The removal that ends [GetStat]. *)
Definition remove_by_pattern (processid : string) : command :=
  Cmd "g.remove" [("type", Str "vect"); ("pattern", Str processid);
                  ("flags", Str "fr"); ("quiet", Flag true)].

(** The value of the keyword [k] of a command. *)
Fixpoint keyword (k : string) (l : list (string * arg)) : option arg :=
  match l with
  | [] => None
  | (k', v) :: l' => if String.eqb k k' then Some v else keyword k l'
  end.

(** The map a command is asked to create: its [output] keyword. *)
Definition output_of (e : event) : option string :=
  match e with
  | Run c =>
      match keyword "output" (kwargs c) with
      | Some (Str name) => Some name
      | _ => None
      end
  | _ => None
  end.

(** The [pattern] keyword of a [g.remove]. *)
Definition pattern_of (e : event) : option string :=
  match e with
  | Run c =>
      if String.eqb (module_name c) "g.remove" then
        match keyword "pattern" (kwargs c) with
        | Some (Str pat) => Some pat
        | _ => None
        end
      else None
  | _ => None
  end.

(** The names of the temporary maps of [GetStat] are the process
    identifier after one of these. *)
Definition GetStat_prefixes : list string :=
  ["osm_buffer_"; "ref_in_"; "ref_out_"; "ref_buffer_"; "osm_in_"; "osm_out_"].

(** Within one call every created map is a prefix and the identifier, and
    a removal pattern is the identifier alone. *)
Definition names_by (processid : string) (e : event) : Prop :=
  (forall name, output_of e = Some name ->
     exists prefix, In prefix GetStat_prefixes /\ name = prefix @@ processid) /\
  (forall pat, pattern_of e = Some pat -> pat = processid).

(** What [m] returns satisfies [Q], and the exception it ends in
    satisfies [E]. *)
Definition outcome {A} (Q : A -> Prop) (E : exn -> Prop) (m : M A) : Prop :=
  forall tr,
    match fst (m tr) with
    | Ok a => Q a
    | Raise e => E e
    end.

(** The ways a run of v.osm.precomp ends without returning. *)
Definition precomp_failure (o : options) (e : exn) : Prop :=
  (exists name, In name (precomp_inputs o) /\ e = not_found name) \/
  e = UnboundLocalError "processid" \/
  parse_error e.

(** The commands of v.osm.precomp before its first buffer. *)
Definition before_buffers (e : event) : Prop :=
  In (module_of e) ["v.info"; "v.to.db"; "v.overlay"].

(** The tuple of a task that is not the closing tuple of [None]s. *)
Definition job : Type :=
  (string * string * string * string * string * list string * pyval)%type.

(** [func(f, process, ref, osm, bf, list_lines, angle_thres)] on the
    tuple taken from the queue. *)
Definition call {R}
  (func : string -> string -> string -> string -> string -> list string -> pyval -> M R)
  (t : job) : M R :=
  let '(f, process, ref, osm, bf, list_lines, angle_thres) := t in
  func f process ref osm bf list_lines angle_thres.

(** The features among the items of a queue. *)
Definition features_in (q : list Preproc.task) : nat :=
  List.length
    (filter (fun item => match item with Some _ => true | None => false end) q).

(** The read of the categories of the split reference map: the features
    v.osm.preproc hands to its workers. *)
Definition features_cmd (processid : string) : command :=
  Cmd "v.db.select" [("map", Str ("ref_split_" @@ processid));
                     ("columns", Str "cat"); ("flags", Str "c");
                     ("quiet", Flag true)].

(** The four lines v.osm.preproc prints for the lengths of the reference
    map, the OSM map and the output map. *)
Definition summary_lines {py : Python} (l_ref l_osm l_osm_proc : float)
  : list string :=
  let shown x := str_of_float (round1 x) in
  let diff_osm := (l_osm - l_osm_proc)%float in
  let diff_new := (l_ref - l_osm_proc)%float in
  [ "Original OSM dataset length: " @@ shown l_osm @@ " m" @@ String nl "";
    "Processed OSM dataset length: " @@ shown l_osm_proc @@ " m" @@ String nl "";
    "Difference between OSM original and processed datasets length: "
      @@ shown diff_osm @@ " m (" @@ shown (diff_osm / l_osm * 100)%float
      @@ "%)" @@ String nl "";
    "Difference between REF dataset and processed OSM dataset length: "
      @@ shown diff_new @@ " m (" @@ shown (diff_new / l_ref * 100)%float
      @@ "%)" @@ String nl "" ].

(** The file of statistics: the length of the reference map, then the
    four lines. *)
Definition summary_file {py : Python} (l_ref l_osm l_osm_proc : float) : string :=
  String.concat ""
    (("REF dataset length: " @@ str_of_float (round1 l_ref) @@ " m" @@ String nl "")
       :: summary_lines l_ref l_osm l_osm_proc).

(** The end of a run of v.osm.preproc: the file when [out_file] is
    given, and the four lines between two rules. *)
Definition summary_events {py : Python} (o : options)
  (l_ref l_osm l_osm_proc : float) : list event :=
  (if nonempty (o "out_file")
   then [FileWritten (o "out_file") (summary_file l_ref l_osm l_osm_proc)]
   else [])
  ++ [Print Preproc.rule]
  ++ map Print (summary_lines l_ref l_osm l_osm_proc)
  ++ [Print Preproc.rule].

(** The removal of every map whose name holds the process identifier. *)
Definition remove_all_temporary (processid : string) : command :=
  Cmd "g.remove" [("flags", Str "f"); ("type", Str "vect");
                  ("pattern", Str ("*" @@ processid @@ "*"));
                  ("quiet", Flag true)].

(** A string without a newline. *)
Fixpoint newline_free (s : string) : bool :=
  match s with
  | EmptyString => true
  | String c s' => negb (Ascii.eqb c nl) && newline_free s'
  end.

(** A line and the newline that ends it. *)
Definition ended (line : string) : string := line @@ String nl "".

(** The seven figures of the statistics of v.osm.preproc, as printed. *)
Definition summary_figures {py : Python} (l_ref l_osm l_osm_proc : float)
  : list string :=
  let diff_osm := (l_osm - l_osm_proc)%float in
  let diff_new := (l_ref - l_osm_proc)%float in
  map (fun x => str_of_float (round1 x))
    [ l_ref; l_osm; l_osm_proc; diff_osm; (diff_osm / l_osm * 100)%float;
      diff_new; (diff_new / l_ref * 100)%float ].

(** An event that is not a written file, unless the file is the one the
    option [out_file] names, that option not being empty. *)
Definition only_out_file (o : options) (e : event) : Prop :=
  match e with
  | FileWritten path _ => nonempty (o "out_file") = true /\ path = o "out_file"
  | _ => True
  end.

(** The command of the [else] branch of the angle test: the removal of
    a subfeature that was not patched. *)
Definition is_rejection (e : event) : Prop :=
  exists processid f sf, remove_events processid f sf = [e].

Definition kept (e : event) : Prop := ~ is_rejection e.

(** An item of [q_in] whose threshold, if it is a task, is a string. *)
Definition string_threshold (item : Preproc.task) : Prop :=
  match item with
  | Some (_, _, _, _, _, _, PyStr _) => True
  | Some (_, _, _, _, _, _, PyFloat _) => False
  | None => True
  end.

(** * Properties *)

(** ** The monad *)

Lemma bind_ok {A B} (m : M A) (k : A -> M B) tr a tr1 :
  m tr = (Ok a, tr1) -> bind m k tr = k a tr1.
Proof. intros H. unfold bind. now rewrite H. Qed.

Lemma bind_raise {A B} (m : M A) (k : A -> M B) tr e tr1 :
  m tr = (Raise e, tr1) -> bind m k tr = (Raise e, tr1).
Proof. intros H. unfold bind. now rewrite H. Qed.

Lemma bind_ret {A B} (a : A) (k : A -> M B) tr : bind (ret a) k tr = k a tr.
Proof. reflexivity. Qed.

Lemma index_some {A} (l : list A) i x tr :
  nth_error l i = Some x -> index l i tr = (Ok x, tr).
Proof. intros H. unfold index. now rewrite H. Qed.

Lemma index_none {A} (l : list A) i tr :
  nth_error l i = None -> index l i tr = (Raise IndexError, tr).
Proof. intros H. unfold index. now rewrite H. Qed.

(** ** [length]: zero features, or the sum of the table *)

Section Length.
Context {py : Python} {gr : Grass}.

Lemma length_same : @Preproc.length py gr = @Precomp.length py gr.
Proof. reflexivity. Qed.


Lemma count_read (data : string) tr n :
  feature_count (grass_stdout tr (info_cmd data)) = Some n ->
  exists line field,
    nth_error (split nl (grass_stdout tr (info_cmd data))) 2 = Some line /\
    nth_error (split "=" line) 1 = Some field /\
    int_of_str field = Some n.
Proof.
  unfold feature_count. intros H.
  destruct (nth_error (split nl _) 2) as [line|]; [|discriminate].
  destruct (nth_error (split "=" line) 1) as [field|] eqn:E; [|discriminate].
  now exists line, field.
Qed.



End Length.



(** ** Missing input maps *)

Section MissingInput.
Context {py : Python} {gr : Grass}.

Lemma precomp_missing_input (o : options) tr name :
  first_missing (grass_find_file tr) (precomp_inputs o) = Some name ->
  Precomp.main o tr = (Raise (not_found name), tr).
Proof.
  unfold first_missing, precomp_inputs, not_found. cbn [app find].
  destruct (grass_find_file tr (o "osm")) eqn:Eosm; cbn [negb].
  2:{ intros [= <-]. unfold Precomp.main, bind, find_file. rewrite Eosm. reflexivity. }
  destruct (grass_find_file tr (o "ref")) eqn:Eref; cbn [negb].
  2:{ intros [= <-]. unfold Precomp.main, bind, find_file.
      rewrite Eosm. cbn. rewrite Eref. reflexivity. }
  destruct (nonempty (o "roi")) eqn:Eroi; cbn [find]; [|discriminate].
  destruct (grass_find_file tr (o "roi")) eqn:Efound; cbn [negb]; [discriminate|].
  intros [= <-]. unfold Precomp.main, bind, find_file.
  rewrite Eosm. cbn. rewrite Eref. cbn. rewrite Eroi, Efound. reflexivity.
Qed.

Lemma preproc_missing_input (o : options) tr name nproc :
  int_of_str (o "nprocs") = Some nproc ->
  first_missing (grass_find_file tr) (preproc_inputs o) = Some name ->
  Preproc.main o tr = (Raise (not_found name), tr).
Proof.
  unfold first_missing, preproc_inputs, not_found. intros Hn. cbn [find].
  destruct (grass_find_file tr (o "osm")) eqn:Eosm; cbn [negb].
  2:{ intros [= <-]. unfold Preproc.main, bind, find_file, py_int.
      rewrite Hn. cbn. rewrite Eosm. reflexivity. }
  destruct (grass_find_file tr (o "ref")) eqn:Eref; cbn [negb]; [discriminate|].
  intros [= <-]. unfold Preproc.main, bind, find_file, py_int.
  rewrite Hn. cbn. rewrite Eosm. cbn. rewrite Eref. reflexivity.
Qed.

End MissingInput.

(** C5.  In both scripts, when a required input map ([osm], [ref], or in
    v.osm.precomp a non-empty [roi]) does not resolve to a vector map,
    the script aborts with "Vector map <name> not found" for the first
    such map, and no command has been issued. *)
Theorem missing_input_is_fatal {py : Python} {gr : Grass}
  (o : options) (tr : list event) (name : string) :
  (first_missing (grass_find_file tr) (precomp_inputs o) = Some name ->
   Precomp.main o tr = (Raise (not_found name), tr))
  /\
  (forall nproc,
     int_of_str (o "nprocs") = Some nproc ->
     first_missing (grass_find_file tr) (preproc_inputs o) = Some name ->
     Preproc.main o tr = (Raise (not_found name), tr)).
Proof.
  split.
  - apply precomp_missing_input.
  - intros nproc. apply preproc_missing_input.
Qed.

(** v.osm.precomp where the clipping mask is missing, and v.osm.preproc
    where no map exists. *)
Lemma missing_input_is_fatal_witness :
  Precomp.main (py := Demo.python) (gr := Demo.no_overlap_session)
    Demo.precomp_options []
  = (Raise (Fatal "Vector map <roi> not found"), [])
  /\
  Preproc.main (py := Demo.python) (gr := Demo.silent_session)
    Demo.preproc_options []
  = (Raise (Fatal "Vector map <osm> not found"), []).
Proof.
  split.
  - exact (proj1 (missing_input_is_fatal (py := Demo.python)
                    (gr := Demo.no_overlap_session)
                    Demo.precomp_options [] "roi") eq_refl).
  - exact (proj2 (missing_input_is_fatal (py := Demo.python)
                    (gr := Demo.silent_session)
                    Demo.preproc_options [] "osm") 1%Z eq_refl eq_refl).
Defined.

(** ** Zero total length *)

Ltac step :=
  erewrite bind_ok; [ cbv beta | solve [ eassumption | reflexivity ] ].

Section ZeroLength.
Context {py : Python} {gr : Grass}.

Lemma all_found_precomp (o : options) tr :
  first_missing (grass_find_file tr) (precomp_inputs o) = None ->
  grass_find_file tr (o "osm") = true /\
  grass_find_file tr (o "ref") = true /\
  (nonempty (o "roi") = true -> grass_find_file tr (o "roi") = true).
Proof.
  unfold first_missing, precomp_inputs. cbn [app find].
  destruct (grass_find_file tr (o "osm")); cbn [negb]; [|discriminate].
  destruct (grass_find_file tr (o "ref")); cbn [negb]; [|discriminate].
  destruct (nonempty (o "roi")); cbn [find]; [|intros _; repeat split; discriminate].
  destruct (grass_find_file tr (o "roi")); cbn [negb]; [|discriminate].
  now repeat split.
Qed.

Lemma precomp_checks_pass (o : options) tr {A} (k : M A) :
  first_missing (grass_find_file tr) (precomp_inputs o) = None ->
  (found <- find_file (o "osm") ;;
   (if negb found then fatal ("Vector map <" @@ o "osm" @@ "> not found") else ret tt) ;;
   found <- find_file (o "ref") ;;
   (if negb found then fatal ("Vector map <" @@ o "ref" @@ "> not found") else ret tt) ;;
   (if nonempty (o "roi") then
      found <- find_file (o "roi") ;;
      if negb found then fatal ("Vector map <" @@ o "roi" @@ "> not found") else ret tt
    else ret tt) ;;
   k) tr = k tr.
Proof.
  intros H. destruct (all_found_precomp _ _ H) as (Eosm & Eref & Eroi).
  unfold bind, find_file. rewrite Eosm. cbn. rewrite Eref. cbn.
  destruct (nonempty (o "roi")); [rewrite Eroi by reflexivity|]; reflexivity.
Qed.

(** v.osm.precomp with an empty dataset: [processid] is read before its
    assignment, so neither the removal nor the fatal message happens. *)
Lemma precomp_zero_length_unbound (o : options) tr s_ref tr1 s_osm tr2 :
  first_missing (grass_find_file tr) (precomp_inputs o) = None ->
  Precomp.length (o "ref") tr = (Ok s_ref, tr1) ->
  Precomp.length (o "osm") tr1 = (Ok s_osm, tr2) ->
  (PrimFloat.eqb s_ref 0 || PrimFloat.eqb s_osm 0) = true ->
  Precomp.main o tr = (Raise (UnboundLocalError "processid"), tr2).
Proof.
  intros Hfound Href Hosm Hzero.
  unfold Precomp.main. cbv zeta.
  rewrite precomp_checks_pass by assumption.
  do 2 step.
  destruct (PrimFloat.eqb s_ref 0) eqn:E1.
  - reflexivity.
  - cbn in Hzero. step. rewrite Hzero. reflexivity.
Qed.

Lemma preproc_checks_pass (o : options) tr nproc {A} (k : Z -> M A) :
  int_of_str (o "nprocs") = Some nproc ->
  first_missing (grass_find_file tr) (preproc_inputs o) = None ->
  (nproc <- py_int (o "nprocs") ;;
   found <- find_file (o "osm") ;;
   (if negb found then fatal ("Vector map <" @@ o "osm" @@ "> not found") else ret tt) ;;
   found <- find_file (o "ref") ;;
   (if negb found then fatal ("Vector map <" @@ o "ref" @@ "> not found") else ret tt) ;;
   k nproc) tr = k nproc tr.
Proof.
  intros Hn. unfold first_missing, preproc_inputs. cbn [find].
  destruct (grass_find_file tr (o "osm")) eqn:Eosm; cbn [negb]; [|discriminate].
  destruct (grass_find_file tr (o "ref")) eqn:Eref; cbn [negb]; [|discriminate].
  intros _. unfold bind, find_file, py_int. rewrite Hn. cbn.
  rewrite Eosm. cbn. rewrite Eref. reflexivity.
Qed.

(** v.osm.preproc with an empty dataset: the temporary maps matching
    the process identifier are removed, then the script aborts. *)
Lemma preproc_zero_length_aborts (o : options) tr nproc l_osm tr1 l_ref tr2 :
  int_of_str (o "nprocs") = Some nproc ->
  first_missing (grass_find_file tr) (preproc_inputs o) = None ->
  Preproc.length (o "osm") tr = (Ok l_osm, tr1) ->
  Preproc.length (o "ref") tr1 = (Ok l_ref, tr2) ->
  (PrimFloat.eqb l_ref 0 = true ->
   Preproc.main o tr
   = (Raise (Fatal "No reference data for comparison"),
      tr2 ++ [Run (Cmd "g.remove" [("flags", Str "fr"); ("type", Str "vect");
                                   ("quiet", Flag true);
                                   ("pattern", Str (processid_at tr))])]))
  /\
  (PrimFloat.eqb l_ref 0 = false -> PrimFloat.eqb l_osm 0 = true ->
   Preproc.main o tr
   = (Raise (Fatal "No OSM data for comparison"),
      tr2 ++ [Run (Cmd "g.remove" [("type", Str "vect"); ("flags", Str "fr");
                                   ("quiet", Flag true);
                                   ("pattern", Str (processid_at tr))])])).
Proof.
  intros Hn Hfound Hosm Href.
  unfold Preproc.main. cbv zeta.
  rewrite (preproc_checks_pass o tr nproc) by assumption.
  step. do 2 step.
  split.
  - intros E. rewrite E. reflexivity.
  - intros E1 E2. rewrite E1. step. rewrite E2. reflexivity.
Qed.

End ZeroLength.

(** C4, at a reference map without a line.  v.osm.preproc removes the
    temporary maps and aborts with "No reference data for comparison";
    v.osm.precomp ends in [UnboundLocalError] on [processid], having
    issued only the reads of [length]: no [g.remove], no fatal message. *)
Theorem zero_length_precomp_unbound_processid :
  Precomp.main (py := Demo.python) (gr := Demo.empty_ref_session)
    Demo.precomp_options []
  = (Raise (UnboundLocalError "processid"),
     [Read (info_cmd "ref"); Read (info_cmd "osm"); Read (length_cmd "osm")])
  /\
  Preproc.main (py := Demo.python) (gr := Demo.empty_ref_session)
    Demo.preproc_options []
  = (Raise (Fatal "No reference data for comparison"),
     [Read (info_cmd "osm"); Read (length_cmd "osm"); Read (info_cmd "ref");
      Run (Cmd "g.remove" [("flags", Str "fr"); ("type", Str "vect");
                           ("quiet", Flag true); ("pattern", Str Demo.pid)])]).
Proof. split; vm_compute; reflexivity. Qed.

(** ** [AngulatComparison] on a feature whose buffer holds no OSM line *)

Section EmptyOverlay.
Context {py : Python} {gr : Grass}.

Lemma overlay_prefix (f processid ref osm bf : string) (list_lines : list string)
  {A} (k : M A) tr :
  (run_command (Cmd "v.extract" [("input", Str ref); ("quiet", Flag true);
                                 ("output", Str (("fdata_" @@ processid) @@ "_" @@ f));
                                 ("where", Str ("cat=" @@ f))]) ;;
   run_command (Cmd "g.copy" [("vect", Str ("patch_" @@ processid @@ "_0_0,"
                                            @@ ("patch_" @@ processid) @@ "_" @@ f @@ "_0"))]) ;;
   (if str_in f list_lines then
      run_command (Cmd "v.buffer" [("flags", Str "c"); ("distance", Str bf);
                                   ("quiet", Flag true);
                                   ("input", Str (("fdata_" @@ processid) @@ "_" @@ f));
                                   ("output", Str (("fbuffer_" @@ processid) @@ "_" @@ f))])
    else
      run_command (Cmd "v.buffer" [("distance", Str bf); ("quiet", Flag true);
                                   ("input", Str (("fdata_" @@ processid) @@ "_" @@ f));
                                   ("output", Str (("fbuffer_" @@ processid) @@ "_" @@ f))])) ;;
   run_command (Cmd "v.overlay" [("ainput", Str osm); ("atype", Str "line");
                                 ("quiet", Flag true);
                                 ("binput", Str (("fbuffer_" @@ processid) @@ "_" @@ f));
                                 ("output", Str (("odata_" @@ processid) @@ "_" @@ f));
                                 ("operator", Str "and")]) ;;
   k) tr
  = k (tr ++ overlay_events f processid ref osm bf list_lines).
Proof.
  unfold overlay_events, newfdata, newbuffer, newodata, bind, run_command, emit.
  destruct (str_in f list_lines); cbn [app]; repeat rewrite <- app_assoc;
    reflexivity.
Qed.

End EmptyOverlay.

(** C6.  When [v.info -t] reports zero lines for the overlay of the OSM
    dataset with the buffered reference feature, [AngulatComparison]
    removes the three temporary maps of the feature and returns 0: after
    the overlay it has issued only the [v.info] read and that removal, so
    no coordinate table is read and nothing is patched. *)
Theorem empty_overlay_skips_feature {py : Python} {gr : Grass}
  (f processid ref osm bf : string) (list_lines : list string)
  (angle_thres : pyval) (tr : list event) :
  feature_count
    (grass_stdout (tr ++ overlay_events f processid ref osm bf list_lines)
       (overlay_info_cmd processid f)) = Some 0%Z ->
  let done := [ Read (overlay_info_cmd processid f);
                Run (remove_feature_maps processid f) ] in
  Preproc.AngulatComparison f processid ref osm bf list_lines angle_thres tr
  = (Ok 0%Z, tr ++ overlay_events f processid ref osm bf list_lines ++ done)
  /\
  Forall (fun e => module_of e <> "v.to.db" /\ module_of e <> "v.patch")
    (overlay_events f processid ref osm bf list_lines ++ done).
Proof.
  intros H done. split.
  - unfold Preproc.AngulatComparison. cbv zeta.
    rewrite overlay_prefix.
    unfold feature_count in H.
    destruct (nth_error (split nl _) 2) as [line|] eqn:E1; [|discriminate].
    destruct (nth_error (split "=" line) 1) as [field|] eqn:E2; [|discriminate].
    unfold bind at 1, read_command. fold (newodata processid f).
    fold (overlay_info_cmd processid f).
    unfold bind at 1. rewrite (index_some _ _ _ _ E1).
    unfold bind at 1. rewrite (index_some _ _ _ _ E2).
    unfold bind at 1, py_int. rewrite H. cbn [ret Z.eqb].
    unfold bind, run_command, emit, ret, done, remove_feature_maps,
      newfdata, newbuffer, newodata.
    repeat rewrite <- app_assoc. reflexivity.
  - unfold overlay_events, done, module_of.
    repeat constructor; cbn; discriminate.
Qed.

(** Feature 1 in the session whose overlay is empty. *)
Lemma empty_overlay_skips_feature_witness :
  Preproc.AngulatComparison (py := Demo.python) (gr := Demo.no_overlap_session)
    "1" Demo.pid "ref" "osm" "5" ["1"] (PyStr "10") []
  = (Ok 0%Z,
     overlay_events "1" Demo.pid "ref" "osm" "5" ["1"]
       ++ [ Read (overlay_info_cmd Demo.pid "1");
            Run (remove_feature_maps Demo.pid "1") ]).
Proof.
  exact (proj1 (empty_overlay_skips_feature
                  (py := Demo.python) (gr := Demo.no_overlap_session)
                  "1" Demo.pid "ref" "osm" "5" ["1"] (PyStr "10") [] eq_refl)).
Defined.

(** ** [GetCoeff] *)

Section Coefficient.
Context {py : Python} {gr : Grass}.

Lemma try_except_returns {A} (m : M A) (v : A) tr :
  exists a tr', try_except m (ret v) tr = (Ok a, tr').
Proof.
  unfold try_except. destruct (m tr) as [[a|e] tr']; [now exists a, tr'|].
  now exists v, tr'.
Qed.

(** Once the table of start points has a second line, [GetCoeff]
    returns a coefficient whatever happens next. *)
Lemma GetCoeff_returns_after_start (vect : string) tr row :
  nth_error (split nl (grass_stdout tr (start_cmd vect))) 1 = Some row ->
  exists m tr', Preproc.GetCoeff vect tr = (Ok m, tr').
Proof.
  intros H. unfold Preproc.GetCoeff, bind at 1, read_command at 1.
  fold (start_cmd vect). unfold bind at 1. rewrite (index_some _ _ _ _ H).
  apply try_except_returns.
Qed.

(** A table of start points without a second line: the index is taken
    before the [try], and the [IndexError] leaves [GetCoeff]. *)
Lemma GetCoeff_start_unreadable (vect : string) tr :
  nth_error (split nl (grass_stdout tr (start_cmd vect))) 1 = None ->
  Preproc.GetCoeff vect tr = (Raise IndexError, tr ++ [Read (start_cmd vect)]).
Proof.
  intros H. unfold Preproc.GetCoeff, bind at 1, read_command at 1.
  fold (start_cmd vect). unfold bind at 1. rewrite (index_none _ _ _ H).
  reflexivity.
Qed.

(** Both points read: the quotient of the differences, or [10**9] for a
    vertical line. *)
Lemma GetCoeff_slope (vect : string) tr x_start y_start x_end y_end :
  point_of (grass_stdout tr (start_cmd vect)) = Some (x_start, y_start) ->
  point_of (grass_stdout (tr ++ [Read (start_cmd vect)]) (end_cmd vect))
  = Some (x_end, y_end) ->
  Preproc.GetCoeff vect tr
  = (Ok (if PrimFloat.eqb (x_end - x_start) 0 then Preproc.vertical
         else ((y_end - y_start) / (x_end - x_start))%float),
     tr ++ [Read (start_cmd vect); Read (end_cmd vect)]).
Proof.
  unfold point_of. intros Hs He.
  destruct (nth_error (split nl (grass_stdout tr (start_cmd vect))) 1)
    as [rs|] eqn:Ers; [|discriminate].
  destruct (nth_error (split "|" rs) 1) as [fxs|] eqn:Efxs; [|discriminate].
  destruct (nth_error (split "|" rs) 2) as [fys|] eqn:Efys; [|discriminate].
  destruct (float_of_str fxs) as [xs|] eqn:Exs; [|discriminate].
  destruct (float_of_str fys) as [ys|] eqn:Eys; [|discriminate].
  injection Hs as -> ->.
  destruct (nth_error (split nl _) 1) as [re|] eqn:Ere in He; [|discriminate].
  destruct (nth_error (split "|" re) 1) as [fxe|] eqn:Efxe; [|discriminate].
  destruct (nth_error (split "|" re) 2) as [fye|] eqn:Efye; [|discriminate].
  destruct (float_of_str fxe) as [xe|] eqn:Exe; [|discriminate].
  destruct (float_of_str fye) as [ye|] eqn:Eye; [|discriminate].
  injection He as -> ->.
  unfold Preproc.GetCoeff, bind at 1, read_command at 1. fold (start_cmd vect).
  unfold bind at 1. rewrite (index_some _ _ _ _ Ers).
  unfold try_except, bind, read_command, py_float. fold (end_cmd vect).
  rewrite (index_some _ _ _ _ Efxs), Exs. cbn [ret].
  rewrite (index_some _ _ _ _ Efys), Eys. cbn [ret].
  rewrite (index_some _ _ _ _ Ere).
  rewrite (index_some _ _ _ _ Efxe), Exe. cbn [ret].
  rewrite (index_some _ _ _ _ Efye), Eye. cbn [ret].
  unfold py_div.
  destruct (PrimFloat.eqb (x_end - x_start) 0); cbn [negb ret];
    rewrite <- app_assoc; reflexivity.
Qed.

End Coefficient.

(** C8, at a map whose table of start points is empty ([v.to.db] printed
    nothing).  [GetCoeff] does not return the sentinel: the [IndexError]
    of the index taken before the [try] propagates, and through it out
    of [AngulatComparison] when the map is a reference feature. *)
Theorem GetCoeff_propagates_IndexError :
  Preproc.GetCoeff (py := Demo.python) (gr := Demo.silent_session) "roads" []
  = (Raise IndexError, [Read (start_cmd "roads")]).
Proof. vm_compute. reflexivity. Qed.

(** ** The angle between two coefficients *)

(** C7, at a reference segment from (0,0) to (1,1) and an OSM subfeature
    from (0,1) to (1,0).  [GetCoeff] returns 1 and -1, [1 + 1 * -1] is
    zero, and the angle expression raises [ZeroDivisionError], which ends
    [AngulatComparison]. *)
Theorem perpendicular_coefficients_divide_by_zero :
  let ref_feature := newfdata Demo.pid "1" in
  let subfeature := (newodata Demo.pid "1" @@ "_1")%string in
  fst (Preproc.GetCoeff (py := Demo.python) (gr := Demo.crossing_session)
         ref_feature []) = Ok 1%float
  /\
  fst (Preproc.GetCoeff (py := Demo.python) (gr := Demo.crossing_session)
         subfeature []) = Ok (-1)%float
  /\
  PrimFloat.eqb (1 + 1 * -1)%float 0 = true
  /\
  Preproc.new_angle (py := Demo.python) 1 (-1) [] = (Raise ZeroDivisionError, [])
  /\
  fst (Preproc.AngulatComparison (py := Demo.python) (gr := Demo.crossing_session)
         "1" Demo.pid "ref" "osm" "5" [] (PyStr "10") [])
  = Raise ZeroDivisionError.
Proof. repeat split; vm_compute; reflexivity. Qed.

(** ** The loop over the subfeatures *)

Section Subfeature.
Context {py : Python} {gr : Grass}.

Lemma new_angle_defined (m_ref m_osm : float) tr :
  PrimFloat.eqb (1 + m_ref * m_osm) 0 = false ->
  Preproc.new_angle m_ref m_osm tr = (Ok (angle_between m_ref m_osm), tr).
Proof.
  intros H. unfold Preproc.new_angle, bind, py_div. rewrite H. reflexivity.
Qed.

Lemma new_angle_undefined (m_ref m_osm : float) tr :
  PrimFloat.eqb (1 + m_ref * m_osm) 0 = true ->
  Preproc.new_angle m_ref m_osm tr = (Raise ZeroDivisionError, tr).
Proof.
  intros H. unfold Preproc.new_angle, bind, py_div. rewrite H. reflexivity.
Qed.

(** One subfeature whose coefficient is read and whose angle is defined:
    it is patched when the comparison with the threshold holds, and its
    temporary map is removed otherwise. *)
Lemma subfeature_step_outcome (f processid : string) (m_ref : float)
  (angle_thres : pyval) (z sf : string) tr m_osm tr1 :
  Preproc.GetCoeff (newodata processid f @@ "_" @@ sf)
    (tr ++ [extract_subfeature processid f sf]) = (Ok m_osm, tr1) ->
  PrimFloat.eqb (1 + m_ref * m_osm) 0 = false ->
  Preproc.subfeature_step f ("patch_" @@ processid) (newodata processid f)
    m_ref angle_thres z sf tr
  = if py_le (PyFloat (angle_between m_ref m_osm)) angle_thres
    then (Ok sf, tr1 ++ patch_events processid f z sf)
    else (Ok z, tr1 ++ remove_events processid f sf).
Proof.
  intros Hm Hd. unfold Preproc.subfeature_step. cbv zeta.
  unfold bind at 1, run_command at 1, emit at 1.
  fold (extract_subfeature processid f sf).
  step. rewrite (bind_ok _ _ _ _ _ (new_angle_defined _ _ _ Hd)).
  destruct (py_le _ angle_thres).
  - unfold bind, run_command, emit, ret, patch_events.
    rewrite <- app_assoc. reflexivity.
  - reflexivity.
Qed.

(** With a float for threshold, the comparison is the numeric one. *)
Lemma float_threshold_compares (a theta : float) :
  py_le (PyFloat a) (PyFloat theta) = PrimFloat.leb a theta.
Proof. reflexivity. Qed.

(** With the string [main] passes, the comparison always holds. *)
Lemma string_threshold_always_holds (a : float) (s : string) :
  py_le (PyFloat a) (PyStr s) = true.
Proof. reflexivity. Qed.

(** So in a run of [main], whose threshold is the option string, every
    subfeature whose angle is defined is patched, whatever the angle. *)
Lemma string_threshold_patches (f processid : string) (m_ref : float)
  (thres z sf : string) tr m_osm tr1 :
  Preproc.GetCoeff (newodata processid f @@ "_" @@ sf)
    (tr ++ [extract_subfeature processid f sf]) = (Ok m_osm, tr1) ->
  PrimFloat.eqb (1 + m_ref * m_osm) 0 = false ->
  Preproc.subfeature_step f ("patch_" @@ processid) (newodata processid f)
    m_ref (PyStr thres) z sf tr
  = (Ok sf, tr1 ++ patch_events processid f z sf).
Proof.
  intros Hm Hd. now rewrite (subfeature_step_outcome _ _ _ _ _ _ _ _ _ Hm Hd).
Qed.

End Subfeature.

(** C1, at a horizontal reference segment, an OSM subfeature at 45
    degrees and the option [angle_thres=10].  The angle between the
    coefficients 0 and 1 is above 10, yet the run of [main] patches the
    subfeature into the accumulated map (its events 32 and 33) and never
    removes the subfeature map alone: [main] hands the option to
    [AngulatComparison] as the string it is, and a float compares below
    every string. *)
Theorem string_threshold_patches_beyond_threshold :
  let run := Preproc.main (py := Demo.python) (gr := Demo.diagonal_session)
               Demo.preproc_options [] in
  Demo.preproc_options "angle_thres" = "10"
  /\
  fst (Preproc.GetCoeff (py := Demo.python) (gr := Demo.diagonal_session)
         (newfdata Demo.pid "1") []) = Ok 0%float
  /\
  fst (Preproc.GetCoeff (py := Demo.python) (gr := Demo.diagonal_session)
         (newodata Demo.pid "1" @@ "_1") []) = Ok 1%float
  /\
  PrimFloat.leb (angle_between (py := Demo.python) 0 1) 10 = false
  /\
  fst run = Ok 0%Z
  /\
  firstn 2 (skipn 32 (snd run)) = patch_events Demo.pid "1" "0" "1"
  /\
  ~ In (Run (Cmd "g.remove" [("type", Str "vect");
                             ("name", Str (newodata Demo.pid "1" @@ "_1"));
                             ("flags", Str "f"); ("quiet", Flag true)]))
       (snd run).
Proof.
  cbv zeta. repeat split; try (vm_compute; reflexivity).
  vm_compute. intuition discriminate.
Qed.

(** ** What a computation adds to the session *)

Section Emits.
Context {A B : Type} (P : event -> Prop).

Lemma emits_ret (Q : A -> Prop) (a : A) : Q a -> emits P Q (ret a).
Proof.
  intros H tr. exists []. cbn. rewrite app_nil_r. repeat split; auto.
  now intros ? [= <-].
Qed.

Lemma emits_raise (Q : A -> Prop) (e : exn) : emits P Q (raise e).
Proof.
  intros tr. exists []. cbn. rewrite app_nil_r. repeat split; auto. discriminate.
Qed.

Lemma emits_bind (Q : A -> Prop) (R : B -> Prop) (m : M A) (k : A -> M B) :
  emits P Q m -> (forall a, Q a -> emits P R (k a)) -> emits P R (bind m k).
Proof.
  intros Hm Hk tr. destruct (Hm tr) as (evs & E & HP & HQ).
  unfold bind. destruct (m tr) as [[a|e] tr1]; cbn in *; subst tr1.
  - destruct (Hk a (HQ a eq_refl) (tr ++ evs)) as (evs' & E' & HP' & HQ').
    exists (evs ++ evs'). rewrite E', app_assoc. repeat split; auto.
    now apply Forall_app.
  - exists evs. repeat split; auto. discriminate.
Qed.

Lemma emits_mono (P' : event -> Prop) (Q Q' : A -> Prop) (m : M A) :
  (forall e, P e -> P' e) -> (forall a, Q a -> Q' a) ->
  emits P Q m -> emits P' Q' m.
Proof.
  intros HP HQ Hm tr. destruct (Hm tr) as (evs & E & H & H').
  exists evs. repeat split; auto.
  eapply Forall_impl; [exact HP|exact H].
Qed.

Lemma emits_try_except (m h : M A) :
  emits P any m -> emits P any h -> emits P any (try_except m h).
Proof.
  intros Hm Hh tr. destruct (Hm tr) as (evs & E & HP & _).
  unfold try_except. destruct (m tr) as [[a|e] tr1]; cbn in *; subst tr1.
  - exists evs. repeat split; auto.
  - destruct (Hh (tr ++ evs)) as (evs' & E' & HP' & _).
    exists (evs ++ evs'). rewrite E', app_assoc. repeat split; auto.
    now apply Forall_app.
Qed.

Lemma emits_attempt (Q : A -> Prop) (m : M A) :
  emits P Q m ->
  emits P (fun r => match r with Some a => Q a | None => True end) (attempt m).
Proof.
  intros Hm tr. destruct (Hm tr) as (evs & E & HP & HQ).
  exists evs. unfold attempt. destruct (m tr) as [[a|e] tr1]; cbn in *.
  - repeat split; auto. intros r [= <-]. now apply HQ.
  - destruct e; cbn; repeat split; auto; try discriminate;
      intros r [= <-]; exact I.
Qed.

End Emits.

Section EmitsLeaves.
Context {py : Python} {gr : Grass} (P : event -> Prop).

Lemma emits_emit (e : event) : P e -> emits P any (emit e).
Proof.
  intros H tr. exists [e]. cbn. repeat split; auto.
Qed.

Lemma emits_read (c : command) : P (Read c) -> emits P any (read_command c).
Proof.
  intros H tr. exists [Read c]. cbn. repeat split; auto.
Qed.

Lemma emits_silent {A} (m : M A) :
  (forall tr, snd (m tr) = tr) -> emits P any m.
Proof.
  intros H tr. exists []. rewrite app_nil_r. repeat split; auto.
Qed.

Lemma emits_index {A} (l : list A) i : emits P any (index l i).
Proof. apply emits_silent. intros tr. unfold index. now destruct nth_error. Qed.

Lemma emits_py_int s : emits P any (py_int s).
Proof. apply emits_silent. intros tr. unfold py_int. now destruct int_of_str. Qed.

Lemma emits_py_float s : emits P any (py_float s).
Proof. apply emits_silent. intros tr. unfold py_float. now destruct float_of_str. Qed.

Lemma emits_py_div x y : emits P any (py_div x y).
Proof. apply emits_silent. intros tr. unfold py_div. now destruct PrimFloat.eqb. Qed.

Lemma emits_find_file name : emits P any (find_file name).
Proof. now apply emits_silent. Qed.

Lemma emits_new_processid : emits P any new_processid.
Proof. now apply emits_silent. Qed.

Lemma emits_local {A} name (v : option A) : emits P any (local name v).
Proof. apply emits_silent. intros tr. now destruct v. Qed.

Lemma emits_for_each {A S} (I : S -> Prop) (body : S -> A -> M S) (l : list A) :
  (forall s x, I s -> emits P I (body s x)) ->
  forall s, I s -> emits P I (for_each l body s).
Proof.
  intros Hb. induction l as [|x l IH]; intros s Hs; cbn [for_each].
  - now apply emits_ret.
  - eapply emits_bind; [now apply Hb|]. intros s' Hs'. now apply IH.
Qed.

Lemma emits_map_m {A B} (f : A -> M B) (l : list A) :
  (forall x, emits P any (f x)) -> emits P any (map_m f l).
Proof.
  intros Hf. induction l as [|x l IH]; cbn [map_m].
  - now apply emits_ret.
  - eapply emits_bind; [apply Hf|]. intros y _.
    eapply emits_bind; [apply IH|]. intros ys _. now apply emits_ret.
Qed.

End EmitsLeaves.

(** The steps that add nothing or a command, whatever [P] the commands
    satisfy. *)
Ltac emits_leaf :=
  first
    [ apply emits_emit; solve [ auto ]
    | apply emits_read; solve [ auto ]
    | apply emits_index | apply emits_py_int | apply emits_py_float
    | apply emits_py_div | apply emits_find_file | apply emits_new_processid
    | apply emits_local
    | apply emits_raise
    | apply (emits_ret _ any); exact I
    | apply emits_ret; exact I ].

Ltac emits_walk :=
  repeat
    lazymatch goal with
    | |- emits _ _ (bind _ _) => eapply emits_bind; [ | intros ? _ ]
    | |- emits _ _ (if ?b then _ else _) => destruct b
    | |- emits _ _ (match ?x with _ => _ end) => destruct x
    | |- emits _ _ (for_each _ _ _) =>
        apply (emits_for_each _ any); [ intros ? ? _ | exact I ]
    | |- emits _ _ (map_m _ _) => apply emits_map_m; intros ?
    | |- emits _ _ (try_except _ _) => apply emits_try_except
    | |- emits _ _ _ => emits_leaf
    end.

Section Commands.
Context {py : Python} {gr : Grass} (P : event -> Prop).
Hypothesis P_run : forall c, P (Run c).
Hypothesis P_read : forall c, P (Read c).

Lemma length_emits data : emits P any (Precomp.length data).
Proof. unfold Precomp.length. emits_walk. Qed.

Lemma GetStat_emits osm ref buff : emits P any (Precomp.GetStat osm ref buff).
Proof.
  unfold Precomp.GetStat. cbv zeta.
  repeat (eapply emits_bind; [first [apply length_emits|emits_leaf]|intros ? _]).
  emits_leaf.
Qed.

Lemma percentage_emits s total : emits P any (Precomp.percentage s total).
Proof. unfold Precomp.percentage. emits_walk. Qed.

Lemma stat_step_emits osm ref s_osm s_ref acc b :
  emits P any (Precomp.stat_step osm ref s_osm s_ref acc b).
Proof.
  unfold Precomp.stat_step.
  eapply emits_bind; [apply GetStat_emits|intros [[[? ?] ?] ?] _].
  repeat (eapply emits_bind; [apply percentage_emits|intros ? _]).
  emits_leaf.
Qed.

Lemma table_row_emits list_buff st item :
  emits P any (Precomp.table_row list_buff st item).
Proof. unfold Precomp.table_row. emits_walk. Qed.

Lemma GetCoeff_emits vect : emits P any (Preproc.GetCoeff vect).
Proof. unfold Preproc.GetCoeff. emits_walk. Qed.

Lemma new_angle_emits m_ref m_osm : emits P any (Preproc.new_angle m_ref m_osm).
Proof. unfold Preproc.new_angle. emits_walk. Qed.

Lemma subfeature_step_emits f patch newodata m_ref thres z sf :
  emits P any (Preproc.subfeature_step f patch newodata m_ref thres z sf).
Proof.
  unfold Preproc.subfeature_step. cbv zeta.
  eapply emits_bind; [emits_leaf|intros ? _].
  eapply emits_bind; [apply GetCoeff_emits|intros ? _].
  eapply emits_bind; [apply new_angle_emits|intros ? _].
  emits_walk.
Qed.

(** [AngulatComparison] issues commands only, and what it returns is 0. *)
Lemma AngulatComparison_emits f processid ref osm bf list_lines angle_thres :
  emits P (fun r => r = 0%Z)
    (Preproc.AngulatComparison f processid ref osm bf list_lines angle_thres).
Proof.
  unfold Preproc.AngulatComparison. cbv zeta.
  do 8 (eapply emits_bind; [emits_walk|intros ? _]).
  eapply emits_bind; [|intros ? _; now apply emits_ret].
  match goal with |- emits _ _ (if ?b then _ else _) => destruct b end.
  - emits_leaf.
  - eapply emits_bind; [emits_leaf|intros ? _].
    eapply emits_bind; [apply GetCoeff_emits|intros ? _].
    eapply emits_bind; [|intros ? _; emits_leaf].
    apply (emits_for_each _ any); [|exact I].
    intros. apply subfeature_step_emits.
Qed.


(** So has a worker process, however it ends. *)
Lemma process_emits (q_in : list Preproc.task) : forall q_out,
  Forall (eq 0%Z) q_out ->
  emits P (fun st => Forall (eq 0%Z) (snd st))
    (Preproc.process Preproc.AngulatComparison q_in q_out).
Proof.
  induction q_in as [|item q_in IH]; intros q_out Hq; cbn [Preproc.process].
  - apply emits_raise.
  - destruct item as [[[[[[[f process] ref] osm] bf] list_lines] angle_thres]|].
    + eapply emits_bind;
        [apply emits_attempt; apply AngulatComparison_emits|].
      intros [r|] Hr.
      * subst r. apply IH. apply Forall_app. split; [assumption|now constructor].
      * now apply emits_ret.
    + now apply emits_ret.
Qed.

Lemma processes_emits (nproc : nat) : forall q_in q_out,
  Forall (eq 0%Z) q_out ->
  emits P (fun st => Forall (eq 0%Z) (snd st))
    (Preproc.processes Preproc.AngulatComparison nproc q_in q_out).
Proof.
  induction nproc as [|nproc IH]; intros q_in q_out Hq; cbn [Preproc.processes].
  - now apply emits_ret.
  - eapply emits_bind; [now apply process_emits|].
    intros st Hst. now apply IH.
Qed.

Lemma Forall_take {A} (R : A -> Prop) (n : nat) : forall l,
  Forall R l -> Forall R (firstn n l).
Proof.
  induction n as [|n IH]; intros l H; [constructor|].
  destruct H as [|x l Hx Hl]; cbn; constructor; auto.
Qed.

Lemma get_all_emits nproc q_out :
  Forall (eq 0%Z) q_out ->
  emits P (Forall (eq 0%Z)) (Preproc.get_all nproc q_out).
Proof.
  intros H. unfold Preproc.get_all. destruct (_ <=? _)%nat.
  - apply emits_ret. now apply Forall_take.
  - apply emits_raise.
Qed.

Lemma py_min_emits l : emits P any (Preproc.py_min l).
Proof. unfold Preproc.py_min. emits_walk. Qed.

End Commands.

(** ** The error branch of v.osm.preproc *)

Lemma no_errors processed : Forall (eq 0%Z) processed -> errors_of processed = [].
Proof.
  unfold errors_of. induction 1 as [|p l <- _ IH]; [reflexivity|]. cbn. exact IH.
Qed.

Lemma quiet_run c : quiet (Run c).
Proof. discriminate. Qed.

Lemma quiet_read c : quiet (Read c).
Proof. discriminate. Qed.

Lemma quiet_file p t : quiet (FileWritten p t).
Proof. discriminate. Qed.

Lemma quiet_print_prefix (c : ascii) (s : string) :
  c <> "S"%char -> quiet (Print (String c s)).
Proof. intros H [= E]. contradiction. Qed.

#[local] Hint Resolve quiet_run quiet_read quiet_file : core.

Ltac quiet_walk :=
  repeat
    lazymatch goal with
    | |- emits _ _ (bind _ _) => eapply emits_bind; [ | intros ? _ ]
    | |- emits _ _ (if ?b then _ else _) => destruct b
    | |- emits _ _ (Preproc.length _) =>
        apply (length_emits quiet quiet_read)
    | |- emits _ _ (Preproc.py_min _) => apply py_min_emits
    | |- emits _ _ (map_m _ _) => apply emits_map_m; intros ?
    | |- emits _ _ (print _) =>
        apply emits_emit; apply quiet_print_prefix; discriminate
    | |- emits _ _ (match ?x with _ => _ end) => destruct x
    | |- emits _ _ _ => emits_leaf
    end.

Ltac quiet_next := eapply emits_bind; [ solve [quiet_walk] | intros ? _ ].

Section Quiet.
Context {py : Python} {gr : Grass}.


End Quiet.



(** ** A worker that dies *)

(** The process of a worker and the loop it runs.  Where the loop ends,
    the process leaves the markers of the loop; where an exception ends
    the loop, the process has ended, and nothing is raised in [main];
    where the loop never ends, neither does the process. *)
Lemma process_spawn func (q_in : list Preproc.task) : forall q_out tr,
  match Preproc.spawn func q_in q_out tr with
  | (Ok markers, t) =>
      exists left, Preproc.process func q_in q_out tr = (Ok (left, markers), t)
  | (Raise Blocked, t) => Preproc.process func q_in q_out tr = (Raise Blocked, t)
  | (Raise _, t) =>
      exists left markers,
        Preproc.process func q_in q_out tr = (Ok (left, markers), t)
  end.
Proof.
  induction q_in as [|item q_in IH]; intros q_out tr;
    cbn [Preproc.spawn Preproc.process].
  - reflexivity.
  - destruct item as [[[[[[[f process] ref] osm] bf] list_lines] angle_thres]|].
    + unfold bind, attempt.
      destruct (func f process ref osm bf list_lines angle_thres tr)
        as [[r|e] t'].
      * apply IH.
      * destruct e; try reflexivity; eexists; eexists; reflexivity.
    + exists q_in. reflexivity.
Qed.

(** The run with one worker on two reference features, the second crossed
    at a right angle.  The comparison of the second feature raises in the
    worker; [main] takes the marker of the first feature, goes on and
    returns 0.  Where the only feature is of that kind the worker has put
    no marker, and [main] waits for one for ever; so it does on the two
    features with two workers, of which it awaits two markers. *)
Lemma main_outlives_its_worker :
  (fst (Preproc.AngulatComparison (py := Demo.python)
          (gr := Demo.two_features_session)
          "2" Demo.pid "ref" "osm" "5" ["1"; "2"] (PyStr "10") [])
   = Raise ZeroDivisionError)
  /\
  (fst (Preproc.main (py := Demo.python) (gr := Demo.two_features_session)
          Demo.preproc_options [])
   = Ok 0%Z)
  /\
  (fst (Preproc.main (py := Demo.python) (gr := Demo.crossing_session)
          Demo.preproc_options [])
   = Raise Blocked)
  /\
  (fst (Preproc.main (py := Demo.python) (gr := Demo.two_features_session)
          Demo.two_workers_options [])
   = Raise Blocked).
Proof. repeat split; vm_compute; reflexivity. Qed.

(** ** The report of v.osm.precomp *)

Section Written.
Context {A B : Type}.

Lemma written_ext (m m' : M A) tr path text :
  m tr = m' tr -> written m tr path text -> written m' tr path text.
Proof. unfold written. now intros <-. Qed.

Lemma not_written_by_commands (evs : list event) path text :
  Forall is_command evs -> ~ In (FileWritten path text) evs.
Proof.
  intros H Hin. rewrite Forall_forall in H. exact (H _ Hin).
Qed.

(** A file written by [m ;; k], where [m] only issues commands, is
    written by [k], after [m] has returned. *)
Lemma written_bind (m : M A) (k : A -> M B) tr path text :
  emits is_command any m ->
  (forall a, emits any_event any (k a)) ->
  written (bind m k) tr path text ->
  exists a tr1, m tr = (Ok a, tr1) /\ written (k a) tr1 path text.
Proof.
  intros Hm Hk (evs & E & Hin).
  destruct (Hm tr) as (e1 & E1 & C1 & _).
  unfold bind in E. destruct (m tr) as [[a|e] t1]; cbn [snd] in E1; subst t1.
  - exists a, (tr ++ e1). split; [reflexivity|].
    destruct (Hk a (tr ++ e1)) as (e2 & E2 & _).
    exists e2. split; [exact E2|].
    rewrite E2, <- app_assoc in E. apply app_inv_head in E. subst evs.
    apply in_app_or in Hin. destruct Hin as [Hin|Hin]; [|exact Hin].
    now destruct (not_written_by_commands _ _ _ C1 Hin).
  - cbn [snd] in E. apply app_inv_head in E. subst evs.
    now destruct (not_written_by_commands _ _ _ C1 Hin).
Qed.

End Written.

Lemma map_m_pure {A B} (f : A -> M B) (g : A -> B) (l : list A) tr :
  (forall x, In x l -> f x tr = (Ok (g x), tr)) ->
  map_m f l tr = (Ok (map g l), tr).
Proof.
  induction l as [|x l IH]; intros H; [reflexivity|].
  cbn [map_m map]. rewrite (bind_ok _ _ _ _ _ (H x (or_introl eq_refl))).
  rewrite (bind_ok _ _ tr (map g l) tr); [reflexivity|].
  apply IH. intros y Hy. apply H. now right.
Qed.

Lemma map_nth_seq {A B} (h : A -> B) (d : A) (l : list A) :
  map (fun i => h (nth i l d)) (seq 0 (List.length l)) = map h l.
Proof.
  induction l as [|a l IH]; [reflexivity|].
  cbn [List.length seq map nth]. f_equal.
  rewrite <- seq_shift, map_map. exact IH.
Qed.

Section PrecompReport.
Context {py : Python} {gr : Grass}.

Lemma map_m_py_float_inv (l : list string) tr xs t :
  map_m py_float l tr = (Ok xs, t) ->
  all_some (map float_of_str l) = Some xs /\ t = tr.
Proof.
  revert xs. induction l as [|s l IH]; intros xs H; cbn [map_m map all_some] in *.
  - unfold ret in H. injection H as <- <-. now split.
  - unfold bind in H. unfold py_float at 1 in H.
    destruct (float_of_str s) as [x|]; cbn in H; [|discriminate].
    destruct (map_m py_float l tr) as [[ys|e] t1]; cbn in H; [|discriminate].
    injection H as <- <-. destruct (IH ys eq_refl) as [-> ->]. now split.
Qed.

Variables (osm ref : string) (s_osm s_ref : float).
Hypothesis osm_not_zero : PrimFloat.eqb s_osm 0 = false.
Hypothesis ref_not_zero : PrimFloat.eqb s_ref 0 = false.

Lemma stat_step_eq acc b tr :
  Precomp.stat_step osm ref s_osm s_ref acc b tr
  = match Precomp.GetStat osm ref b tr with
    | (Ok st, t) => (Ok (push_stats s_osm s_ref acc st), t)
    | (Raise e, t) => (Raise e, t)
    end.
Proof.
  unfold Precomp.stat_step, bind at 1.
  destruct (Precomp.GetStat osm ref b tr) as [[[[[ri ro] oi] oo]|e] t];
    [|reflexivity].
  unfold Precomp.percentage, bind, py_div.
  rewrite osm_not_zero, ref_not_zero. reflexivity.
Qed.

Lemma stat_loop_inv (bs : list float) : forall acc tr st t,
  for_each bs (Precomp.stat_step osm ref s_osm s_ref) acc tr = (Ok st, t) ->
  exists stats,
    map_m (Precomp.GetStat osm ref) bs tr = (Ok stats, t) /\
    st = fold_left (push_stats s_osm s_ref) stats acc.
Proof.
  induction bs as [|b bs IH]; intros acc tr st t H; cbn [for_each map_m] in *.
  - injection H as <- <-. now exists [].
  - unfold bind at 1 in H. rewrite stat_step_eq in H.
    unfold bind at 1.
    destruct (Precomp.GetStat osm ref b tr) as [[s|e] t1]; [|discriminate].
    destruct (IH _ _ _ _ H) as (stats & E & ->).
    exists (s :: stats). unfold bind. rewrite E. now split.
Qed.

Lemma pushed_stats (stats : list (float * float * float * float)) : forall acc,
  fold_left (push_stats s_osm s_ref) stats acc
  = append_stats acc (shown_stats s_osm s_ref stats).
Proof.
  induction stats as [|[[[ri ro] oi] oo] stats IH]; intros [a1 a2 a3 a4 a5 a6 a7 a8].
  - unfold append_stats. cbn. now rewrite !app_nil_r.
  - cbn [fold_left]. rewrite IH. unfold append_stats, push_stats. cbn.
    now rewrite <- !app_assoc.
Qed.

Lemma table_row_at (bs : list float) stats (item : nat) tr :
  List.length stats = List.length bs -> (item < List.length bs)%nat ->
  Precomp.table_row bs (shown_stats s_osm s_ref stats) item tr
  = (Ok (Report.row s_ref s_osm (nth item bs 0%float)
           (nth item stats (0, 0, 0, 0)%float)), tr).
Proof.
  intros Hlen Hi. unfold Precomp.table_row.
  assert (Hs : (item < List.length stats)%nat) by lia.
  rewrite (bind_ok _ _ _ _ _ (index_some _ _ _ tr (nth_error_nth' bs 0%float Hi))).
  unfold shown_stats. cbn [Precomp.l_osm_in Precomp.l_var_osm_in Precomp.l_osm_out
    Precomp.l_var_osm_out Precomp.l_ref_in Precomp.l_var_ref_in Precomp.l_ref_out
    Precomp.l_var_ref_out].
  assert (Hmap : forall (f : float * float * float * float -> float),
             index (map f stats) item tr
             = (Ok (f (nth item stats (0, 0, 0, 0)%float)), tr)).
  { intros f. apply index_some.
    rewrite (nth_error_nth' (map f stats) (f (0, 0, 0, 0)%float))
      by now rewrite length_map.
    now rewrite map_nth. }
  do 8 (erewrite bind_ok; [|apply Hmap]).
  destruct (nth item stats (0, 0, 0, 0)%float) as [[[ri ro] oi] oo].
  reflexivity.
Qed.

Lemma table_rows (bs : list float) stats tr :
  List.length stats = List.length bs ->
  map_m (Precomp.table_row bs (shown_stats s_osm s_ref stats)) (seq 0 (List.length bs)) tr
  = (Ok (map (fun p => Report.row s_ref s_osm (fst p) (snd p)) (combine bs stats)), tr).
Proof.
  intros Hlen.
  rewrite (map_m_pure _
             (fun i => Report.row s_ref s_osm (nth i bs 0%float)
                         (nth i stats (0, 0, 0, 0)%float))).
  - f_equal. f_equal.
    rewrite <- (map_nth_seq (fun p => Report.row s_ref s_osm (fst p) (snd p))
                  (0%float, (0, 0, 0, 0)%float) (combine bs stats)).
    rewrite length_combine, Hlen, Nat.min_id.
    apply map_ext. intros i. now rewrite combine_nth.
  - intros i Hi. apply in_seq in Hi. apply table_row_at; [exact Hlen|lia].
Qed.

End PrecompReport.

Lemma map_m_length {A B} (f : A -> M B) (l : list A) : forall tr ys t,
  map_m f l tr = (Ok ys, t) -> List.length ys = List.length l.
Proof.
  induction l as [|x l IH]; intros tr ys t H; cbn [map_m] in H.
  - unfold ret in H. now injection H as <- <-.
  - unfold bind in H. destruct (f x tr) as [[y|e] t1]; [|discriminate].
    destruct (map_m f l t1) as [[ys'|e] t2] eqn:E; [|discriminate].
    unfold ret in H. injection H as <- <-. cbn. f_equal. now apply IH with t1 t2.
Qed.

Ltac precomp_walk :=
  repeat
    lazymatch goal with
    | |- emits _ _ (bind _ _) => eapply emits_bind; [ | intros ? _ ]
    | |- emits _ _ (if ?b then _ else _) => destruct b
    | |- emits _ _ (Precomp.length _) => apply length_emits; intro; exact I
    | |- emits _ _ (for_each _ (Precomp.stat_step _ _ _ _) _) =>
        apply (emits_for_each _ any);
        [ intros ? ? _; apply stat_step_emits; intro; exact I | exact I ]
    | |- emits _ _ (map_m (Precomp.table_row _ _) _) =>
        apply emits_map_m; intros ?; apply table_row_emits
    | |- emits _ _ (map_m _ _) => apply emits_map_m; intros ?
    | |- emits _ _ (write_file _ _) => apply emits_emit; exact I
    | |- emits _ _ (run_command _) => apply emits_emit; exact I
    | |- emits _ _ (emit _) => apply emits_emit; exact I
    | |- emits _ _ (match ?x with _ => _ end) => destruct x
    | |- emits _ _ _ => emits_leaf
    end.

(** One step back from a written file through [m ;; k]. *)
Ltac written_step H a t Hm :=
  apply written_bind in H;
  [ destruct H as (a & t & Hm & H)
  | solve [precomp_walk]
  | intros ?; solve [precomp_walk] ].

Section PrecompMain.
Context {py : Python} {gr : Grass}.

(** Every run of v.osm.precomp that writes its file: both totals read
    from the input maps and not zero, the buffer values parsed, the
    lengths of every buffer read from the compared maps, and the file
    laid out from these. *)
Lemma precomp_written_inv (o : options) tr path text :
  written (Precomp.main o) tr path text ->
  exists s_ref tr1 s_osm tr2 buffers stats tr4,
    Precomp.length (o "ref") tr = (Ok s_ref, tr1) /\
    Precomp.length (o "osm") tr1 = (Ok s_osm, tr2) /\
    PrimFloat.eqb s_ref 0 = false /\
    PrimFloat.eqb s_osm 0 = false /\
    buffer_values o = Some buffers /\
    map_m (Precomp.GetStat (compared_osm o tr2) (compared_ref o tr2)) buffers
      (tr2 ++ clip_events o tr2) = (Ok stats, tr4) /\
    path = o "output" /\
    text = Report.file s_ref s_osm buffers stats.
Proof.
  intros H.
  destruct (first_missing (grass_find_file tr) (precomp_inputs o)) as [name|] eqn:Em.
  { destruct H as (evs & E & Hin). rewrite (precomp_missing_input _ _ _ Em) in E.
    cbn [snd] in E. rewrite <- (app_nil_r tr) in E at 1.
    apply app_inv_head in E. subst evs. destruct Hin. }
  unfold Precomp.main in H. cbv zeta in H.
  apply (written_ext _ _ _ _ _ (precomp_checks_pass o tr _ Em)) in H.
  written_step H s_ref tr1 L1.
  written_step H s_osm tr2 L2.
  written_step H u1 t Z1.
  destruct (PrimFloat.eqb s_ref 0) eqn:Zref; [discriminate Z1|].
  injection Z1 as <- <-.
  written_step H u2 t Z2.
  destruct (PrimFloat.eqb s_osm 0) eqn:Zosm; [discriminate Z2|].
  injection Z2 as <- <-.
  written_step H q t Hq.
  unfold py_div in Hq. rewrite Zref in Hq. injection Hq as <- <-.
  written_step H pid t Hpid.
  injection Hpid as <- <-.
  written_step H names tr3 Hnames.
  assert (Enames : names = (compared_ref o tr2, compared_osm o tr2)
                   /\ tr3 = tr2 ++ clip_events o tr2).
  { unfold compared_ref, compared_osm, clip_events, clipped, processid_at.
    destruct (nonempty (o "roi")).
    - unfold bind, run_command, emit, ret in Hnames. injection Hnames as <- <-.
      now rewrite <- app_assoc.
    - injection Hnames as <- <-. now rewrite app_nil_r. }
  destruct Enames as [-> ->]. cbv iota beta in H.
  written_step H buffers t Hb.
  apply map_m_py_float_inv in Hb. destruct Hb as [Hb ->].
  written_step H st tr4 Hst.
  apply (stat_loop_inv _ _ _ _ Zosm Zref) in Hst. destruct Hst as (stats & Hstats & ->).
  rewrite pushed_stats in H.
  change (append_stats Precomp.no_stats (shown_stats s_osm s_ref stats))
    with (shown_stats s_osm s_ref stats) in H.
  written_step H rows t Hrows.
  rewrite (table_rows s_osm s_ref buffers stats tr4 (map_m_length _ _ _ _ _ Hstats))
    in Hrows.
  injection Hrows as <- <-.
  exists s_ref, tr1, s_osm, tr2, buffers, stats, tr4.
  repeat (split; [assumption|]).
  destruct H as (evs & E & Hin).
  unfold bind, write_file, run_command, emit in E.
  destruct (nonempty (o "out_graphs")); cbn [snd ret] in E;
    rewrite <- !app_assoc in E; apply app_inv_head in E; subst evs;
    cbn [app In] in Hin;
    repeat (destruct Hin as [Hin|Hin]; try discriminate Hin); try contradiction;
    injection Hin as <- <-; split; reflexivity.
Qed.

End PrecompMain.

(** The run of the demo session writes its report (event 34). *)
Lemma demo_report_written :
  written (Precomp.main (py := Demo.python) (gr := Demo.precomp_session)
             Demo.precomp_options)
    [] "report.txt" Demo.precomp_report.
Proof.
  exists (snd (Precomp.main (py := Demo.python) (gr := Demo.precomp_session)
                 Demo.precomp_options [])).
  split; [reflexivity|].
  apply (nth_error_In _ 34). vm_compute. reflexivity.
Qed.

(** C3, as amended.  When a run of v.osm.precomp writes its output
    file, the file is exactly: the REF length line, the OSM length line,
    the REF-OSM difference line with [s_ref - s_osm] and
    [(s_ref - s_osm) / s_ref * 100], a blank line, the header of nine
    columns, and one row per buffer value in the order given; a row holds
    the buffer value as parsed (not rounded), then the OSM in, OSM out,
    REF in and REF out lengths, each followed by its percentage of the
    dataset total.  Every length, difference and percentage is rounded
    to one decimal.  The totals are what [length] returned for the two
    input maps, and the lengths of a row what [GetStat] returned for its
    buffer value. *)
Theorem report_layout {py : Python} {gr : Grass}
  (o : options) (tr : list event) (path text : string) :
  written (Precomp.main o) tr path text ->
  exists s_ref tr1 s_osm tr2 buffers stats tr4,
    Precomp.length (o "ref") tr = (Ok s_ref, tr1) /\
    Precomp.length (o "osm") tr1 = (Ok s_osm, tr2) /\
    buffer_values o = Some buffers /\
    map_m (Precomp.GetStat (compared_osm o tr2) (compared_ref o tr2)) buffers
      (tr2 ++ clip_events o tr2) = (Ok stats, tr4) /\
    List.length stats = List.length buffers /\
    path = o "output" /\
    text = Report.file s_ref s_osm buffers stats.
Proof.
  intros H.
  destruct (precomp_written_inv o tr path text H)
    as (s_ref & tr1 & s_osm & tr2 & buffers & stats & tr4
        & L1 & L2 & _ & _ & Hb & Hs & -> & ->).
  exists s_ref, tr1, s_osm, tr2, buffers, stats, tr4.
  repeat split; try assumption.
  exact (map_m_length _ _ _ _ _ Hs).
Qed.

(** The report of the demo session. *)
Lemma report_layout_witness :
  exists s_ref tr1 s_osm tr2 buffers stats tr4,
    Precomp.length (py := Demo.python) (gr := Demo.precomp_session)
      (Demo.precomp_options "ref") [] = (Ok s_ref, tr1) /\
    Precomp.length (py := Demo.python) (gr := Demo.precomp_session)
      (Demo.precomp_options "osm") tr1 = (Ok s_osm, tr2) /\
    buffer_values (py := Demo.python) Demo.precomp_options = Some buffers /\
    map_m (Precomp.GetStat (py := Demo.python) (gr := Demo.precomp_session)
             (compared_osm (py := Demo.python) (gr := Demo.precomp_session)
                Demo.precomp_options tr2)
             (compared_ref (py := Demo.python) (gr := Demo.precomp_session)
                Demo.precomp_options tr2))
      buffers
      (tr2 ++ clip_events (py := Demo.python) (gr := Demo.precomp_session)
                Demo.precomp_options tr2) = (Ok stats, tr4) /\
    List.length stats = List.length buffers /\
    "report.txt" = Demo.precomp_options "output" /\
    Demo.precomp_report = Report.file (py := Demo.python) s_ref s_osm buffers stats.
Proof.
  exact (report_layout (py := Demo.python) (gr := Demo.precomp_session)
           Demo.precomp_options [] "report.txt" Demo.precomp_report
           demo_report_written).
Defined.

(** C3 as stated fails: with the buffer values 0.25 and 10 the first row
    starts with 0.25, so the file is not the one in which every numeric
    value, the buffer value included, is rounded to one decimal. *)
Lemma buffer_value_is_not_rounded :
  written (Precomp.main (py := Demo.python) (gr := Demo.precomp_session)
             Demo.precomp_options)
    [] "report.txt" Demo.precomp_report
  /\
  Demo.precomp_report
  <> Report.file_all_rounded (py := Demo.python) 100%float 80%float
       [0.25; 10]%float [Demo.precomp_stats; Demo.precomp_stats]
  /\
  Demo.round_1 0.25%float <> 0.25%float.
Proof.
  split; [exact demo_report_written|]. split.
  - apply String.eqb_neq. vm_compute. reflexivity.
  - vm_compute. discriminate.
Qed.

(** C9.  When a clipping mask is supplied and the run writes its file,
    the REF length, the OSM length and their difference come from
    [length] on the input maps as given, while the lengths of every
    buffer come from [GetStat] on the two overlays with the mask, made
    after the totals were computed; each percentage of a row divides
    such a clipped length by the total of the unclipped map. *)
Theorem totals_unclipped_buffers_clipped {py : Python} {gr : Grass}
  (o : options) (tr : list event) (path text : string) :
  clipped o = true ->
  written (Precomp.main o) tr path text ->
  exists s_ref tr1 s_osm tr2 buffers stats tr4,
    Precomp.length (o "ref") tr = (Ok s_ref, tr1) /\
    Precomp.length (o "osm") tr1 = (Ok s_osm, tr2) /\
    buffer_values o = Some buffers /\
    let ref_roi := "ref_roi_" @@ processid_at tr2 in
    let osm_roi := "osm_roi_" @@ processid_at tr2 in
    map_m (Precomp.GetStat osm_roi ref_roi) buffers
      (tr2 ++ [ Run (Cmd "v.overlay" [("ainput", Str (o "ref")); ("atype", Str "line");
                                      ("binput", Str (o "roi")); ("operator", Str "and");
                                      ("output", Str ref_roi);
                                      ("flags", Str "t"); ("quiet", Flag true)]);
                Run (Cmd "v.overlay" [("ainput", Str (o "osm")); ("atype", Str "line");
                                      ("binput", Str (o "roi")); ("operator", Str "and");
                                      ("output", Str osm_roi);
                                      ("flags", Str "t"); ("quiet", Flag true)]) ])
    = (Ok stats, tr4) /\
    text = String.concat ""
             (Report.totals s_ref s_osm ++ [Report.header]
                ++ map (fun bs => Report.row s_ref s_osm (fst bs) (snd bs))
                     (combine buffers stats)).
Proof.
  intros Hc H.
  destruct (precomp_written_inv o tr path text H)
    as (s_ref & tr1 & s_osm & tr2 & buffers & stats & tr4
        & L1 & L2 & _ & _ & Hb & Hs & -> & ->).
  unfold compared_osm, compared_ref, clip_events in Hs. rewrite Hc in Hs.
  exists s_ref, tr1, s_osm, tr2, buffers, stats, tr4.
  repeat split; assumption.
Qed.

(** The demo session, whose options name the mask [roi]. *)
Lemma totals_unclipped_buffers_clipped_witness :
  exists s_ref tr1 s_osm tr2 buffers stats tr4,
    Precomp.length (py := Demo.python) (gr := Demo.precomp_session) "ref" []
    = (Ok s_ref, tr1) /\
    Precomp.length (py := Demo.python) (gr := Demo.precomp_session) "osm" tr1
    = (Ok s_osm, tr2) /\
    buffer_values (py := Demo.python) Demo.precomp_options = Some buffers /\
    let ref_roi :=
      "ref_roi_" @@ processid_at (py := Demo.python) (gr := Demo.precomp_session) tr2 in
    let osm_roi :=
      "osm_roi_" @@ processid_at (py := Demo.python) (gr := Demo.precomp_session) tr2 in
    map_m (Precomp.GetStat (py := Demo.python) (gr := Demo.precomp_session)
             osm_roi ref_roi) buffers
      (tr2 ++ [ Run (Cmd "v.overlay" [("ainput", Str "ref"); ("atype", Str "line");
                                      ("binput", Str "roi"); ("operator", Str "and");
                                      ("output", Str ref_roi);
                                      ("flags", Str "t"); ("quiet", Flag true)]);
                Run (Cmd "v.overlay" [("ainput", Str "osm"); ("atype", Str "line");
                                      ("binput", Str "roi"); ("operator", Str "and");
                                      ("output", Str osm_roi);
                                      ("flags", Str "t"); ("quiet", Flag true)]) ])
    = (Ok stats, tr4) /\
    Demo.precomp_report
    = String.concat ""
        (Report.totals (py := Demo.python) s_ref s_osm ++ [Report.header]
           ++ map (fun bs => Report.row (py := Demo.python) s_ref s_osm (fst bs) (snd bs))
                (combine buffers stats)).
Proof.
  exact (totals_unclipped_buffers_clipped
           (py := Demo.python) (gr := Demo.precomp_session)
           Demo.precomp_options [] "report.txt" Demo.precomp_report
           eq_refl demo_report_written).
Defined.

(** * Further properties *)

(** ** [length] on output it cannot parse *)

Section LengthErrors.
Context {py : Python} {gr : Grass}.

Lemma sum_loop_fails (items : list string) : forall acc tr,
  all_some (map second_field items) = None ->
  exists e, parse_error e /\
    for_each items
      (fun s_data item =>
         field <- index (split "|" item) 1 ;;
         x <- py_float field ;;
         ret (s_data + x)%float) acc tr
    = (Raise e, tr).
Proof.
  induction items as [|item items IH]; intros acc tr H; cbn [map all_some] in H.
  - discriminate.
  - cbn [for_each]. unfold second_field at 1 in H.
    destruct (nth_error (split "|" item) 1) as [field|] eqn:Efield.
    + destruct (float_of_str field) as [x|] eqn:Ex.
      * destruct (all_some (map second_field items)) as [xs|] eqn:Exs;
          [discriminate|].
        destruct (IH (acc + x)%float tr eq_refl) as (e & He & E).
        exists e. split; [exact He|].
        rewrite (bind_ok _ _ tr (acc + x)%float tr); [exact E|].
        rewrite (bind_ok _ _ tr field tr) by now apply index_some.
        unfold py_float. now rewrite Ex.
      * exists ValueError. split; [now right|].
        apply bind_raise.
        rewrite (bind_ok _ _ tr field tr) by now apply index_some.
        unfold py_float. now rewrite Ex.
    + exists IndexError. split; [now left|].
      apply bind_raise. apply bind_raise. now apply index_none.
Qed.

Lemma length_malformed_info (data : string) tr :
  feature_count (grass_stdout tr (info_cmd data)) = None ->
  exists e, parse_error e /\
    Precomp.length data tr = (Raise e, tr ++ [Read (info_cmd data)]).
Proof.
  unfold feature_count. intros H.
  unfold Precomp.length, bind at 1, read_command at 1. fold (info_cmd data).
  destruct (nth_error (split nl _) 2) as [line|] eqn:E1.
  - rewrite (bind_ok _ _ _ _ _ (index_some _ _ _ _ E1)).
    destruct (nth_error (split "=" line) 1) as [field|] eqn:E2.
    + rewrite (bind_ok _ _ _ _ _ (index_some _ _ _ _ E2)).
      exists ValueError. split; [now right|].
      apply bind_raise. unfold py_int. now rewrite H.
    + exists IndexError. split; [now left|].
      apply bind_raise. now apply index_none.
  - exists IndexError. split; [now left|].
    apply bind_raise. now apply index_none.
Qed.

Lemma length_malformed_table (data : string) tr n :
  feature_count (grass_stdout tr (info_cmd data)) = Some n ->
  (0 < n)%Z ->
  table_values (grass_stdout (tr ++ [Read (info_cmd data)]) (length_cmd data)) = None ->
  exists e, parse_error e /\
    Precomp.length data tr
    = (Raise e, tr ++ [Read (info_cmd data); Read (length_cmd data)]).
Proof.
  intros H Hn Hxs. destruct (count_read _ _ _ H) as (line & field & H1 & H2 & H3).
  destruct (sum_loop_fails _ 0%float
              ((tr ++ [Read (info_cmd data)]) ++ [Read (length_cmd data)]) Hxs)
    as (e & He & E).
  exists e. split; [exact He|].
  unfold Precomp.length, bind at 1 2 3 4, read_command at 1. fold (info_cmd data).
  rewrite (index_some _ _ _ _ H1), (index_some _ _ _ _ H2).
  unfold py_int. rewrite H3. cbn [ret].
  apply Z.ltb_lt in Hn. rewrite Hn.
  unfold bind at 1, read_command. fold (length_cmd data).
  rewrite E. now rewrite <- app_assoc.
Qed.

End LengthErrors.

(** X1.  When what [v.info -t] printed has no third line, no [=] in it,
    or no integer after it, [length] (in both scripts) raises
    [IndexError] or [ValueError] right after that read: it returns no
    length and never reads the length table. *)
Theorem length_raises_on_malformed_info {py : Python} {gr : Grass}
  (data : string) (tr : list event) :
  feature_count (grass_stdout tr (info_cmd data)) = None ->
  exists e, parse_error e /\
    Precomp.length data tr = (Raise e, tr ++ [Read (info_cmd data)]) /\
    Preproc.length data tr = (Raise e, tr ++ [Read (info_cmd data)]).
Proof.
  intros H. destruct (length_malformed_info data tr H) as (e & He & E).
  exists e. repeat split; assumption.
Qed.

(** A map for which [v.info] prints nothing. *)
Lemma length_raises_on_malformed_info_witness :
  exists e, parse_error e /\
    Precomp.length (py := Demo.python) (gr := Demo.silent_session) "roads" []
    = (Raise e, [Read (info_cmd "roads")]) /\
    Preproc.length (py := Demo.python) (gr := Demo.silent_session) "roads" []
    = (Raise e, [Read (info_cmd "roads")]).
Proof.
  exact (length_raises_on_malformed_info (py := Demo.python)
           (gr := Demo.silent_session) "roads" [] eq_refl).
Defined.

(** X2.  When the count is positive and some line of the length table
    (the first and the last apart) has no second field or one that is
    not a float, [length] raises [IndexError] or [ValueError] after the
    two reads: it never returns the sum of the lines that did parse. *)
Theorem length_raises_on_malformed_table {py : Python} {gr : Grass}
  (data : string) (tr : list event) (n : Z) :
  feature_count (grass_stdout tr (info_cmd data)) = Some n ->
  (0 < n)%Z ->
  table_values (grass_stdout (tr ++ [Read (info_cmd data)]) (length_cmd data)) = None ->
  exists e, parse_error e /\
    Precomp.length data tr
    = (Raise e, tr ++ [Read (info_cmd data); Read (length_cmd data)]) /\
    Preproc.length data tr
    = (Raise e, tr ++ [Read (info_cmd data); Read (length_cmd data)]).
Proof.
  intros H Hn Hxs.
  destruct (length_malformed_table data tr n H Hn Hxs) as (e & He & E).
  exists e. repeat split; assumption.
Qed.

(** Two lines, the length of the second printed as [n/a]. *)
Lemma length_raises_on_malformed_table_witness :
  exists e, parse_error e /\
    Precomp.length (py := Demo.python) (gr := Demo.broken_table_session) "roads" []
    = (Raise e, [Read (info_cmd "roads"); Read (length_cmd "roads")]) /\
    Preproc.length (py := Demo.python) (gr := Demo.broken_table_session) "roads" []
    = (Raise e, [Read (info_cmd "roads"); Read (length_cmd "roads")]).
Proof.
  exact (length_raises_on_malformed_table (py := Demo.python)
           (gr := Demo.broken_table_session) "roads" [] 2%Z
           eq_refl eq_refl eq_refl).
Defined.

(** ** [GetCoeff] past the table of start points *)

Section CoefficientCases.
Context {py : Python} {gr : Grass}.

Lemma GetCoeff_sentinel (vect : string) tr row :
  nth_error (split nl (grass_stdout tr (start_cmd vect))) 1 = Some row ->
  point_of (grass_stdout tr (start_cmd vect)) = None \/
  point_of (grass_stdout (tr ++ [Read (start_cmd vect)]) (end_cmd vect)) = None ->
  exists t,
    Preproc.GetCoeff vect tr = (Ok Preproc.vertical, t) /\
    (t = tr ++ [Read (start_cmd vect)] \/
     t = tr ++ [Read (start_cmd vect); Read (end_cmd vect)]).
Proof.
  intros Hrow H.
  unfold Preproc.GetCoeff, bind at 1, read_command at 1. fold (start_cmd vect).
  unfold bind at 1. rewrite (index_some _ _ _ _ Hrow).
  unfold point_of in H. rewrite Hrow in H.
  unfold try_except, bind, read_command, index, py_float. fold (end_cmd vect).
  destruct (nth_error (split "|" row) 1) as [fx|]; cbn [ret raise];
    [|eexists; split; [reflexivity|now left]].
  destruct (float_of_str fx) as [x|]; cbn [ret raise];
    [|eexists; split; [reflexivity|now left]].
  destruct (nth_error (split "|" row) 2) as [fy|]; cbn [ret raise];
    [|eexists; split; [reflexivity|now left]].
  destruct (float_of_str fy) as [y|]; cbn [ret raise];
    [|eexists; split; [reflexivity|now left]].
  destruct H as [H|H]; [discriminate|].
  exists (tr ++ [Read (start_cmd vect); Read (end_cmd vect)]).
  split; [|now right].
  replace (tr ++ [Read (start_cmd vect); Read (end_cmd vect)])
    with ((tr ++ [Read (start_cmd vect)]) ++ [Read (end_cmd vect)])
    by now rewrite <- app_assoc.
  destruct (nth_error
              (split nl (grass_stdout (tr ++ [Read (start_cmd vect)]) (end_cmd vect)))
              1) as [re|]; cbn [ret raise]; [|reflexivity].
  destruct (nth_error (split "|" re) 1) as [fxe|]; cbn [ret raise]; [|reflexivity].
  destruct (float_of_str fxe) as [xe|]; cbn [ret raise]; [|reflexivity].
  destruct (nth_error (split "|" re) 2) as [fye|]; cbn [ret raise]; [|reflexivity].
  destruct (float_of_str fye) as [ye|]; cbn [ret raise]; [discriminate|reflexivity].
Qed.

End CoefficientCases.

(** X3.  Once the table of start points has a second line, every later
    failure of [GetCoeff] gives the sentinel [10**9]: when a coordinate
    of the start point is missing or no float, or when the end point
    cannot be read the same way, [GetCoeff] returns [10**9], having
    issued the read of the start points and at most that of the end
    points. *)
Theorem GetCoeff_returns_sentinel_on_later_failure {py : Python} {gr : Grass}
  (vect : string) (tr : list event) (row : string) :
  nth_error (split nl (grass_stdout tr (start_cmd vect))) 1 = Some row ->
  point_of (grass_stdout tr (start_cmd vect)) = None \/
  point_of (grass_stdout (tr ++ [Read (start_cmd vect)]) (end_cmd vect)) = None ->
  Preproc.GetCoeff vect tr = (Ok Preproc.vertical, tr ++ [Read (start_cmd vect)]) \/
  Preproc.GetCoeff vect tr
  = (Ok Preproc.vertical, tr ++ [Read (start_cmd vect); Read (end_cmd vect)]).
Proof.
  intros Hrow H. destruct (GetCoeff_sentinel vect tr row Hrow H) as (t & E & [->| ->]);
    [now left|now right].
Qed.

(** A start point read, and a table of end points with the header only. *)
Lemma GetCoeff_returns_sentinel_on_later_failure_witness :
  Preproc.GetCoeff (py := Demo.python) (gr := Demo.broken_points_session) "roads" []
  = (Ok Preproc.vertical, [] ++ [Read (start_cmd "roads")]) \/
  Preproc.GetCoeff (py := Demo.python) (gr := Demo.broken_points_session) "roads" []
  = (Ok Preproc.vertical, [] ++ [Read (start_cmd "roads"); Read (end_cmd "roads")]).
Proof.
  exact (GetCoeff_returns_sentinel_on_later_failure (py := Demo.python)
           (gr := Demo.broken_points_session) "roads" [] "1|0|0|0"
           eq_refl (or_intror eq_refl)).
Defined.

(** X4.  When the second lines of the two tables give the start point
    and the end point, [GetCoeff] returns [(y_end - y_start) / (x_end -
    x_start)], and the sentinel [10**9] when [x_end - x_start] is zero
    (a vertical line); it has issued the two reads and nothing else, and
    its division never raises. *)
Theorem GetCoeff_of_two_points {py : Python} {gr : Grass}
  (vect : string) (tr : list event) (x_start y_start x_end y_end : float) :
  point_of (grass_stdout tr (start_cmd vect)) = Some (x_start, y_start) ->
  point_of (grass_stdout (tr ++ [Read (start_cmd vect)]) (end_cmd vect))
  = Some (x_end, y_end) ->
  Preproc.GetCoeff vect tr
  = (Ok (if PrimFloat.eqb (x_end - x_start) 0 then Preproc.vertical
         else ((y_end - y_start) / (x_end - x_start))%float),
     tr ++ [Read (start_cmd vect); Read (end_cmd vect)]).
Proof. apply GetCoeff_slope. Qed.

(** The OSM segment from (0,0) to (1,1) of the diagonal session. *)
Lemma GetCoeff_of_two_points_witness :
  Preproc.GetCoeff (py := Demo.python) (gr := Demo.diagonal_session)
    (newodata Demo.pid "1" @@ "_1") []
  = (Ok (if PrimFloat.eqb (1 - 0) 0 then Preproc.vertical
         else ((1 - 0) / (1 - 0))%float),
     [] ++ [Read (start_cmd (newodata Demo.pid "1" @@ "_1"));
            Read (end_cmd (newodata Demo.pid "1" @@ "_1"))]).
Proof.
  exact (GetCoeff_of_two_points (py := Demo.python) (gr := Demo.diagonal_session)
           (newodata Demo.pid "1" @@ "_1") [] 0%float 0%float 1%float 1%float
           eq_refl eq_refl).
Defined.

(** ** The process identifier *)

Lemma replace_absent (a b : ascii) (s : string) :
  a <> b -> ~ In a (list_ascii_of_string (replace a b s)).
Proof.
  intros Hab. induction s as [|c s IH]; cbn; [tauto|].
  intros [H|H]; [|now apply IH].
  destruct (Ascii.eqb c a) eqn:E.
  - now apply Hab.
  - apply Ascii.eqb_neq in E. now apply E.
Qed.

Lemma replace_length (a b : ascii) (s : string) :
  String.length (replace a b s) = String.length s.
Proof. induction s as [|c s IH]; cbn; [reflexivity|now rewrite IH]. Qed.

(** X5.  Whatever the clock shows and however [str] prints it, the
    process identifier every temporary map name is built from has no
    dot, and as many characters as the printed time. *)
Theorem processid_has_no_dot {py : Python} {gr : Grass} (tr : list event) :
  new_processid tr = (Ok (processid_at tr), tr) /\
  ~ In "."%char (list_ascii_of_string (processid_at tr)) /\
  String.length (processid_at tr) = String.length (str_of_float (time_time tr)).
Proof.
  split; [reflexivity|]. split.
  - apply replace_absent. discriminate.
  - apply replace_length.
Qed.

(** ** Temporary maps: removed when the function returns *)

Section EndsWith.
Context {A B : Type} (P : event -> Prop) (e : event).

Lemma ends_with_bind (m : M A) (k : A -> M B) :
  emits P any m -> (forall a, ends_with P e (k a)) -> ends_with P e (bind m k).
Proof.
  intros Hm Hk tr. destruct (Hm tr) as (e1 & E1 & C1 & _).
  unfold bind. destruct (m tr) as [[a|x] t1]; cbn [snd] in E1; subst t1.
  - destruct (Hk a (tr ++ e1)) as (e2 & E2 & H2).
    exists (e1 ++ e2). rewrite E2, app_assoc. split; [reflexivity|].
    destruct (fst (k a (tr ++ e1))).
    + destruct H2 as (pre & -> & Hpre). exists (e1 ++ pre).
      rewrite app_assoc. split; [reflexivity|]. now apply Forall_app.
    + now apply Forall_app.
  - exists e1. now split.
Qed.

Lemma ends_with_emit : ends_with P e (emit e).
Proof.
  intros tr. exists [e]. split; [reflexivity|]. cbn. now exists [].
Qed.

Lemma ends_with_then_ret (m : M A) (b : B) :
  ends_with P e m -> ends_with P e (bind m (fun _ => ret b)).
Proof.
  intros Hm tr. destruct (Hm tr) as (evs & E & H). exists evs.
  unfold bind. destruct (m tr) as [[a|x] t1]; cbn in *; now split.
Qed.

End EndsWith.

(** The steps of a computation, the commands checked by [tac]. *)
Ltac emits_with tac :=
  repeat
    lazymatch goal with
    | |- emits _ _ (bind _ _) => eapply emits_bind; [ | intros ? _ ]
    | |- emits _ _ (if ?b then _ else _) => destruct b
    | |- emits _ _ (for_each _ _ _) =>
        apply (emits_for_each _ any); [ intros ? ? _ | exact I ]
    | |- emits _ _ (map_m _ _) => apply emits_map_m; intros ?
    | |- emits _ _ (try_except _ _) => apply emits_try_except
    | |- emits _ _ (read_command _) => apply emits_read; tac
    | |- emits _ _ (run_command _) => apply emits_emit; tac
    | |- emits _ _ (emit _) => apply emits_emit; tac
    | |- emits _ _ (index _ _) => apply emits_index
    | |- emits _ _ (py_int _) => apply emits_py_int
    | |- emits _ _ (py_float _) => apply emits_py_float
    | |- emits _ _ (py_div _ _) => apply emits_py_div
    | |- emits _ _ new_processid => apply emits_new_processid
    | |- emits _ _ (raise _) => apply emits_raise
    | |- emits _ _ (ret _) => apply (emits_ret _ any); exact I
    | |- emits _ _ (match ?x with _ => _ end) => destruct x
    end.

Ltac not_removal_tac := unfold not_removal; cbn [module_of module_name]; discriminate.

Section Cleanup.
Context {py : Python} {gr : Grass}.

Lemma length_never_removes data : emits not_removal any (Precomp.length data).
Proof. unfold Precomp.length. emits_with not_removal_tac. Qed.

Lemma GetStat_body_ends (osm ref : string) (buff : float) tr :
  exists evs,
    snd (Precomp.GetStat osm ref buff tr) = tr ++ evs /\
    match fst (Precomp.GetStat osm ref buff tr) with
    | Ok _ =>
        exists pre,
          evs = pre ++ [Run (remove_by_pattern (processid_at tr))] /\
          Forall not_removal pre
    | Raise _ => Forall not_removal evs
    end.
Proof.
  unfold Precomp.GetStat.
  rewrite (bind_ok _ _ tr (processid_at tr) tr) by reflexivity.
  cbv zeta. generalize (processid_at tr) as processid. intros processid.
  match goal with
  | |- exists evs, snd (?m tr) = _ /\ _ =>
      enough (H : ends_with not_removal (Run (remove_by_pattern processid)) m)
        by exact (H tr)
  end.
  do 10 (eapply ends_with_bind;
         [first [apply length_never_removes | emits_with not_removal_tac]|intros ?]).
  apply ends_with_then_ret. apply ends_with_emit.
Qed.

Lemma GetCoeff_reads vect (P : event -> Prop) :
  (forall c, P (Read c)) -> emits P any (Preproc.GetCoeff vect).
Proof. intros H. now apply GetCoeff_emits. Qed.

Lemma AngulatComparison_ends (f processid ref osm bf : string)
  (list_lines : list string) (angle_thres : pyval) :
  ends_with (fun x => x <> Run (remove_feature_maps processid f))
    (Run (remove_feature_maps processid f))
    (Preproc.AngulatComparison f processid ref osm bf list_lines angle_thres).
Proof.
  unfold Preproc.AngulatComparison. cbv zeta.
  do 8 (eapply ends_with_bind; [emits_with discriminate|intros ?]).
  apply ends_with_then_ret.
  match goal with |- ends_with _ _ (if ?b then _ else _) => destruct b end.
  - apply ends_with_emit.
  - eapply ends_with_bind; [emits_with discriminate|intros ?].
    eapply ends_with_bind; [apply GetCoeff_reads; discriminate|intros ?].
    eapply ends_with_bind; [|intros ?; apply ends_with_emit].
    apply (emits_for_each _ any); [|exact I].
    intros z sf _. unfold Preproc.subfeature_step. cbv zeta.
    eapply emits_bind; [emits_with discriminate|intros ? _].
    eapply emits_bind; [apply GetCoeff_reads; discriminate|intros ? _].
    eapply emits_bind; [unfold Preproc.new_angle; emits_with discriminate|intros ? _].
    emits_with discriminate.
Qed.

End Cleanup.

(** X6.  When [GetStat] returns, its last command is the removal of the
    maps matching its process identifier and it has issued no other
    [g.remove]; when one of its four length computations raises,
    [GetStat] has issued no [g.remove] at all, so the buffer and overlay
    maps it made stay in the session. *)
Theorem GetStat_removes_only_on_return {py : Python} {gr : Grass}
  (osm ref : string) (buff : float) (tr : list event) :
  exists evs,
    snd (Precomp.GetStat osm ref buff tr) = tr ++ evs /\
    match fst (Precomp.GetStat osm ref buff tr) with
    | Ok _ =>
        exists pre,
          evs = pre ++ [Run (remove_by_pattern (processid_at tr))] /\
          Forall not_removal pre
    | Raise _ => Forall not_removal evs
    end.
Proof. apply GetStat_body_ends. Qed.

(** X7.  When [AngulatComparison] returns, its last command is the
    removal of the three temporary maps of its feature, issued once; when
    it raises, that removal has not been issued, so the extract, the
    buffer and the overlay of the feature stay in the session. *)
Theorem AngulatComparison_removes_only_on_return {py : Python} {gr : Grass}
  (f processid ref osm bf : string) (list_lines : list string)
  (angle_thres : pyval) (tr : list event) :
  let run := Preproc.AngulatComparison f processid ref osm bf list_lines
               angle_thres tr in
  let removal := Run (remove_feature_maps processid f) in
  exists evs,
    snd run = tr ++ evs /\
    match fst run with
    | Ok _ => exists pre, evs = pre ++ [removal] /\ ~ In removal pre
    | Raise _ => ~ In removal evs
    end.
Proof.
  cbv zeta.
  destruct (AngulatComparison_ends f processid ref osm bf list_lines angle_thres tr)
    as (evs & E & H).
  exists evs. split; [exact E|].
  destruct (fst _).
  - destruct H as (pre & -> & Hpre). exists pre. split; [reflexivity|].
    intros Hin. rewrite Forall_forall in Hpre. now apply (Hpre _ Hin).
  - intros Hin. rewrite Forall_forall in H. now apply (H _ Hin).
Qed.

(** ** The pattern of the closing removal of [GetStat] *)

Lemma append_length (a b : string) :
  String.length (a @@ b) = (String.length a + String.length b)%nat.
Proof. induction a as [|c a IH]; cbn; [reflexivity|now rewrite IH]. Qed.

Lemma prefixed_differs (prefix s : string) : prefix <> "" -> prefix @@ s <> s.
Proof.
  intros Hp E. apply (f_equal String.length) in E.
  rewrite append_length in E.
  destruct prefix; [now apply Hp|]. cbn in E. lia.
Qed.

Lemma names_by_read processid c : names_by processid (Read c).
Proof. split; intros ? [=]. Qed.

Ltac with_prefix l :=
  lazymatch l with
  | ?p :: ?l' =>
      first [ exists p; split; [cbn; repeat (first [left; reflexivity | right])
                               | reflexivity]
            | with_prefix l' ]
  end.

Ltac names_tac :=
  first
    [ apply names_by_read
    | split; cbn; intros ? [= <-];
      first [ reflexivity
            | let l := eval cbv in GetStat_prefixes in with_prefix l ] ].

Section Pattern.
Context {py : Python} {gr : Grass}.

Lemma GetStat_names (osm ref : string) (buff : float) tr :
  exists evs,
    snd (Precomp.GetStat osm ref buff tr) = tr ++ evs /\
    Forall (names_by (processid_at tr)) evs.
Proof.
  unfold Precomp.GetStat.
  rewrite (bind_ok _ _ tr (processid_at tr) tr) by reflexivity.
  cbv zeta. generalize (processid_at tr) as processid. intros processid.
  match goal with
  | |- exists evs, snd (?m tr) = _ /\ _ =>
      enough (H : emits (names_by processid) any m)
        by (destruct (H tr) as (evs & E & F & _); now exists evs)
  end.
  do 11 (eapply emits_bind;
         [first [apply length_emits; intros; apply names_by_read
                | emits_with names_tac]|intros ? _]).
  emits_with names_tac.
Qed.

End Pattern.

(** X8.  The pattern [GetStat] gives to its closing [g.remove] is its
    process identifier alone, with no wildcard around it, while each of
    the six maps it has created is named by a prefix ([osm_buffer_],
    [ref_in_], ...) followed by that identifier: no map [GetStat] creates
    has the pattern as its name. *)
Theorem GetStat_pattern_names_no_created_map {py : Python} {gr : Grass}
  (osm ref : string) (buff : float) (tr : list event) :
  exists evs,
    snd (Precomp.GetStat osm ref buff tr) = tr ++ evs /\
    forall e1 e2 name pat,
      In e1 evs -> In e2 evs ->
      output_of e1 = Some name -> pattern_of e2 = Some pat ->
      pat = processid_at tr /\
      (exists prefix, In prefix GetStat_prefixes /\ name = prefix @@ pat) /\
      name <> pat.
Proof.
  destruct (GetStat_names osm ref buff tr) as (evs & E & F).
  exists evs. split; [exact E|].
  intros e1 e2 name pat H1 H2 Ho Hp. rewrite Forall_forall in F.
  destruct (F _ H1) as [Hname _]. destruct (F _ H2) as [_ Hpat].
  specialize (Hpat _ Hp). subst pat.
  destruct (Hname _ Ho) as (prefix & Hin & ->).
  split; [reflexivity|]. split; [now exists prefix|].
  apply prefixed_differs. intros ->. cbn in Hin. intuition discriminate.
Qed.

(** ** How v.osm.precomp ends *)

Section Outcome.
Context {A B : Type} (E : exn -> Prop).

Lemma outcome_ret (Q : A -> Prop) (a : A) : Q a -> outcome Q E (ret a).
Proof. intros H tr. exact H. Qed.

Lemma outcome_raise (Q : A -> Prop) (e : exn) : E e -> outcome Q E (raise e).
Proof. intros H tr. exact H. Qed.

Lemma outcome_bind (Q : A -> Prop) (R : B -> Prop) (m : M A) (k : A -> M B) :
  outcome Q E m -> (forall a, Q a -> outcome R E (k a)) -> outcome R E (bind m k).
Proof.
  intros Hm Hk tr. specialize (Hm tr). unfold bind.
  destruct (m tr) as [[a|e] tr1]; cbn in *.
  - exact (Hk a Hm tr1).
  - exact Hm.
Qed.

Lemma outcome_returns (m : M A) :
  (forall tr, exists a, fst (m tr) = Ok a) -> outcome any E m.
Proof. intros H tr. destruct (H tr) as (a & ->). exact I. Qed.

End Outcome.

Section OutcomeLeaves.
Context {py : Python} {gr : Grass} (E : exn -> Prop).
Hypothesis E_index : E IndexError.
Hypothesis E_value : E ValueError.

Lemma outcome_emit (e : event) : outcome any E (emit e).
Proof. apply outcome_returns. intros tr. now exists tt. Qed.

Lemma outcome_read (c : command) : outcome any E (read_command c).
Proof. apply outcome_returns. intros tr. now eexists. Qed.

Lemma outcome_find_file name : outcome any E (find_file name).
Proof. apply outcome_returns. intros tr. now eexists. Qed.

Lemma outcome_new_processid : outcome any E new_processid.
Proof. apply outcome_returns. intros tr. now eexists. Qed.

Lemma outcome_index {A} (l : list A) i : outcome any E (index l i).
Proof. intros tr. unfold index. now destruct nth_error. Qed.

Lemma outcome_py_int s : outcome any E (py_int s).
Proof. intros tr. unfold py_int. now destruct int_of_str. Qed.

Lemma outcome_py_float s : outcome any E (py_float s).
Proof. intros tr. unfold py_float. now destruct float_of_str. Qed.

(** A division whose divisor has passed the test against zero. *)
Lemma outcome_py_div x y : PrimFloat.eqb y 0 = false -> outcome any E (py_div x y).
Proof. intros H tr. unfold py_div. now rewrite H. Qed.

Lemma outcome_for_each {A S} (body : S -> A -> M S) (l : list A) :
  (forall s x, outcome any E (body s x)) ->
  forall s, outcome any E (for_each l body s).
Proof.
  intros Hb. induction l as [|x l IH]; intros s; cbn [for_each].
  - now apply outcome_ret.
  - eapply outcome_bind; [apply Hb|]. intros s' _. apply IH.
Qed.

Lemma outcome_map_m {A B} (f : A -> M B) (l : list A) :
  (forall x, outcome any E (f x)) -> outcome any E (map_m f l).
Proof.
  intros Hf. induction l as [|x l IH]; cbn [map_m].
  - now apply outcome_ret.
  - eapply outcome_bind; [apply Hf|]. intros y _.
    eapply outcome_bind; [apply IH|]. intros ys _. now apply outcome_ret.
Qed.

End OutcomeLeaves.

(** The steps of a computation that has no division. *)
Ltac outcome_walk :=
  repeat
    lazymatch goal with
    | |- outcome _ _ (bind _ _) => eapply outcome_bind; [ | intros ? _ ]
    | |- outcome _ _ (if ?b then _ else _) => destruct b
    | |- outcome _ _ (for_each _ _ _) => apply outcome_for_each; intros ? ?
    | |- outcome _ _ (map_m _ _) => apply outcome_map_m; intros ?
    | |- outcome _ _ (read_command _) => apply outcome_read
    | |- outcome _ _ (run_command _) => apply outcome_emit
    | |- outcome _ _ (write_file _ _) => apply outcome_emit
    | |- outcome _ _ (emit _) => apply outcome_emit
    | |- outcome _ _ (find_file _) => apply outcome_find_file
    | |- outcome _ _ (index _ _) => apply outcome_index; assumption
    | |- outcome _ _ (py_int _) => apply outcome_py_int; assumption
    | |- outcome _ _ (py_float _) => apply outcome_py_float; assumption
    | |- outcome _ _ new_processid => apply outcome_new_processid
    | |- outcome _ _ (ret _) => apply (outcome_ret _ any); exact I
    | |- outcome _ _ (match ?x with _ => _ end) => destruct x
    end.

Section PrecompOutcome.
Context {py : Python} {gr : Grass} (E : exn -> Prop).
Hypothesis E_index : E IndexError.
Hypothesis E_value : E ValueError.

Lemma length_outcome data : outcome any E (Precomp.length data).
Proof. unfold Precomp.length. outcome_walk. Qed.

Lemma GetStat_outcome osm ref buff : outcome any E (Precomp.GetStat osm ref buff).
Proof.
  unfold Precomp.GetStat. cbv zeta.
  do 11 (eapply outcome_bind;
         [first [apply length_outcome | outcome_walk]|intros ? _]).
  outcome_walk.
Qed.

Lemma percentage_outcome s total :
  PrimFloat.eqb total 0 = false -> outcome any E (Precomp.percentage s total).
Proof.
  intros H. unfold Precomp.percentage.
  eapply outcome_bind; [now apply outcome_py_div|]. intros q _.
  now apply outcome_ret.
Qed.

(** The totals that divide the lengths of a buffer have passed the
    tests of [main]. *)
Lemma stat_step_outcome osm ref s_osm s_ref acc b :
  PrimFloat.eqb s_osm 0 = false -> PrimFloat.eqb s_ref 0 = false ->
  outcome any E (Precomp.stat_step osm ref s_osm s_ref acc b).
Proof.
  intros Hosm Href. unfold Precomp.stat_step.
  eapply outcome_bind; [apply GetStat_outcome|]. intros [[[a b'] c] d] _.
  cbv zeta.
  do 4 (eapply outcome_bind; [now apply percentage_outcome|intros ? _]).
  now apply outcome_ret.
Qed.

Lemma table_row_outcome list_buff st item :
  outcome any E (Precomp.table_row list_buff st item).
Proof. unfold Precomp.table_row. outcome_walk. Qed.

End PrecompOutcome.

Section PrecompFailure.
Context {py : Python} {gr : Grass}.

Lemma precomp_main_outcome (o : options) :
  outcome any (precomp_failure o) (Precomp.main o).
Proof.
  assert (HI : precomp_failure o IndexError) by (right; right; now left).
  assert (HV : precomp_failure o ValueError) by (right; right; now right).
  assert (HU : precomp_failure o (UnboundLocalError "processid"))
    by (right; now left).
  assert (Hin : forall name, In name (precomp_inputs o) ->
                  precomp_failure o (not_found name))
    by (intros name H; left; now exists name).
  unfold Precomp.main. cbv zeta.
  eapply outcome_bind; [apply outcome_find_file|intros found _].
  eapply outcome_bind.
  { destruct (negb found); [|apply (outcome_ret _ any); exact I].
    apply outcome_raise. apply Hin. unfold precomp_inputs. cbn. now left. }
  intros _ _.
  eapply outcome_bind; [apply outcome_find_file|intros found' _].
  eapply outcome_bind.
  { destruct (negb found'); [|apply (outcome_ret _ any); exact I].
    apply outcome_raise. apply Hin. unfold precomp_inputs. cbn. right. now left. }
  intros _ _.
  eapply outcome_bind.
  { destruct (nonempty (o "roi")) eqn:Hroi; [|apply (outcome_ret _ any); exact I].
    eapply outcome_bind; [apply outcome_find_file|intros found'' _].
    destruct (negb found''); [|apply (outcome_ret _ any); exact I].
    apply outcome_raise. apply Hin. unfold precomp_inputs. rewrite Hroi.
    cbn. right. right. now left. }
  intros _ _.
  eapply outcome_bind; [now apply length_outcome|intros s_ref _].
  eapply outcome_bind; [now apply length_outcome|intros s_osm _].
  eapply outcome_bind.
  { instantiate (1 := fun _ => PrimFloat.eqb s_ref 0 = false).
    destruct (PrimFloat.eqb s_ref 0); [|now apply outcome_ret].
    eapply outcome_bind; [apply (outcome_raise _ (fun _ => False)); exact HU|].
    intros ? []. }
  intros ? Href. cbv beta in Href.
  eapply outcome_bind.
  { instantiate (1 := fun _ => PrimFloat.eqb s_osm 0 = false).
    destruct (PrimFloat.eqb s_osm 0); [|now apply outcome_ret].
    eapply outcome_bind; [apply (outcome_raise _ (fun _ => False)); exact HU|].
    intros ? []. }
  intros ? Hosm. cbv beta in Hosm.
  eapply outcome_bind; [now apply outcome_py_div|intros q _].
  eapply outcome_bind; [apply outcome_new_processid|intros processid _].
  eapply outcome_bind; [outcome_walk|intros [ref osm] _].
  eapply outcome_bind; [outcome_walk|intros list_buff _].
  eapply outcome_bind.
  { apply outcome_for_each. intros s x. now apply stat_step_outcome. }
  intros st _.
  eapply outcome_bind.
  { apply outcome_map_m. intros x. now apply table_row_outcome. }
  intros rows _.
  outcome_walk.
Qed.

Lemma map_m_py_float_none (l : list string) tr :
  all_some (map float_of_str l) = None ->
  map_m py_float l tr = (Raise ValueError, tr).
Proof.
  induction l as [|s l IH]; cbn [map all_some map_m]; [discriminate|].
  intros H. unfold bind. unfold py_float at 1.
  destruct (float_of_str s) as [x|]; [|reflexivity]. cbn [ret].
  destruct (all_some (map float_of_str l)); [discriminate|].
  now rewrite IH.
Qed.

Lemma float_list_unparsable (P : event -> Prop) (l : list string) :
  all_some (map float_of_str l) = None ->
  emits P (fun _ => False) (map_m py_float l).
Proof.
  intros H tr. exists []. rewrite map_m_py_float_none by exact H.
  cbn. rewrite app_nil_r. repeat split; [constructor|discriminate].
Qed.

Lemma unbound_local (P : event -> Prop) {A} (name : string) :
  emits P (fun _ : A => False) (local name None).
Proof.
  intros tr. exists []. cbn. rewrite app_nil_r. repeat split; [constructor|discriminate].
Qed.

Ltac before_buffers_tac := unfold before_buffers; cbn; tauto.

Lemma length_before_buffers data : emits before_buffers any (Precomp.length data).
Proof. unfold Precomp.length. emits_with before_buffers_tac. Qed.

Lemma precomp_main_unparsable_buffers (o : options) :
  buffer_values o = None ->
  emits before_buffers (fun _ => False) (Precomp.main o).
Proof.
  intros Hnone. unfold Precomp.main. cbv zeta.
  do 5 (eapply (emits_bind _ any); [emits_walk|intros ? _]).
  do 2 (eapply (emits_bind _ any); [apply length_before_buffers|intros ? _]).
  do 2 (eapply (emits_bind _ any);
        [match goal with |- emits _ _ (if ?b then _ else _) => destruct b end;
         [eapply emits_bind; [apply unbound_local|intros ? []]
         |apply (emits_ret _ any); exact I]
        |intros ? _]).
  do 2 (eapply (emits_bind _ any); [emits_walk|intros ? _]).
  eapply (emits_bind _ any); [emits_with before_buffers_tac|intros [ref osm] _].
  eapply emits_bind; [apply float_list_unparsable; exact Hnone|intros ? []].
Qed.

End PrecompFailure.

(** X9.  In a session where every command returns and the report file
    can be written, a run of v.osm.precomp that does not return ends in
    one of three ways: the abort on a missing input map, the unbound
    [processid] of the zero-length branches, or an [IndexError] or
    [ValueError] from text that does not parse.  It never ends in a
    division by zero (every divisor has passed a test against zero), and
    neither "No ... data for comparison" message is ever the message of
    its abort. *)
Theorem precomp_failures_classified {py : Python} {gr : Grass}
  (o : options) (tr : list event) (e : exn) :
  fst (Precomp.main o tr) = Raise e ->
  precomp_failure o e /\
  e <> ZeroDivisionError /\
  e <> Fatal "No reference data for comparison" /\
  e <> Fatal "No OSM data for comparison".
Proof.
  intros H. pose proof (precomp_main_outcome o tr) as Ho. rewrite H in Ho.
  split; [exact Ho|].
  destruct Ho as [(name & _ & ->)|[->|[->| ->]]];
    repeat split; unfold not_found; cbn; discriminate.
Qed.

(** The run on an empty reference map. *)
Lemma precomp_failures_classified_witness :
  precomp_failure Demo.precomp_options (UnboundLocalError "processid") /\
  UnboundLocalError "processid" <> ZeroDivisionError /\
  UnboundLocalError "processid" <> Fatal "No reference data for comparison" /\
  UnboundLocalError "processid" <> Fatal "No OSM data for comparison".
Proof.
  apply (precomp_failures_classified (py := Demo.python)
           (gr := Demo.empty_ref_session) Demo.precomp_options []).
  vm_compute. reflexivity.
Defined.

(** X10.  The [buffers] option is parsed as a whole before the first
    buffer is computed: when one of its comma-separated values is not a
    float, the run never returns, and all it has issued are the [v.info]
    and [v.to.db] reads of the two lengths and the two [v.overlay] of the
    clipping mask; no [v.buffer], no report file, no [g.remove]. *)
Theorem unparsable_buffers_stop_before_first_buffer {py : Python} {gr : Grass}
  (o : options) (tr : list event) :
  buffer_values o = None ->
  exists evs,
    snd (Precomp.main o tr) = tr ++ evs /\
    Forall before_buffers evs /\
    forall r, fst (Precomp.main o tr) <> Ok r.
Proof.
  intros H. destruct (precomp_main_unparsable_buffers o H tr) as (evs & E & F & Q).
  exists evs. repeat split; [exact E|exact F|]. intros r Hr. exact (Q r Hr).
Qed.

(** The run with the buffers 0.25 and ten: the two lengths, the two
    overlays, and [ValueError]. *)
Lemma unparsable_buffers_stop_before_first_buffer_witness :
  buffer_values (py := Demo.python) Demo.bad_buffers_options = None /\
  Precomp.main (py := Demo.python) (gr := Demo.precomp_session)
    Demo.bad_buffers_options []
  = (Raise ValueError,
     [ Read (info_cmd "ref"); Read (length_cmd "ref");
       Read (info_cmd "osm"); Read (length_cmd "osm") ]
     ++ clip_events (py := Demo.python) (gr := Demo.precomp_session)
          Demo.bad_buffers_options []) /\
  exists evs,
    snd (Precomp.main (py := Demo.python) (gr := Demo.precomp_session)
           Demo.bad_buffers_options []) = [] ++ evs /\
    Forall before_buffers evs /\
    forall r, fst (Precomp.main (py := Demo.python) (gr := Demo.precomp_session)
                     Demo.bad_buffers_options []) <> Ok r.
Proof.
  split; [vm_compute; reflexivity|]. split; [vm_compute; reflexivity|].
  apply (unparsable_buffers_stop_before_first_buffer (py := Demo.python)
           (gr := Demo.precomp_session) Demo.bad_buffers_options []).
  vm_compute. reflexivity.
Defined.

(** ** The worker loop and the pool of v.osm.preproc *)

Lemma bind_returns {A B} (m : M A) (k : A -> M B) tr b t :
  bind m k tr = (Ok b, t) ->
  exists a t1, m tr = (Ok a, t1) /\ k a t1 = (Ok b, t).
Proof.
  unfold bind. destruct (m tr) as [[a|e] t1]; [|discriminate].
  intros H. now exists a, t1.
Qed.

Section Worker.
Context {py : Python} {gr : Grass}.
Variable func :
  string -> string -> string -> string -> string -> list string -> pyval -> M Z.

Lemma spawn_tasks (ts : list job) (rest : list Preproc.task) : forall q tr,
  Preproc.spawn func (map Some ts ++ None :: rest) q tr
  = (rs <- map_m (call func) ts ;; ret (q ++ rs)) tr.
Proof.
  induction ts as [|t ts IH]; intros q tr; cbn [map app Preproc.spawn map_m].
  - unfold bind, ret. now rewrite app_nil_r.
  - destruct t as [[[[[[f process] ref] osm] bf] list_lines] angle_thres].
    unfold bind at 1 2 3. cbn [call].
    destruct (func f process ref osm bf list_lines angle_thres tr) as [[r|e] t1];
      [|reflexivity].
    rewrite IH. unfold bind.
    destruct (map_m (call func) ts t1) as [[rs|e] t2]; [|reflexivity].
    unfold ret. now rewrite <- app_assoc.
Qed.

Lemma spawn_no_sentinel (ts : list job) : forall q tr r,
  fst (Preproc.spawn func (map Some ts) q tr) <> Ok r.
Proof.
  induction ts as [|t ts IH]; intros q tr r; cbn [map Preproc.spawn].
  - discriminate.
  - destruct t as [[[[[[f process] ref] osm] bf] list_lines] angle_thres].
    unfold bind.
    destruct (func f process ref osm bf list_lines angle_thres tr) as [[r'|e] t1];
      [apply IH|discriminate].
Qed.

(** A worker process puts at most one marker per feature it takes. *)
Lemma process_markers (q_in : list Preproc.task) : forall q tr left q' t,
  Preproc.process func q_in q tr = (Ok (left, q'), t) ->
  (List.length q' + features_in left <= List.length q + features_in q_in)%nat.
Proof.
  induction q_in as [|item q_in IH]; intros q tr left q' t H;
    cbn [Preproc.process] in H.
  - discriminate.
  - destruct item as [[[[[[[f process] ref] osm] bf] list_lines] angle_thres]|].
    + apply bind_returns in H. destruct H as ([r|] & t1 & _ & H).
      * apply IH in H. rewrite length_app in H. cbn [List.length] in H.
        unfold features_in in *. cbn [filter List.length]. lia.
      * unfold ret in H. injection H as <- <- _.
        unfold features_in. cbn [filter List.length]. lia.
    + unfold ret in H. injection H as <- <- _.
      unfold features_in. cbn [filter]. lia.
Qed.

Lemma processes_markers (nproc : nat) : forall q_in q tr left q' t,
  Preproc.processes func nproc q_in q tr = (Ok (left, q'), t) ->
  (List.length q' + features_in left <= List.length q + features_in q_in)%nat.
Proof.
  induction nproc as [|nproc IH]; intros q_in q tr left q' t H;
    cbn [Preproc.processes] in H.
  - unfold ret in H. injection H as <- <- _. lia.
  - apply bind_returns in H. destruct H as ([left1 q1] & t1 & H1 & H).
    apply process_markers in H1. apply IH in H. cbn [fst snd] in H. lia.
Qed.

Lemma features_in_tasks (mk : string -> job) (fs : list string) (k : nat) :
  features_in (map (fun f => Some (mk f)) fs ++ repeat None k) = List.length fs.
Proof.
  unfold features_in. rewrite filter_app, length_app.
  replace (filter _ (repeat None k)) with (@nil Preproc.task)
    by (induction k as [|k IH]; [reflexivity|exact IH]).
  induction fs as [|f fs IH]; cbn in *; lia.
Qed.

End Worker.

(** One step of a run that returns, its result left aside. *)
Ltac returned H := apply bind_returns in H; destruct H as (? & ? & _ & H).

Section Pool.
Context {py : Python} {gr : Grass}.

Lemma preproc_returns_inv (o : options) (tr t : list event) (z : Z) :
  Preproc.main o tr = (Ok z, t) ->
  exists nproc t1 more,
    int_of_str (o "nprocs") = Some nproc /\
    t = t1 ++ Read (features_cmd (processid_at tr)) :: more /\
    let features :=
      slice_0_m1 (split nl (grass_stdout t1 (features_cmd (processid_at tr)))) in
    ((0 < nproc)%Z -> (Z.to_nat nproc <= List.length features)%nat) /\
    ((nproc <= 0)%Z -> (List.length features <= 1)%nat).
Proof.
  intros H. unfold Preproc.main in H. cbv zeta in H.
  apply bind_returns in H. destruct H as (nproc & t0 & Hn & H).
  unfold py_int in Hn. destruct (int_of_str (o "nprocs")) as [n|] eqn:En;
    [|discriminate]. unfold ret in Hn. injection Hn as -> <-.
  apply bind_returns in H. destruct H as (found & t0 & Hf & H).
  unfold find_file in Hf. injection Hf as <- <-.
  apply bind_returns in H. destruct H as (? & t0 & Hf & H).
  destruct (negb _); [discriminate|]. unfold ret in Hf. injection Hf as _ <-.
  apply bind_returns in H. destruct H as (found & t0 & Hf & H).
  unfold find_file in Hf. injection Hf as <- <-.
  apply bind_returns in H. destruct H as (? & t0 & Hf & H).
  destruct (negb _); [discriminate|]. unfold ret in Hf. injection Hf as _ <-.
  apply bind_returns in H. destruct H as (processid & t0 & Hp & H).
  unfold new_processid, bind, now, ret in Hp. injection Hp as <- <-.
  fold (processid_at tr) in H.
  (* the lengths, the generalisation, the splits, the degrees *)
  do 21 returned H.
  apply bind_returns in H. destruct H as (sel & t2 & Hsel & H).
  fold (features_cmd (processid_at tr)) in Hsel.
  unfold read_command in Hsel. cbv beta in Hsel.
  match type of Hsel with (_, ?t1 ++ _) = _ => set (t1' := t1) in * end.
  injection Hsel as <- <-.
  exists nproc, t1'.
  assert (Hext : exists evs, t = (t1' ++ [Read (features_cmd (processid_at tr))]) ++ evs).
  { match type of H with
    | ?K _ = _ => assert (HK : emits quiet any K)
    end.
    { do 2 quiet_next.
      eapply emits_bind; [apply processes_emits; auto|].
      intros st Hq.
      eapply emits_bind; [quiet_walk|intros _ _].
      eapply emits_bind; [now apply get_all_emits|].
      intros processed Hp.
      fold (errors_of processed). rewrite (no_errors _ Hp).
      quiet_walk. }
    destruct (HK (t1' ++ [Read (features_cmd (processid_at tr))]))
      as (evs & E & _ & _).
    rewrite H in E. cbn [snd] in E. now exists evs. }
  destruct Hext as (evs & ->).
  exists evs. split; [reflexivity|]. split; [now rewrite <- app_assoc|].
  do 2 returned H.
  apply bind_returns in H. destruct H as ([left q_out] & t3 & Hpool & H).
  cbn [fst snd] in H.
  apply bind_returns in H. destruct H as (? & ? & Hput & H).
  destruct (1 <? List.length left)%nat eqn:Hone; [discriminate|].
  apply Nat.ltb_ge in Hone. clear Hput.
  apply bind_returns in H. destruct H as (processed & t4 & Hget & _).
  unfold Preproc.get_all in Hget.
  destruct (Z.to_nat nproc <=? List.length q_out)%nat eqn:Hle; [|discriminate].
  apply Nat.leb_le in Hle. clear Hget.
  cbv zeta. split.
  - intros _. apply processes_markers in Hpool.
    rewrite features_in_tasks in Hpool. cbn [List.length] in Hpool. lia.
  - intros Hneg. replace (Z.to_nat nproc) with 0%nat in Hpool by lia.
    cbn [Preproc.processes repeat] in Hpool. unfold ret in Hpool.
    injection Hpool as <- _ _. rewrite app_nil_r, length_map in Hone. exact Hone.
Qed.

End Pool.

(** X11.  The loop of a worker applies [func] to the tuples it takes
    from [q_in], in order, up to the first tuple of [None]s, and puts one
    result per tuple on [q_out], in the same order; what follows the
    tuple of [None]s is never taken, and an exception of [func] ends the
    loop with the results of the tuples after it never computed. *)
Theorem spawn_runs_tasks_until_sentinel {py : Python} {gr : Grass}
  (func : string -> string -> string -> string -> string -> list string
          -> pyval -> M Z)
  (ts : list job) (rest : list Preproc.task) (q : list Z) (tr : list event) :
  Preproc.spawn func (map Some ts ++ None :: rest) q tr
  = (rs <- map_m (call func) ts ;; ret (q ++ rs)) tr.
Proof. apply spawn_tasks. Qed.

(** X12.  A worker leaves its loop only by taking the tuple of [None]s:
    on a queue that holds tasks alone it never returns (it waits on the
    empty queue, unless [func] has raised before). *)
Theorem spawn_returns_only_at_sentinel {py : Python} {gr : Grass}
  (func : string -> string -> string -> string -> string -> list string
          -> pyval -> M Z)
  (ts : list job) (q : list Z) (tr : list event) (r : list Z) :
  fst (Preproc.spawn func (map Some ts) q tr) <> Ok r.
Proof. apply spawn_no_sentinel. Qed.

(** X13.  A run of v.osm.preproc returns only when the split reference
    map has at least [nprocs] features: [main] takes one marker per
    worker from [q_out], which holds at most one marker per feature, the
    marker of a comparison that returned; a worker that died has put
    none for the feature it died on.  (With [nprocs] below one there is
    no worker, and [main] returns only when there is at most one feature
    to put on the one-place queue.) *)
Theorem preproc_returns_only_with_enough_features {py : Python} {gr : Grass}
  (o : options) (tr t : list event) (z : Z) :
  Preproc.main o tr = (Ok z, t) ->
  exists nproc t1 more,
    int_of_str (o "nprocs") = Some nproc /\
    t = t1 ++ Read (features_cmd (processid_at tr)) :: more /\
    let features :=
      slice_0_m1 (split nl (grass_stdout t1 (features_cmd (processid_at tr)))) in
    ((0 < nproc)%Z -> (Z.to_nat nproc <= List.length features)%nat) /\
    ((nproc <= 0)%Z -> (List.length features <= 1)%nat).
Proof. apply preproc_returns_inv. Qed.

(** The run on one reference feature with one worker. *)
Lemma preproc_returns_only_with_enough_features_witness :
  let run := Preproc.main (py := Demo.python) (gr := Demo.diagonal_session)
               Demo.preproc_options [] in
  exists nproc t1 more,
    int_of_str (Python := Demo.python) (Demo.preproc_options "nprocs") = Some nproc /\
    snd run = t1 ++ Read (features_cmd Demo.pid) :: more /\
    let features :=
      slice_0_m1 (split nl (grass_stdout (Grass := Demo.diagonal_session) t1
                              (features_cmd Demo.pid))) in
    ((0 < nproc)%Z -> (Z.to_nat nproc <= List.length features)%nat) /\
    ((nproc <= 0)%Z -> (List.length features <= 1)%nat).
Proof.
  cbv zeta.
  apply (preproc_returns_only_with_enough_features (py := Demo.python)
           (gr := Demo.diagonal_session) Demo.preproc_options []
           (snd (Preproc.main (py := Demo.python) (gr := Demo.diagonal_session)
                   Demo.preproc_options [])) 0%Z).
  vm_compute. reflexivity.
Defined.

(** X14.  v.osm.preproc on an empty dataset: when both input maps are
    found and the reference map has length zero, or the OSM map has,
    [main] issues [g.remove] with its process identifier as pattern right
    after the reads of the two lengths, and aborts with "No reference
    data for comparison", or "No OSM data for comparison"; the reference
    map is tested first. *)
Theorem preproc_empty_dataset_removes_then_aborts {py : Python} {gr : Grass}
  (o : options) (tr : list event) (nproc : Z)
  (l_osm : float) (tr1 : list event) (l_ref : float) (tr2 : list event) :
  int_of_str (o "nprocs") = Some nproc ->
  first_missing (grass_find_file tr) (preproc_inputs o) = None ->
  Preproc.length (o "osm") tr = (Ok l_osm, tr1) ->
  Preproc.length (o "ref") tr1 = (Ok l_ref, tr2) ->
  (PrimFloat.eqb l_ref 0 = true ->
   Preproc.main o tr
   = (Raise (Fatal "No reference data for comparison"),
      tr2 ++ [Run (Cmd "g.remove" [("flags", Str "fr"); ("type", Str "vect");
                                   ("quiet", Flag true);
                                   ("pattern", Str (processid_at tr))])]))
  /\
  (PrimFloat.eqb l_ref 0 = false -> PrimFloat.eqb l_osm 0 = true ->
   Preproc.main o tr
   = (Raise (Fatal "No OSM data for comparison"),
      tr2 ++ [Run (Cmd "g.remove" [("type", Str "vect"); ("flags", Str "fr");
                                   ("quiet", Flag true);
                                   ("pattern", Str (processid_at tr))])])).
Proof. apply preproc_zero_length_aborts. Qed.

(** The run on a reference map without a line. *)
Lemma preproc_empty_dataset_removes_then_aborts_witness :
  Preproc.main (py := Demo.python) (gr := Demo.empty_ref_session)
    Demo.preproc_options []
  = (Raise (Fatal "No reference data for comparison"),
     [Read (info_cmd "osm"); Read (length_cmd "osm"); Read (info_cmd "ref")]
     ++ [Run (Cmd "g.remove" [("flags", Str "fr"); ("type", Str "vect");
                              ("quiet", Flag true);
                              ("pattern",
                               Str (processid_at (py := Demo.python)
                                      (gr := Demo.empty_ref_session) []))])]).
Proof.
  refine (proj1 (preproc_empty_dataset_removes_then_aborts (py := Demo.python)
                   (gr := Demo.empty_ref_session) Demo.preproc_options [] 1%Z
                   80%float [Read (info_cmd "osm"); Read (length_cmd "osm")]
                   0%float
                   [Read (info_cmd "osm"); Read (length_cmd "osm");
                    Read (info_cmd "ref")] _ _ _ _) _);
    vm_compute; reflexivity.
Defined.

(** ** The summary of v.osm.preproc *)

(** One step of a run that returns: a command, a print or the file. *)
Ltac issued H :=
  let Hm := fresh "Hm" in
  apply bind_returns in H; destruct H as (? & ? & Hm & H);
  unfold run_command, print, write_file, emit in Hm; injection Hm as _ <-.

Section Summary.
Context {py : Python} {gr : Grass}.

Lemma preproc_summary_inv (o : options) (tr t : list event) (z : Z) :
  Preproc.main o tr = (Ok z, t) ->
  z = 0%Z /\
  exists l_osm t1 l_ref t2 pre l_osm_proc t4,
    Preproc.length (o "osm") tr = (Ok l_osm, t1) /\
    Preproc.length (o "ref") t1 = (Ok l_ref, t2) /\
    Preproc.length (o "output")
      (pre ++ [Run (remove_all_temporary (processid_at tr))])
    = (Ok l_osm_proc, t4) /\
    t = t4 ++ summary_events o l_ref l_osm l_osm_proc.
Proof.
  intros H. unfold Preproc.main in H. cbv zeta in H.
  apply bind_returns in H. destruct H as (nproc & t0 & Hn & H).
  unfold py_int in Hn. destruct (int_of_str (o "nprocs")) as [n|] eqn:En;
    [|discriminate]. unfold ret in Hn. injection Hn as -> <-.
  apply bind_returns in H. destruct H as (found & t0 & Hf & H).
  unfold find_file in Hf. injection Hf as <- <-.
  apply bind_returns in H. destruct H as (? & t0 & Hf & H).
  destruct (negb _); [discriminate|]. unfold ret in Hf. injection Hf as _ <-.
  apply bind_returns in H. destruct H as (found & t0 & Hf & H).
  unfold find_file in Hf. injection Hf as <- <-.
  apply bind_returns in H. destruct H as (? & t0 & Hf & H).
  destruct (negb _); [discriminate|]. unfold ret in Hf. injection Hf as _ <-.
  apply bind_returns in H. destruct H as (processid & t0 & Hp & H).
  unfold new_processid, bind, now, ret in Hp. injection Hp as <- <-.
  fold (processid_at tr) in H.
  apply bind_returns in H. destruct H as (l_osm & t1 & Hosm & H).
  apply bind_returns in H. destruct H as (l_ref & t2 & Href & H).
  (* the two tests against zero *)
  apply bind_returns in H. destruct H as (? & ? & Hzr & H).
  destruct (PrimFloat.eqb l_ref 0) eqn:Zr.
  { apply bind_returns in Hzr. destruct Hzr as (? & ? & _ & Hzr). discriminate. }
  clear Hzr.
  apply bind_returns in H. destruct H as (? & ? & Hzo & H).
  destruct (PrimFloat.eqb l_osm 0) eqn:Zo.
  { apply bind_returns in Hzo. destruct Hzo as (? & ? & _ & Hzo). discriminate. }
  clear Hzo.
  (* the preparation of the maps, the features, the data base *)
  do 20 returned H.
  (* the pool *)
  apply bind_returns in H. destruct H as (st & t5 & Hpool & H).
  apply bind_returns in H. destruct H as (? & ? & _ & H).
  apply bind_returns in H. destruct H as (processed & t6 & Hget & H).
  assert (Hq : Forall (eq 0%Z) (snd st)).
  { match type of Hpool with
    | Preproc.processes _ ?n ?q_in _ ?t = _ =>
        assert (Hs : emits any_event (fun st => Forall (eq 0%Z) (snd st))
                       (Preproc.processes Preproc.AngulatComparison n q_in []))
          by (apply processes_emits; [intro; exact I|intro; exact I|constructor]);
        destruct (Hs t) as (? & _ & _ & HQ)
    end.
    apply HQ. now rewrite Hpool. }
  assert (Hp : Forall (eq 0%Z) processed).
  { unfold Preproc.get_all in Hget. destruct (_ <=? _)%nat; [|discriminate].
    unfold ret in Hget. injection Hget as <- _. now apply Forall_take. }
  fold (errors_of processed) in H. rewrite (no_errors _ Hp) in H.
  clear Hpool Hget Hq Hp.
  (* the final patch, the output map, the removal of the named maps *)
  do 6 returned H.
  apply bind_returns in H. destruct H as (? & t3 & Hrm & H).
  fold (remove_all_temporary (processid_at tr)) in Hrm.
  unfold run_command, emit in Hrm.
  match type of Hrm with (_, ?p ++ _) = _ => set (pre := p) in * end.
  injection Hrm as _ <-.
  apply bind_returns in H. destruct H as (l_osm_proc & t4 & Hout & H).
  apply bind_returns in H. destruct H as (q1 & ? & Hq1 & H).
  unfold py_div in Hq1. rewrite Zo in Hq1. unfold ret in Hq1.
  injection Hq1 as <- <-.
  apply bind_returns in H. destruct H as (q2 & ? & Hq2 & H).
  unfold py_div in Hq2. rewrite Zr in Hq2. unfold ret in Hq2.
  injection Hq2 as <- <-.
  apply bind_returns in H. destruct H as (? & t7 & Hfile & H).
  do 6 issued H.
  unfold ret in H. injection H as <- <-.
  split; [reflexivity|].
  exists l_osm, t1, l_ref, t2, pre, l_osm_proc, t4.
  repeat split; try assumption.
  unfold summary_events, summary_file, summary_lines. cbn [map].
  destruct (nonempty (o "out_file")).
  - unfold write_file, emit in Hfile. injection Hfile as _ <-.
    repeat rewrite <- app_assoc. reflexivity.
  - unfold ret in Hfile. injection Hfile as _ <-.
    repeat rewrite <- app_assoc. reflexivity.
Qed.

End Summary.

(** X15.  A run of v.osm.preproc that returns, returns 0 and ends with
    its summary: the file [out_file], when that option is given, with
    the length of the reference map and the four lines of the summary,
    and then the four lines printed between two rules.  The figures are
    the lengths of the maps of the options [osm] and [ref], read first
    of all and so before the generalisation and the splits, and the
    length of the [output] map, read right after the removal of every
    map whose name matches [*processid*]; the two percentages divide by
    the lengths of [osm] and [ref], which have passed the tests against
    zero.  The runs in which a worker has died on a feature, and [main]
    has had its markers all the same, are among them. *)
Theorem preproc_summary {py : Python} {gr : Grass}
  (o : options) (tr t : list event) (z : Z) :
  Preproc.main o tr = (Ok z, t) ->
  z = 0%Z /\
  exists l_osm t1 l_ref t2 pre l_osm_proc t4,
    Preproc.length (o "osm") tr = (Ok l_osm, t1) /\
    Preproc.length (o "ref") t1 = (Ok l_ref, t2) /\
    Preproc.length (o "output")
      (pre ++ [Run (remove_all_temporary (processid_at tr))])
    = (Ok l_osm_proc, t4) /\
    t = t4 ++ summary_events o l_ref l_osm l_osm_proc.
Proof. apply preproc_summary_inv. Qed.

(** The run on one reference feature: of the OSM map of length 10 the
    output map keeps 6. *)
Lemma preproc_summary_witness :
  let run := Preproc.main (py := Demo.python) (gr := Demo.diagonal_session)
               Demo.preproc_options [] in
  skipn 44 (snd run)
  = summary_events (py := Demo.python) Demo.preproc_options 8 10 6
  /\
  (0%Z = 0%Z /\
   exists l_osm t1 l_ref t2 pre l_osm_proc t4,
     Preproc.length (py := Demo.python) (gr := Demo.diagonal_session)
       (Demo.preproc_options "osm") [] = (Ok l_osm, t1) /\
     Preproc.length (py := Demo.python) (gr := Demo.diagonal_session)
       (Demo.preproc_options "ref") t1 = (Ok l_ref, t2) /\
     Preproc.length (py := Demo.python) (gr := Demo.diagonal_session)
       (Demo.preproc_options "output")
       (pre ++ [Run (remove_all_temporary
                       (processid_at (py := Demo.python)
                          (gr := Demo.diagonal_session) []))])
     = (Ok l_osm_proc, t4) /\
     snd run = t4 ++ summary_events (py := Demo.python) Demo.preproc_options
                       l_ref l_osm l_osm_proc).
Proof.
  cbv zeta. split; [vm_compute; reflexivity|].
  apply (preproc_summary (py := Demo.python) (gr := Demo.diagonal_session)
           Demo.preproc_options []
           (snd (Preproc.main (py := Demo.python) (gr := Demo.diagonal_session)
                   Demo.preproc_options [])) 0%Z).
  vm_compute. reflexivity.
Defined.

(** ** [GetInfo] on the files the scripts write *)

Lemma append_assoc (a b c : string) : (a @@ b) @@ c = a @@ b @@ c.
Proof. induction a as [|x a IH]; cbn; [reflexivity|now rewrite IH]. Qed.

Lemma newline_free_app (a b : string) :
  newline_free (a @@ b) = newline_free a && newline_free b.
Proof.
  induction a as [|x a IH]; cbn; [reflexivity|]. now rewrite IH, andb_assoc.
Qed.

Lemma split_nonempty (sep : ascii) (s : string) : split sep s <> [].
Proof.
  destruct s as [|c s]; cbn; [discriminate|].
  destruct (Ascii.eqb c sep); [discriminate|]. now destruct (split sep s).
Qed.

Lemma split_line (a rest : string) :
  newline_free a = true -> split nl (a @@ String nl rest) = a :: split nl rest.
Proof.
  induction a as [|c a IH]; cbn [newline_free append split]; intros H.
  - now rewrite Ascii.eqb_refl.
  - apply andb_prop in H. destruct H as [Hc Ha].
    apply negb_true_iff in Hc. rewrite Hc, (IH Ha). reflexivity.
Qed.

(** A line of a file: its text, the newline, and what follows. *)
Lemma split_ended (a rest : string) :
  newline_free a = true ->
  split nl ((a @@ String nl "") @@ rest) = a :: split nl rest.
Proof. intros H. rewrite append_assoc. cbn [append]. now apply split_line. Qed.

Lemma concat_cons (x y : string) (l : list string) :
  String.concat "" (x :: y :: l) = x @@ String.concat "" (y :: l).
Proof. reflexivity. Qed.

Lemma concat_empty_cons (x : string) (l : list string) :
  String.concat "" (x :: l) = x @@ String.concat "" l.
Proof.
  destruct l; [|reflexivity]. cbn.
  induction x as [|c x IH]; cbn; [reflexivity|now rewrite <- IH].
Qed.

Lemma split_ended_lines (bodies : list string) :
  forallb newline_free bodies = true ->
  split nl (String.concat "" (map ended bodies)) = bodies ++ [""].
Proof.
  induction bodies as [|b bodies IH]; cbn [forallb map]; intros H.
  - reflexivity.
  - apply andb_prop in H. destruct H as [Hb H].
    rewrite concat_empty_cons. unfold ended at 1.
    rewrite (split_ended _ _ Hb), (IH H). reflexivity.
Qed.

(** A text of lines, each ended by a newline, read back line by line. *)
Lemma file_lines_ended (bodies : list string) :
  forallb newline_free bodies = true ->
  file_lines (String.concat "" (map ended bodies)) = bodies.
Proof.
  intros H. unfold file_lines. cbv zeta. rewrite (split_ended_lines _ H).
  rewrite last_last, removelast_last. reflexivity.
Qed.

Section GetInfo.
Context {py : Python}.

(** A file of at most five lines has no sixth line to read. *)
Lemma GetInfo_short (content : string) tr :
  (List.length (file_lines content) <= 5)%nat ->
  Precomp.GetInfo content tr = (Raise IndexError, tr).
Proof.
  intros Hlen. unfold Precomp.GetInfo. cbv zeta.
  assert (H5 : nth_error (map strip (file_lines content)) 5 = None)
    by (apply nth_error_None; now rewrite length_map).
  unfold bind at 1.
  destruct (nth_error (map strip (file_lines content)) 3) as [line|] eqn:H3;
    [rewrite (index_some _ _ _ _ H3)|now rewrite (index_none _ _ _ H3)].
  unfold bind at 1.
  destruct (nth_error (split_str ": " line) 1) as [field|] eqn:Hf;
    [rewrite (index_some _ _ _ _ Hf)|now rewrite (index_none _ _ _ Hf)].
  unfold bind at 1.
  destruct (nth_error (split " " field) 0) as [ref_in|] eqn:Hr;
    [rewrite (index_some _ _ _ _ Hr)|now rewrite (index_none _ _ _ Hr)].
  unfold bind at 1. now rewrite (index_none _ _ _ H5).
Qed.

(** A file whose fourth line is blank has no figure there. *)
Lemma GetInfo_blank (l0 l1 l2 : string) (more : list string) tr content :
  file_lines content = l0 :: l1 :: l2 :: "" :: more ->
  Precomp.GetInfo content tr = (Raise IndexError, tr).
Proof.
  intros E. unfold Precomp.GetInfo. cbv zeta. rewrite E. reflexivity.
Qed.

Lemma GetInfo_precomp_report (s_ref s_osm : float) (buffers : list float)
  (stats : list (float * float * float * float)) tr :
  forallb newline_free
    [ Report.shown s_ref; Report.shown s_osm;
      Report.shown (s_ref - s_osm)%float;
      Report.shown (Report.percent (s_ref - s_osm)%float s_ref) ] = true ->
  Precomp.GetInfo (Report.file s_ref s_osm buffers stats) tr
  = (Raise IndexError, tr).
Proof.
  cbn [forallb]. rewrite !andb_true_iff. intros (H0 & H1 & H2 & H3 & _).
  unfold Report.file, Report.file_with, Report.totals.
  cbn [app]. rewrite !concat_cons.
  set (rest := String.concat "" _).
  assert (E : exists more,
             file_lines
               (("REF length: " @@ Report.shown s_ref @@ " m" @@ Report.eol)
                @@ ("OSM length: " @@ Report.shown s_osm @@ " m" @@ Report.eol)
                @@ ("REF-OSM difference: " @@ Report.shown (s_ref - s_osm)%float
                      @@ " m ("
                      @@ Report.shown (Report.percent (s_ref - s_osm)%float s_ref)
                      @@ "%)" @@ Report.eol)
                @@ Report.eol @@ rest)
             = ("REF length: " @@ Report.shown s_ref @@ " m")
                 :: ("OSM length: " @@ Report.shown s_osm @@ " m")
                 :: ("REF-OSM difference: " @@ Report.shown (s_ref - s_osm)%float
                       @@ " m ("
                       @@ Report.shown (Report.percent (s_ref - s_osm)%float s_ref)
                       @@ "%)")
                 :: "" :: more).
  { unfold file_lines, Report.eol. cbv zeta.
    replace ("REF length: " @@ Report.shown s_ref @@ " m" @@ String nl "")
      with (("REF length: " @@ Report.shown s_ref @@ " m") @@ String nl "")
      by (now rewrite !append_assoc).
    replace ("OSM length: " @@ Report.shown s_osm @@ " m" @@ String nl "")
      with (("OSM length: " @@ Report.shown s_osm @@ " m") @@ String nl "")
      by (now rewrite !append_assoc).
    replace ("REF-OSM difference: " @@ Report.shown (s_ref - s_osm)%float
               @@ " m ("
               @@ Report.shown (Report.percent (s_ref - s_osm)%float s_ref)
               @@ "%)" @@ String nl "")
      with (("REF-OSM difference: " @@ Report.shown (s_ref - s_osm)%float
               @@ " m ("
               @@ Report.shown (Report.percent (s_ref - s_osm)%float s_ref)
               @@ "%)") @@ String nl "")
      by (now rewrite !append_assoc).
    rewrite 3 split_ended
      by (rewrite ?newline_free_app, ?H0, ?H1, ?H2, ?H3; reflexivity).
    change (split nl (String nl "" @@ rest)) with ("" :: split nl rest).
    destruct (split nl rest) as [|y ys] eqn:Er;
      [now apply split_nonempty in Er|].
    destruct (String.eqb (last _ "") "").
    - exists (removelast (y :: ys)). reflexivity.
    - now exists (y :: ys). }
  destruct E as (more & E). exact (GetInfo_blank _ _ _ more tr _ E).
Qed.

Lemma GetInfo_preproc_file (l_ref l_osm l_osm_proc : float) tr :
  forallb newline_free (summary_figures l_ref l_osm l_osm_proc) = true ->
  Precomp.GetInfo (summary_file l_ref l_osm l_osm_proc) tr
  = (Raise IndexError, tr).
Proof.
  unfold summary_figures. cbv zeta. cbn [forallb map]. rewrite !andb_true_iff.
  intros (H0 & H1 & H2 & H3 & H4 & H5 & H6 & _).
  apply GetInfo_short.
  replace (summary_file l_ref l_osm l_osm_proc)
    with (String.concat ""
            (map ended
               [ "REF dataset length: " @@ str_of_float (round1 l_ref) @@ " m";
                 "Original OSM dataset length: "
                   @@ str_of_float (round1 l_osm) @@ " m";
                 "Processed OSM dataset length: "
                   @@ str_of_float (round1 l_osm_proc) @@ " m";
                 "Difference between OSM original and processed datasets length: "
                   @@ str_of_float (round1 (l_osm - l_osm_proc)%float) @@ " m ("
                   @@ str_of_float
                        (round1 ((l_osm - l_osm_proc) / l_osm * 100)%float)
                   @@ "%)";
                 "Difference between REF dataset and processed OSM dataset length: "
                   @@ str_of_float (round1 (l_ref - l_osm_proc)%float) @@ " m ("
                   @@ str_of_float
                        (round1 ((l_ref - l_osm_proc) / l_ref * 100)%float)
                   @@ "%)" ]))
    by (unfold summary_file, summary_lines, ended; cbn [map];
        now rewrite !append_assoc).
  rewrite file_lines_ended; [cbn [List.length]; lia|].
  cbn [forallb]. rewrite !newline_free_app, H0, H1, H2, H3, H4, H5, H6.
  reflexivity.
Qed.

End GetInfo.
(** X16.  [GetInfo] cannot read the report v.osm.precomp writes: the
    fourth line of that file is blank, so the search for a figure after
    [": "] in it ends in [IndexError], whatever the lengths and the
    buffers of the report (the four figures of its first three lines
    being printed without a newline). *)
Theorem GetInfo_cannot_read_precomp_report {py : Python}
  (s_ref s_osm : float) (buffers : list float)
  (stats : list (float * float * float * float)) (tr : list event) :
  forallb newline_free
    [ Report.shown s_ref; Report.shown s_osm;
      Report.shown (s_ref - s_osm)%float;
      Report.shown (Report.percent (s_ref - s_osm)%float s_ref) ] = true ->
  Precomp.GetInfo (Report.file s_ref s_osm buffers stats) tr
  = (Raise IndexError, tr).
Proof. apply GetInfo_precomp_report. Qed.

(** The report of the demo session. *)
Lemma GetInfo_cannot_read_precomp_report_witness :
  Precomp.GetInfo (py := Demo.python) Demo.precomp_report []
  = (Raise IndexError, []).
Proof.
  apply (GetInfo_cannot_read_precomp_report (py := Demo.python) 100 80
           [0.25; 10]%float [Demo.precomp_stats; Demo.precomp_stats] []).
  vm_compute. reflexivity.
Defined.

(** X17.  [GetInfo] cannot read the statistics file of v.osm.preproc
    either: that file has five lines, and [GetInfo] asks for the sixth
    (the seven figures of the file being printed without a newline). *)
Theorem GetInfo_cannot_read_preproc_file {py : Python}
  (l_ref l_osm l_osm_proc : float) (tr : list event) :
  forallb newline_free (summary_figures l_ref l_osm l_osm_proc) = true ->
  Precomp.GetInfo (summary_file l_ref l_osm l_osm_proc) tr
  = (Raise IndexError, tr).
Proof. apply GetInfo_preproc_file. Qed.

(** The statistics of the run on one reference feature. *)
Lemma GetInfo_cannot_read_preproc_file_witness :
  Precomp.GetInfo (py := Demo.python)
    (summary_file (py := Demo.python) 8 10 6) []
  = (Raise IndexError, []).
Proof.
  apply (GetInfo_cannot_read_preproc_file (py := Demo.python) 8 10 6 []).
  vm_compute. reflexivity.
Defined.

(** ** The file of v.osm.preproc *)

Ltac only_out_file_tac :=
  first [ exact I | split; [assumption|reflexivity] ].

Ltac out_file_walk :=
  repeat
    lazymatch goal with
    | |- emits _ _ (bind _ _) => eapply emits_bind; [ | intros ? _ ]
    | |- emits _ _ (if ?b then _ else _) => destruct b eqn:?
    | |- emits _ _ (Preproc.length _) =>
        apply length_emits; intro; only_out_file_tac
    | |- emits _ _ (Preproc.py_min _) => apply py_min_emits
    | |- emits _ _ (map_m _ _) => apply emits_map_m; intros ?
    | |- emits _ _ (print _) => apply emits_emit; only_out_file_tac
    | |- emits _ _ (write_file _ _) => apply emits_emit; only_out_file_tac
    | |- emits _ _ (run_command _) => apply emits_emit; only_out_file_tac
    | |- emits _ _ (read_command _) => apply emits_read; only_out_file_tac
    | |- emits _ _ (match ?x with _ => _ end) => destruct x
    | |- emits _ _ _ => emits_leaf
    end.

Section OutFile.
Context {py : Python} {gr : Grass}.

Lemma main_only_out_file (o : options) :
  emits (only_out_file o) any (Preproc.main o).
Proof.
  unfold Preproc.main. cbv zeta.
  eapply emits_bind; [emits_leaf|intros nproc _].
  repeat (eapply emits_bind; [ solve [out_file_walk] | intros ? _ ]).
  eapply emits_bind;
    [apply processes_emits; [intro; exact I|intro; exact I|constructor]|].
  intros st Hq.
  eapply emits_bind; [out_file_walk|intros _ _].
  eapply emits_bind; [now apply get_all_emits|].
  intros processed Hp.
  fold (errors_of processed). rewrite (no_errors _ Hp).
  out_file_walk.
Qed.

End OutFile.

(** X18.  v.osm.preproc writes no file but the one the option [out_file]
    names, and none at all when that option is empty, whether the run
    returns or not, and whether its workers leave their loops or die. *)
Theorem preproc_writes_only_out_file {py : Python} {gr : Grass}
  (o : options) (tr : list event) :
  exists evs,
    snd (Preproc.main o tr) = tr ++ evs /\
    forall path text,
      In (FileWritten path text) evs -> path = o "out_file" /\ path <> "".
Proof.
  destruct (main_only_out_file o tr) as (evs & E & F & _).
  exists evs. split; [exact E|].
  intros path text Hin. rewrite Forall_forall in F.
  destruct (F _ Hin) as [Hne ->]. split; [reflexivity|].
  intros Hempty. rewrite Hempty in Hne. discriminate.
Qed.

(** X19.  The value ["-"] of [out_file], which the description of the
    option gives to the standard output, is a file name like any other:
    a run that returns with [out_file=-] has written the statistics to
    the file ["-"], right before it prints them. *)
Theorem dash_out_file_names_a_file {py : Python} {gr : Grass}
  (o : options) (tr t : list event) (z : Z) :
  o "out_file" = "-" ->
  Preproc.main o tr = (Ok z, t) ->
  exists pre l_ref l_osm l_osm_proc,
    t = pre
        ++ FileWritten "-" (summary_file l_ref l_osm l_osm_proc)
        :: Print Preproc.rule
        :: map Print (summary_lines l_ref l_osm l_osm_proc)
        ++ [Print Preproc.rule].
Proof.
  intros Hdash Hm.
  destruct (preproc_summary_inv o tr _ z Hm)
    as (_ & l_osm & t1 & l_ref & t2 & pre & l_proc & t4 & _ & _ & _ & ->).
  exists t4, l_ref, l_osm, l_proc.
  unfold summary_events. rewrite Hdash. reflexivity.
Qed.

(** The run on one reference feature, asked for [out_file=-]. *)
Lemma dash_out_file_names_a_file_witness :
  exists pre l_ref l_osm l_osm_proc,
    snd (Preproc.main (py := Demo.python) (gr := Demo.diagonal_session)
           Demo.dash_options [])
    = pre
      ++ FileWritten "-" (summary_file (py := Demo.python) l_ref l_osm l_osm_proc)
      :: Print Preproc.rule
      :: map Print (summary_lines (py := Demo.python) l_ref l_osm l_osm_proc)
      ++ [Print Preproc.rule].
Proof.
  apply (dash_out_file_names_a_file (py := Demo.python)
           (gr := Demo.diagonal_session) Demo.dash_options [] _ 0%Z).
  - reflexivity.
  - vm_compute. reflexivity.
Defined.

(** ** The angle test in a run of v.osm.preproc *)

Ltac kept_tac :=
  let H := fresh "H" in
  intros (? & ? & ? & H); unfold remove_events, newodata in H;
  cbn [append] in H; discriminate H.

Ltac kept_walk :=
  repeat
    lazymatch goal with
    | |- emits _ _ (bind _ _) => eapply emits_bind; [ | intros ? _ ]
    | |- emits _ _ (if ?b then _ else _) => destruct b
    | |- emits _ _ (Preproc.length _) => apply length_emits; intro; kept_tac
    | |- emits _ _ (Preproc.GetCoeff _) => apply GetCoeff_emits; intro; kept_tac
    | |- emits _ _ (Preproc.py_min _) => apply py_min_emits
    | |- emits _ _ (map_m _ _) => apply emits_map_m; intros ?
    | |- emits _ _ (print _) => apply emits_emit; kept_tac
    | |- emits _ _ (write_file _ _) => apply emits_emit; kept_tac
    | |- emits _ _ (run_command _) => apply emits_emit; kept_tac
    | |- emits _ _ (read_command _) => apply emits_read; kept_tac
    | |- emits _ _ (match ?x with _ => _ end) => destruct x
    | |- emits _ _ _ => emits_leaf
    end.

Section Kept.
Context {py : Python} {gr : Grass}.

(** The body of the loop, the threshold being a string: the test holds,
    and the branch that patches is taken. *)
Lemma subfeature_step_kept f patch newodata m_ref (thres : string) z sf :
  emits kept any
    (Preproc.subfeature_step f patch newodata m_ref (PyStr thres) z sf).
Proof.
  unfold Preproc.subfeature_step. cbv zeta.
  eapply emits_bind; [kept_walk|intros ? _].
  eapply emits_bind; [kept_walk|intros m_osm _].
  eapply emits_bind; [unfold Preproc.new_angle; kept_walk|intros angle _].
  rewrite string_threshold_always_holds. kept_walk.
Qed.

Lemma AngulatComparison_kept f processid ref osm bf list_lines (thres : string) :
  emits kept (fun r => r = 0%Z)
    (Preproc.AngulatComparison f processid ref osm bf list_lines (PyStr thres)).
Proof.
  unfold Preproc.AngulatComparison. cbv zeta.
  do 8 (eapply emits_bind; [kept_walk|intros ? _]).
  eapply emits_bind; [|intros ? _; now apply emits_ret].
  match goal with |- emits _ _ (if ?b then _ else _) => destruct b end.
  - kept_walk.
  - eapply emits_bind; [kept_walk|intros ? _].
    eapply emits_bind; [kept_walk|intros ? _].
    eapply emits_bind; [|intros ? _; kept_walk].
    apply (emits_for_each _ any); [|exact I].
    intros z sf _. apply subfeature_step_kept.
Qed.

(** The worker processes on the items [main] puts: the threshold of
    every task is the option string. *)
Lemma process_kept (q_in : list Preproc.task) : forall q_out,
  Forall string_threshold q_in ->
  Forall (eq 0%Z) q_out ->
  emits kept
    (fun st => Forall string_threshold (fst st) /\ Forall (eq 0%Z) (snd st))
    (Preproc.process Preproc.AngulatComparison q_in q_out).
Proof.
  induction q_in as [|item q_in IH]; intros q_out Hin Hq; cbn [Preproc.process].
  - apply emits_raise.
  - inversion Hin as [|? ? Hitem Hrest]; subst.
    destruct item as [[[[[[[f process] ref] osm] bf] list_lines] angle_thres]|].
    + destruct angle_thres as [x|thres]; [destruct Hitem|].
      eapply emits_bind;
        [apply emits_attempt; apply AngulatComparison_kept|].
      intros [r|] Hr.
      * subst r. apply IH; [assumption|].
        apply Forall_app. split; [assumption|now constructor].
      * apply emits_ret. now split.
    + apply emits_ret. now split.
Qed.

Lemma processes_kept (nproc : nat) : forall q_in q_out,
  Forall string_threshold q_in ->
  Forall (eq 0%Z) q_out ->
  emits kept
    (fun st => Forall string_threshold (fst st) /\ Forall (eq 0%Z) (snd st))
    (Preproc.processes Preproc.AngulatComparison nproc q_in q_out).
Proof.
  induction nproc as [|nproc IH]; intros q_in q_out Hin Hq;
    cbn [Preproc.processes].
  - apply emits_ret. now split.
  - eapply emits_bind; [now apply process_kept|].
    intros st [Hleft Hst]. now apply IH.
Qed.

Lemma main_kept (o : options) : emits kept any (Preproc.main o).
Proof.
  unfold Preproc.main. cbv zeta.
  eapply emits_bind; [emits_leaf|intros nproc _].
  repeat (eapply emits_bind; [ solve [kept_walk] | intros ? _ ]).
  eapply emits_bind.
  { apply processes_kept; [|constructor].
    apply Forall_app. split.
    - apply Forall_forall. intros item Hin. apply in_map_iff in Hin.
      destruct Hin as (f & <- & _). exact I.
    - apply Forall_forall. intros item Hin. apply repeat_spec in Hin.
      subst item. exact I. }
  intros st [_ Hq].
  eapply emits_bind; [kept_walk|intros _ _].
  eapply emits_bind; [now apply get_all_emits|].
  intros processed Hp.
  fold (errors_of processed). rewrite (no_errors _ Hp).
  kept_walk.
Qed.

End Kept.

(** X20.  No run of v.osm.preproc rejects a subfeature: the removal of a
    subfeature alone, which is the [else] branch of the test of the angle
    against the threshold, is never issued, whatever the options and the
    session; every subfeature whose angle has been computed is patched,
    by the workers that die later on as by the others.
    [AngulatComparison] itself does reject when its threshold is a
    float: with the threshold 10.0 it removes the subfeature at 45
    degrees of the session that [main], with [angle_thres=10], patches. *)
Theorem preproc_never_rejects_a_subfeature {py : Python} {gr : Grass}
  (o : options) (tr : list event) :
  (exists evs,
     snd (Preproc.main o tr) = tr ++ evs /\
     forall processid f sf, ~ incl (remove_events processid f sf) evs)
  /\
  incl (remove_events Demo.pid "1" "1")
    (snd (Preproc.AngulatComparison (py := Demo.python)
            (gr := Demo.diagonal_session)
            "1" Demo.pid "ref" "osm" "5" ["1"] (PyFloat 10) [])).
Proof.
  split.
  - destruct (main_kept o tr) as (evs & E & F & _).
    exists evs. split; [exact E|].
    intros processid f sf Hincl. rewrite Forall_forall in F.
    apply (F (hd (Print "") (remove_events processid f sf))).
    + apply Hincl. now left.
    + now exists processid, f, sf.
  - intros e [<-|[]]. vm_compute. tauto.
Qed.
